(** * QuantifyMe: the score engine and the record store

    A shallow embedding of [app/services/score_engine.py],
    [app/persistence/db.py], [app/persistence/models.py] and
    [app/persistence/repositories/records_repo.py], with the properties
    the specification states about them.

    Conventions of the embedding.
    - A Python [float] is an exact rational ([Q]); equality of computed
      numbers is [Qeq] ([==]).  Overflow, NaN and the rounding error of
      binary64 arithmetic are outside the model.
    - A Python [dict] with string keys is a [gmap string _].
    - A calendar day ([datetime.date]) is its proleptic ordinal, a [Z];
      the bounds of Python's date range are not modelled.
    - A raised exception is the [Err] case of [result]. *)

From Stdlib Require Import ZArith QArith Qround Qabs Qminmax Qpower Lqa Lia List Bool
  Ascii String Floats.
From stdpp Require Import base option list sorting gmap strings fin_maps.

Local Open Scope Q_scope.

(** ** Exceptions *)

(** One out-of-domain field, as [_check] reports it: the text
    [f"{name} hors bornes: {v} (attendu {lo}..{hi})"], kept as its four
    components. *)
Record violation : Type := mk_violation {
  v_name : string;
  v_value : Q;
  v_lo : Q;
  v_hi : Q
}.

Inductive exn : Type :=
| InputValidationError (errors : list violation)
    (* "; ".join(errors) *)
| TypeError
    (* _normalize_date: "Invalid date type" *)
| ValueError_isoformat
    (* raised by datetime.date.fromisoformat *)
| ValueError_duplicate (day : Z)
    (* add: f"Record déjà présent pour {day}" *)
| IntegrityError.
    (* the database refuses a row at flush *)

Inductive result (A : Type) : Type :=
| Ok (a : A)
| Err (e : exn).
Arguments Ok {A} a.
Arguments Err {A} e.

Module ScoreEngine.

(** *** Constants *)

Definition MIN_SCALE : Q := 0.
Definition MAX_SCALE : Q := 10.
Definition MAX_SLEEP_HOURS : Q := 14.

Definition DEFAULT_WEIGHTS : gmap string Q :=
  <["stress" := -(1)]>
    (<["sommeil" := 1]>
      (<["humeur" := 1]>
        (<["concentration" := 2]> ∅))).

Record DailyInput : Type := mk_DailyInput {
  humeur : Q;
  sommeil : Q;
  stress : Q;
  concentration : Q
}.

Record ScoreResult : Type := mk_ScoreResult {
  scj : Q;
  raw : Q;
  weights : gmap string Q
}.

(** *** Python builtins on floats *)

(** [min(a, b)]: the first argument unless the second is smaller. *)
Definition py_min (a b : Q) : Q := if Qlt_le_dec b a then b else a.

(** [max(a, b)]: the first argument unless the second is larger. *)
Definition py_max (a b : Q) : Q := if Qlt_le_dec a b then b else a.

(** Rounding to the nearest integer, ties to the even one. *)
Definition round_half_even (x : Q) : Z :=
  let f := Qfloor x in
  match Qcompare (x - inject_Z f) (1 # 2) with
  | Lt => f
  | Gt => (f + 1)%Z
  | Eq => if Z.even f then f else (f + 1)%Z
  end.

(** [round(x, ndigits)] on a float: the multiple of [10 ** -ndigits]
    nearest to [x], ties to the even multiple. *)
Definition py_round (x : Q) (ndigits : Z) : Q :=
  let s := Qpower 10 ndigits in
  inject_Z (round_half_even (x * s)) / s.

(** [sum(abs(x) for x in xs)]: a left fold that starts at 0. *)
Definition sum_abs (xs : list Q) : Q :=
  foldl (fun acc x => acc + Qabs x) 0 xs.

(** [w.values()] *)
Definition values (w : gmap string Q) : list Q := (map_to_list w).*2.

(** [w.get(k, 0.0)] *)
Definition get (w : gmap string Q) (k : string) : Q := default 0 (w !! k).

(** *** The engine *)

Definition _clamp (value low high : Q) : Q := py_max low (py_min high value).

(** [_check] of [validate_input]: the list [errors] extended, or not. *)
Definition _check (name : string) (v lo hi : Q) (errors : list violation)
  : list violation :=
  if negb (Qle_bool lo v && Qle_bool v hi)
  then errors ++ [mk_violation name v lo hi]
  else errors.

Definition validate_input (d : DailyInput) : result unit :=
  let errors := [] in
  let errors := _check "humeur" (humeur d) MIN_SCALE MAX_SCALE errors in
  let errors := _check "stress" (stress d) MIN_SCALE MAX_SCALE errors in
  let errors :=
    _check "concentration" (concentration d) MIN_SCALE MAX_SCALE errors in
  let errors := _check "sommeil (heures)" (sommeil d) 0 MAX_SLEEP_HOURS errors in
  match errors with
  | [] => Ok tt
  | _ :: _ => Err (InputValidationError errors)
  end.

Definition numerator (w : gmap string Q) (d : DailyInput) : Q :=
  get w "concentration" * concentration d
  + get w "humeur" * humeur d
  + get w "sommeil" * sommeil d
  + get w "stress" * stress d.

(** [sum(abs(x) for x in w.values()) or 1.0] *)
Definition denom (w : gmap string Q) : Q :=
  let s := sum_abs (values w) in
  if Qeq_bool s 0 then 1 else s.

Definition compute_scj (d : DailyInput) (weights : option (gmap string Q))
    (rounding : Z) (clamp_output : bool) : result ScoreResult :=
  match validate_input d with
  | Err e => Err e
  | Ok _ =>
      let w := match weights with None => DEFAULT_WEIGHTS | Some w => w end in
      let raw_score := numerator w d / denom w in
      let final :=
        if clamp_output then _clamp raw_score MIN_SCALE MAX_SCALE
        else raw_score in
      let final := py_round final rounding in
      Ok (mk_ScoreResult final raw_score w)
  end.

(** The call with every optional argument left out. *)
Definition compute_scj_default (d : DailyInput) : result ScoreResult :=
  compute_scj d None 2 true.

(** *** In binary64 *)

(** [raw_score] as [compute_scj] evaluates it on floats with
    [DEFAULT_WEIGHTS]: the products, the sums and the quotient in the
    order of the source, each rounded to binary64. *)
Definition raw_score_binary64 (h so st c : float) : float :=
  ((2 * c + 1 * h + 1 * so + (-1) * st)
   / (0 + abs 2 + abs 1 + abs 1 + abs (-1)))%float.

End ScoreEngine.

(** ** The table [records] *)

Module Models.

(** A row of [records]; the columns of [class Record]. *)
Record record : Type := mk_record {
  id : Z;
  user_id : Z;
  date : Z;
  humeur : Q;
  sommeil : Q;
  stress : Q;
  concentration : Q;
  scj : Q;
  interpretation : option string;
  created_at : Z
}.

(** The table, in rowid order. *)
Definition table : Type := list record.

(** The columns of [UniqueConstraint("user_id", "date", name="uq_user_day")]. *)
Definition uq_user_day (r : record) : Z * Z := (user_id r, date r).

(** The rowid SQLite gives to a row inserted without one: 1 in an empty
    table, one more than the largest otherwise. *)
Definition next_rowid (db : table) : Z :=
  match map id db with
  | [] => 1
  | i :: ids => foldl Z.max i ids + 1
  end%Z.

End Models.

(** ** Sessions *)

Module Db.
Import Models.

(** What runs between the [yield] of [get_session] and its return: a
    computation on the table that may raise. *)
Definition session (A : Type) : Type := table -> result A * table.

Definition ret {A} (a : A) : session A := fun db => (Ok a, db).

Definition raise {A} (e : exn) : session A := fun db => (Err e, db).

Definition bind {A B} (m : session A) (k : A -> session B) : session B :=
  fun db =>
    match m db with
    | (Ok a, db') => k a db'
    | (Err e, db') => (Err e, db')
    end.

(** [with get_session() as s: body]: commit when the body returns,
    rollback (the table as it was) when it raises. *)
Definition get_session {A} (body : session A) : table -> result A * table :=
  fun db =>
    match body db with
    | (Ok a, db') => (Ok a, db')
    | (Err e, _) => (Err e, db)
    end.

(** [s.scalar(select(Record).where(p).limit(1))]: the first row that
    satisfies [p], [None] when there is none. *)
Definition scalar (p : record -> bool) : session (option record) :=
  fun db => (Ok (List.find p db), db).

(** [s.scalars(select(Record).where(p))]. *)
Definition scalars (p : record -> bool) : session (list record) :=
  fun db => (Ok (List.filter p db), db).

End Db.

Module RecordsRepo.
Import Models Db.

Notation "'let!' x ':=' m 'in' k" := (bind m (fun x => k))
  (at level 10, x name, m at level 200, k at level 200).

(** A value passed as [date], [start], [end] or [end_date]. *)
Inductive date_arg : Type :=
| Datetime (day : Z) (time : Z)   (* a dt.datetime: its date() and its time *)
| Date (day : Z)                  (* a dt.date *)
| Str (s : string)
| Other (truthy : bool).          (* anything else; bool(d) is all that is used *)

(** The keyword arguments [**fields]: for each data column of [Record],
    the value passed under its name, if any.  These six names are the
    ones the callers pass ([app/main.py], [scripts/seed_local_data.py],
    the tests). *)
Record fields : Type := mk_fields {
  f_humeur : option Q;
  f_sommeil : option Q;
  f_stress : option Q;
  f_concentration : option Q;
  f_scj : option Q;
  f_interpretation : option (option string)
}.

(** [for k, v in fields.items(): setattr(rec, k, v)] *)
Definition setattrs (rec : record) (f : fields) : record :=
  {| id := id rec;
     user_id := user_id rec;
     date := date rec;
     humeur := default (humeur rec) (f_humeur f);
     sommeil := default (sommeil rec) (f_sommeil f);
     stress := default (stress rec) (f_stress f);
     concentration := default (concentration rec) (f_concentration f);
     scj := default (scj rec) (f_scj f);
     interpretation := default (interpretation rec) (f_interpretation f);
     created_at := created_at rec |}.

(** [bool(x)] for the result of [s.scalar(select(Record.id)...)]. *)
Definition truthy_id (x : option Z) : bool :=
  match x with
  | None => false
  | Some i => negb (i =? 0)%Z
  end.

(** [bool(d)] for an optional date argument. *)
Definition truthy_date (d : option date_arg) : bool :=
  match d with
  | None => false
  | Some (Datetime _ _) => true
  | Some (Date _) => true
  | Some (Str s) => negb (String.eqb s "")
  | Some (Other b) => b
  end.

(** [Record.user_id == user_id, Record.date == day] *)
Definition on_day (user : Z) (day : Z) (r : record) : bool :=
  (user_id r =? user)%Z && (date r =? day)%Z.

(** [r = Record(user_id=user_id, date=day, **fields); s.add(r); s.flush();
    s.refresh(r)]: the INSERT.  The database refuses a row with a NULL in
    a [nullable=False] column or with the [uq_user_day] columns of a row
    it holds; otherwise the row gets its rowid and [created_at] gets its
    default, [func.now()]. *)
Definition flush_insert (user : Z) (day : Z) (f : fields) (now : Z)
  : session record :=
  fun db =>
    match f_humeur f, f_sommeil f, f_stress f, f_concentration f, f_scj f with
    | Some h, Some so, Some st, Some c, Some sc =>
        if existsb (on_day user day) db then (Err IntegrityError, db)
        else
          let r := {| id := next_rowid db;
                      user_id := user;
                      date := day;
                      humeur := h;
                      sommeil := so;
                      stress := st;
                      concentration := c;
                      scj := sc;
                      interpretation := default None (f_interpretation f);
                      created_at := now |} in
          (Ok r, db ++ [r])
    | _, _, _, _, _ => (Err IntegrityError, db)
    end.

(** [s.add(rec); s.flush(); s.refresh(rec)] for a loaded, modified
    [rec]: the UPDATE of the row with its primary key. *)
Definition flush_update (rec : record) : session record :=
  fun db =>
    (Ok rec, map (fun r => if (id r =? id rec)%Z then rec else r) db).

(** [s.delete(rec)], flushed at commit: the DELETE of the row with its
    primary key. *)
Definition flush_delete (rec : record) : session unit :=
  fun db => (Ok tt, List.filter (fun r => negb (id r =? id rec)%Z) db).

Section Repository.

(** [datetime.date.fromisoformat], by ordinal; [None] when it raises
    [ValueError]. *)
Variable fromisoformat : string -> option Z.

Definition _normalize_date (d : date_arg) : result Z :=
  match d with
  | Datetime day _ => Ok day
  | Date day => Ok day
  | Str s =>
      match fromisoformat s with
      | Some day => Ok day
      | None => Err ValueError_isoformat
      end
  | Other _ => Err TypeError
  end.

(** [_normalize_date] of an argument that may be [None] and is then
    left alone. *)
Definition normalize_bound (d : option date_arg) : result (option Z) :=
  match d with
  | None => Ok None
  | Some d =>
      match _normalize_date d with
      | Ok day => Ok (Some day)
      | Err e => Err e
      end
  end.

Definition add (user : Z) (date : date_arg) (f : fields) (now : Z)
  : table -> result record * table :=
  fun db =>
    match _normalize_date date with
    | Err e => (Err e, db)
    | Ok day =>
        get_session
          (let! found := scalar (on_day user day) in
           if truthy_id (id <$> found)
           then raise (ValueError_duplicate day)
           else flush_insert user day f now) db
    end.

Definition upsert (user : Z) (date : date_arg) (f : fields) (now : Z)
  : table -> result record * table :=
  fun db =>
    match _normalize_date date with
    | Err e => (Err e, db)
    | Ok day =>
        get_session
          (let! found := scalar (on_day user day) in
           match found with
           | Some rec => flush_update (setattrs rec f)
           | None => flush_insert user day f now
           end) db
    end.

Definition delete (user : Z) (date : date_arg)
  : table -> result bool * table :=
  fun db =>
    match _normalize_date date with
    | Err e => (Err e, db)
    | Ok day =>
        get_session
          (let! found := scalar (on_day user day) in
           match found with
           | None => ret false
           | Some rec => let! _u := flush_delete rec in ret true
           end) db
    end.

(** The WHERE clause of [get_range]. *)
Definition in_range (user : Z) (start end_ : option Z) (r : record) : bool :=
  (user_id r =? user)%Z
  && match start with None => true | Some a => (a <=? date r)%Z end
  && match end_ with None => true | Some b => (date r <=? b)%Z end.

(** [Record.date.asc() if asc else Record.date.desc()] *)
Definition date_order (asc : bool) (r1 r2 : record) : Prop :=
  if asc then (date r1 <= date r2)%Z else (date r2 <= date r1)%Z.

#[export] Instance date_order_dec asc r1 r2 : Decision (date_order asc r1 r2).
Proof. unfold date_order. destruct asc; apply _. Defined.

(** [ORDER BY]: a sort of the selected rows. *)
Definition order_by (asc : bool) (rows : list record) : list record :=
  merge_sort (date_order asc) rows.

Definition get_range (user : Z) (start end_ : option date_arg) (asc : bool)
  : table -> result (list record) * table :=
  fun db =>
    match normalize_bound start with
    | Err e => (Err e, db)
    | Ok a =>
        match normalize_bound end_ with
        | Err e => (Err e, db)
        | Ok b =>
            get_session
              (let! rows := scalars (in_range user a b) in
               ret (order_by asc rows)) db
        end
    end.

(** [func.avg]: NULL over no row, the sum over the count otherwise. *)
Definition sql_avg (xs : list Q) : option Q :=
  match xs with
  | [] => None
  | _ :: _ => Some (foldl Qplus 0 xs / inject_Z (Z.of_nat (length xs)))
  end.

(** [today] is what [dt.date.today()] returns. *)
Definition weekly_avg (user : Z) (end_date : option date_arg) (today : Z)
  : table -> result (option Q) * table :=
  fun db =>
    match
      (if truthy_date end_date
       then match end_date with
            | Some d => _normalize_date d
            | None => Ok today
            end
       else Ok today)
    with
    | Err e => (Err e, db)
    | Ok end_ =>
        let start := (end_ - 6)%Z in
        get_session
          (let! rows := scalars (in_range user (Some start) (Some end_)) in
           ret (sql_avg (map scj rows))) db
    end.

(** *** Sequences of calls *)

Inductive call : Type :=
| CallAdd (user : Z) (date : date_arg) (f : fields) (now : Z)
| CallUpsert (user : Z) (date : date_arg) (f : fields) (now : Z)
| CallDelete (user : Z) (date : date_arg).

(** The table after a call, whether it returned or raised. *)
Definition run_call (c : call) (db : table) : table :=
  match c with
  | CallAdd u d f now => snd (add u d f now db)
  | CallUpsert u d f now => snd (upsert u d f now db)
  | CallDelete u d => snd (delete u d db)
  end.

Definition run_calls (cs : list call) (db : table) : table :=
  foldl (fun db c => run_call c db) db cs.

End Repository.

End RecordsRepo.

(** ** Calendar *)

Module Calendar.

Local Open Scope Z_scope.

(** The days of [datetime]: the proleptic Gregorian ordinal of a year,
    month and day, day 1 being 0001-01-01. *)
Definition is_leap (y : Z) : bool :=
  (y mod 4 =? 0) && (negb (y mod 100 =? 0) || (y mod 400 =? 0)).

Definition days_in_month (y m : Z) : Z :=
  if m =? 2 then (if is_leap y then 29 else 28)
  else if (m =? 4) || (m =? 6) || (m =? 9) || (m =? 11) then 30
  else 31.

Definition days_before_month (y m : Z) : Z :=
  nth (Z.to_nat (m - 1))
    [0; 31; 59; 90; 120; 151; 181; 212; 243; 273; 304; 334] 0
  + (if (2 <? m) && is_leap y then 1 else 0).

Definition days_before_year (y : Z) : Z :=
  let y1 := y - 1 in
  y1 * 365 + y1 / 4 - y1 / 100 + y1 / 400.

(** [date(y, m, d).toordinal()], [None] when [date(y, m, d)] raises. *)
Definition ymd2ord (y m d : Z) : option Z :=
  if (1 <=? y) && (y <=? 9999) && (1 <=? m) && (m <=? 12)
     && (1 <=? d) && (d <=? days_in_month y m)
  then Some (days_before_year y + days_before_month y m + d)
  else None.

Definition digit (c : ascii) : option Z :=
  let n := Z.of_nat (nat_of_ascii c) in
  if (48 <=? n) && (n <=? 57) then Some (n - 48) else None.

Fixpoint digits (acc : Z) (cs : list ascii) : option Z :=
  match cs with
  | [] => Some acc
  | c :: cs =>
      match digit c with
      | Some n => digits (10 * acc + n) cs
      | None => None
      end
  end.

(** [datetime.date.fromisoformat] on the format [YYYY-MM-DD], the one it
    reads in every version of Python; the instance of [fromisoformat]
    that the examples below use. *)
Definition date_fromisoformat (s : string) : option Z :=
  match list_ascii_of_string s with
  | [y1; y2; y3; y4; sep1; m1; m2; sep2; d1; d2] =>
      if Ascii.eqb sep1 "-" && Ascii.eqb sep2 "-"
      then
        match digits 0 [y1; y2; y3; y4], digits 0 [m1; m2], digits 0 [d1; d2] with
        | Some y, Some m, Some d => ymd2ord y m d
        | _, _, _ => None
        end
      else None
  | _ => None
  end.

End Calendar.

(** * The vocabulary of the specification *)

(** ** Score engine *)

Module ScoreEngineTerms.
Import ScoreEngine.

(** Every weight of the mapping is zero. *)
Definition every_weight_zero (w : gmap string Q) : Prop :=
  forall k v, w !! k = Some v -> v == 0.

(** The four names [compute_scj] looks up. *)
Definition metric_names : list string :=
  ["concentration"; "humeur"; "sommeil"; "stress"].

(** Every key of the mapping is one of the four names. *)
Definition keys_are_metrics (w : gmap string Q) : Prop :=
  forall k, is_Some (w !! k) -> k ∈ metric_names.

(** The domains of the specification. *)
Definition in_domain (d : DailyInput) : Prop :=
  (0 <= humeur d <= 10) /\ (0 <= stress d <= 10) /\
  (0 <= concentration d <= 10) /\ (0 <= sommeil d <= 14).

(** The four fields with their bounds, in the order they are checked. *)
Definition checks (d : DailyInput) : list violation :=
  [ mk_violation "humeur" (humeur d) 0 10;
    mk_violation "stress" (stress d) 0 10;
    mk_violation "concentration" (concentration d) 0 10;
    mk_violation "sommeil (heures)" (sommeil d) 0 14 ].

Definition out_of_bounds (c : violation) : Prop :=
  ~ (v_lo c <= v_value c <= v_hi c).

#[export] Instance out_of_bounds_dec c : Decision (out_of_bounds c).
Proof.
  unfold out_of_bounds.
  destruct (Qlt_le_dec (v_value c) (v_lo c)) as [H | H].
  - left. intros [H1 _]. apply (Qlt_not_le _ _ H H1).
  - destruct (Qlt_le_dec (v_hi c) (v_value c)) as [H' | H'].
    + left. intros [_ H2]. apply (Qlt_not_le _ _ H' H2).
    + right. intros Hn. apply Hn. split; assumption.
Defined.

(** What the specification asks the error to hold: every field that is
    out of its domain. *)
Definition violations (d : DailyInput) : list violation :=
  filter out_of_bounds (checks d).

(** The day of the end-to-end scenario. *)
Definition scenario : DailyInput :=
  {| humeur := 7; sommeil := 6.5; stress := 3; concentration := 7.5 |}.

(** The contribution of one field to the numerator: nothing when the
    mapping has no entry under its name. *)
Definition term (w : gmap string Q) (name : string) (x : Q) : Q :=
  match w !! name with
  | Some weight => weight * x
  | None => 0
  end.

(** [scj] of the first day is at most [scj] of the second, both computed
    with the default weights. *)
Definition scj_le (rounding : Z) (clamp_output : bool) (d1 d2 : DailyInput)
  : Prop :=
  exists r1 r2,
    compute_scj d1 None rounding clamp_output = Ok r1 /\
    compute_scj d2 None rounding clamp_output = Ok r2 /\
    scj r1 <= scj r2.

End ScoreEngineTerms.

(** ** Record store *)

Module RecordsRepoTerms.
Import Models Db RecordsRepo.

Local Open Scope Z_scope.

(** [id] is the primary key. *)
Definition primary_key (db : table) : Prop := NoDup (map id db).

(** [uq_user_day]: at most one row per [(user_id, date)]. *)
Definition unique_user_day (db : table) : Prop := NoDup (map uq_user_day db).

(** A table as the repository finds it: the two constraints hold and the
    rowids are the positive ones that SQLite hands out. *)
Definition table_ok (db : table) : Prop :=
  primary_key db /\ unique_user_day db /\ Forall (fun r => 0 < id r) db.

#[export] Instance table_ok_dec db : Decision (table_ok db).
Proof. unfold table_ok, primary_key, unique_user_day. apply _. Defined.

(** The rows of one user on one day. *)
Definition rows_on (user day : Z) (db : table) : list record :=
  List.filter (on_day user day) db.

(** The call passes a value for each [nullable=False] data column. *)
Definition supplies_required (f : fields) : Prop :=
  is_Some (f_humeur f) /\ is_Some (f_sommeil f) /\ is_Some (f_stress f) /\
  is_Some (f_concentration f) /\ is_Some (f_scj f).

(** The row holds every value the call passes. *)
Definition holds (f : fields) (r : record) : Prop :=
  (forall v, f_humeur f = Some v -> humeur r = v) /\
  (forall v, f_sommeil f = Some v -> sommeil r = v) /\
  (forall v, f_stress f = Some v -> stress r = v) /\
  (forall v, f_concentration f = Some v -> concentration r = v) /\
  (forall v, f_scj f = Some v -> scj r = v) /\
  (forall v, f_interpretation f = Some v -> interpretation r = v).

(** The UPDATE of [db]: the row with the primary key of [rec] becomes
    [rec]. *)
Definition replace_row (rec : record) (db : table) : table :=
  map (fun r => if id r =? id rec then rec else r) db.

(** The seven days that end on [end_], for one user. *)
Definition in_window (user end_ : Z) (r : record) : Prop :=
  user_id r = user /\ end_ - 6 <= date r <= end_.

#[export] Instance in_window_dec user end_ r : Decision (in_window user end_ r).
Proof. unfold in_window. apply _. Defined.

(** The scores of the rows of the window. *)
Definition window_scores (user end_ : Z) (db : table) : list Q :=
  map scj (filter (in_window user end_) db).

(** The arithmetic mean of a list. *)
Definition mean (xs : list Q) : Q :=
  (foldr Qplus 0 xs / inject_Z (Z.of_nat (length xs)))%Q.

(** [start <= x <= end_], a missing bound being no bound. *)
Definition in_bounds (start end_ : option Z) (x : Z) : Prop :=
  match start with Some a => a <= x | None => True end /\
  match end_ with Some b => x <= b | None => True end.

(** The rows [get_range] is asked for. *)
Definition selected (user : Z) (start end_ : option Z) (r : record) : Prop :=
  user_id r = user /\ in_bounds start end_ (date r).

#[export] Instance selected_dec user start end_ r :
  Decision (selected user start end_ r).
Proof. unfold selected, in_bounds. destruct start, end_; apply _. Defined.

(** Strictly earlier, or strictly later when the order is descending. *)
Definition before (asc : bool) (r1 r2 : record) : Prop :=
  if asc then date r1 < date r2 else date r2 < date r1.


(** *** The rows and calls of the examples *)

(** 2025-03-03, as [datetime.date(2025, 3, 3).toordinal()] gives it. *)
Definition day_2025_03_03 : Z := 739313.

(** A table with one row of user 1 on 2025-03-03, annotated, and one row
    of user 2 on the same day. *)
Definition example_row : record :=
  {| id := 1; user_id := 1; date := day_2025_03_03;
     humeur := 5; sommeil := 7; stress := 3; concentration := 6;
     scj := 4.8; interpretation := Some "OK"; created_at := 100 |}.

Definition other_row : record :=
  {| id := 2; user_id := 2; date := day_2025_03_03;
     humeur := 4; sommeil := 8; stress := 2; concentration := 5;
     scj := 4.4; interpretation := None; created_at := 101 |}.

Definition example_db : table := [example_row; other_row].

(** [humeur=6, sommeil=7, stress=2, concentration=7, scj=6.4,
    interpretation="Mieux"] *)
Definition all_fields : fields :=
  {| f_humeur := Some 6%Q; f_sommeil := Some 7%Q; f_stress := Some 2%Q;
     f_concentration := Some 7%Q; f_scj := Some 6.4%Q;
     f_interpretation := Some (Some "Mieux") |}.

(** The same call without [interpretation]. *)
Definition no_interpretation : fields :=
  {| f_humeur := Some 6%Q; f_sommeil := Some 7%Q; f_stress := Some 2%Q;
     f_concentration := Some 7%Q; f_scj := Some 6.4%Q;
     f_interpretation := None |}.

(** The row with the given [id], day and score of user 1. *)
Definition scored_row (i day : Z) (score : Q) : record :=
  {| id := i; user_id := 1; date := day;
     humeur := 6; sommeil := 7; stress := 3; concentration := 6;
     scj := score; interpretation := None; created_at := 0 |}.

(** A week that ends on 2025-03-03 with three days recorded, a row
    before the week and a row of another user. *)
Definition sparse_week : table :=
  [ scored_row 1 (day_2025_03_03 - 6) 5;
    other_row;
    scored_row 3 (day_2025_03_03 - 7) 1;
    scored_row 4 (day_2025_03_03 - 3) 7;
    scored_row 5 day_2025_03_03 9 ].

(** C3 as it is stated: after [upsert] on a day that has a row, the row
    holds in every mutable column what the call passes, an
    [interpretation] that is not passed being the [None] that creation
    stores. *)
Definition overwrites_all_mutable_fields (f : fields) (r : record) : Prop :=
  holds f r /\ interpretation r = default None (f_interpretation f).

(** The row [r] has, in every data column the call does not pass, the
    value of the stored row [rec]. *)
Definition keeps_unpassed (f : fields) (rec r : record) : Prop :=
  (f_humeur f = None -> humeur r = humeur rec) /\
  (f_sommeil f = None -> sommeil r = sommeil rec) /\
  (f_stress f = None -> stress r = stress rec) /\
  (f_concentration f = None -> concentration r = concentration rec) /\
  (f_scj f = None -> scj r = scj rec) /\
  (f_interpretation f = None -> interpretation r = interpretation rec).


(** The last day of the window of [weekly_avg]: [end_date] normalised,
    [today] when it is [None] or falsy. *)
Definition window_end (fromisoformat : string -> option Z)
    (end_date : option date_arg) (today end_ : Z) : Prop :=
  match end_date with
  | Some d =>
      if truthy_date (Some d) then _normalize_date fromisoformat d = Ok end_
      else end_ = today
  | None => end_ = today
  end.

End RecordsRepoTerms.

(** * The rest of the code *)

(** ** [interpret_scj] *)

Module Interpretation.
Import ScoreEngine.

Definition interpret_scj (scj : Q) : string :=
  let s := _clamp scj MIN_SCALE MAX_SCALE in
  if Qle_bool 8.5 s then
    "Énergie mentale très élevée. Profite de ce pic pour les tâches complexes."
  else if Qle_bool 7.0 s then
    "Bonne clarté d'esprit. Planifie 1–2 blocs de deep work."
  else if Qle_bool 5.5 s then
    "État correct. Garde des pauses régulières pour rester stable."
  else if Qle_bool 4.0 s then
    "Baisse de régime. Privilégie les tâches simples et récupère."
  else
    "Fatigue cognitive marquée. Sommeil, hydratation et pause longue recommandés.".

(** The five messages, the lowest tier first. *)
Definition messages : list string :=
  [ "Fatigue cognitive marquée. Sommeil, hydratation et pause longue recommandés.";
    "Baisse de régime. Privilégie les tâches simples et récupère.";
    "État correct. Garde des pauses régulières pour rester stable.";
    "Bonne clarté d'esprit. Planifie 1–2 blocs de deep work.";
    "Énergie mentale très élevée. Profite de ce pic pour les tâches complexes." ].

(** The tier of a score by the thresholds alone, 0 the lowest. *)
Definition tier (s : Q) : nat :=
  if Qle_bool 8.5 s then 4%nat
  else if Qle_bool 7.0 s then 3%nat
  else if Qle_bool 5.5 s then 2%nat
  else if Qle_bool 4.0 s then 1%nat
  else 0%nat.

End Interpretation.

(** ** [app/services/ai_service.py] *)

Module AiService.
Import ScoreEngine.

Record DailyInputsLite : Type := mk_DailyInputsLite {
  humeur : Q;
  sommeil : Q;
  stress : Q;
  concentration : Q
}.

Definition stress_advice : string :=
  "Ton stress est élevé: respiration 4-7-8 et courte marche conseillées.".

Definition sleep_advice : string :=
  "Sommeil court: évite le multitâche, hydrate-toi, sieste courte si possible.".

Definition focus_advice : string :=
  "Fenêtre de focus: essaye 60–90 min de travail profond.".

(** The sentence of the tier, the first of [parts]. *)
Definition stub_tier_sentence (scj : Q) : string :=
  if Qle_bool 8.5 scj then
    "Énergie mentale très élevée. Vise tes tâches les plus complexes."
  else if Qle_bool 7.0 scj then
    "Bonne clarté d'esprit. Programme 1–2 blocs de deep work."
  else if Qle_bool 5.5 scj then
    "État correct. Garde des pauses régulières pour rester stable."
  else if Qle_bool 4.0 scj then
    "Baisse de régime. Favorise les tâches simples aujourd'hui."
  else
    "Fatigue cognitive marquée. Priorise récupération et sommeil.".

(** The sentences of the stub for the tiers, the lowest first. *)
Definition stub_messages : list string :=
  [ "Fatigue cognitive marquée. Priorise récupération et sommeil.";
    "Baisse de régime. Favorise les tâches simples aujourd'hui.";
    "État correct. Garde des pauses régulières pour rester stable.";
    "Bonne clarté d'esprit. Programme 1–2 blocs de deep work.";
    "Énergie mentale très élevée. Vise tes tâches les plus complexes." ].

(** The list [parts] of [StubProvider.generate] when it returns. *)
Definition stub_parts (scj : Q) (inputs : option DailyInputsLite)
  : list string :=
  let parts := [stub_tier_sentence scj] in
  match inputs with
  | None => parts
  | Some inputs =>
      let parts :=
        if Qle_bool 7 (stress inputs) then parts ++ [stress_advice]
        else parts in
      let parts :=
        if Qle_bool (sommeil inputs) 5.5 then parts ++ [sleep_advice]
        else parts in
      let parts :=
        if Qle_bool 8 (concentration inputs) && Qle_bool 7 scj
        then parts ++ [focus_advice]
        else parts in
      parts
  end.

(** [StubProvider.generate]: [" ".join(parts)]. *)
Definition StubProvider_generate (scj : Q) (inputs : option DailyInputsLite)
  : string :=
  String.concat " " (stub_parts scj inputs).

(** [AIService.generate_interpretation] with the provider [generate] of
    the service: [float(max(0.0, min(10.0, scj)))] goes to the provider. *)
Definition generate_interpretation {A}
    (generate : Q -> option DailyInputsLite -> A)
    (scj : Q) (inputs : option DailyInputsLite) : A :=
  let scj_safe := py_max 0 (py_min 10 scj) in
  generate scj_safe inputs.

(** [DailyInputsLite(humeur=..., sommeil=..., stress=..., concentration=...)]
    of the values of a [DailyInput], as [app/main.py] and the seed script
    build it. *)
Definition lite (d : DailyInput) : DailyInputsLite :=
  {| humeur := ScoreEngine.humeur d;
     sommeil := ScoreEngine.sommeil d;
     stress := ScoreEngine.stress d;
     concentration := ScoreEngine.concentration d |}.

End AiService.

(** ** [scripts/seed_local_data.py] *)

Module Seed.
Import ScoreEngine.

Definition clamp (x lo hi : Q) : Q := py_max lo (py_min hi x).

(** [sample_day_inputs], the four draws of [random.gauss] being given in
    the order they are made. *)
Definition sample_day_inputs (g_humeur g_stress g_concentration g_sommeil : Q)
  : DailyInput :=
  let humeur := clamp g_humeur 0 10 in
  let stress := clamp g_stress 0 10 in
  let concentration := clamp g_concentration 0 10 in
  let sommeil := clamp g_sommeil 4 9 in
  {| humeur := py_round humeur 1;
     sommeil := py_round sommeil 1;
     stress := py_round stress 1;
     concentration := py_round concentration 1 |}.

(** [daterange(end, days)]: the days it yields, in order. *)
Definition daterange (end_ days : Z) : list Z :=
  (fun i => end_ - (days - 1 - i))%Z <$> seqZ 0 days.

End Seed.

(** ** The other reads of [RecordRepository] *)

Module RecordsRepoReads.
Import Models Db RecordsRepo.

(** [.limit(n)] as SQLite reads it: the first [n] rows, every row when [n]
    is negative. *)
Definition limit {A} (n : Z) (rows : list A) : list A :=
  if (n <? 0)%Z then rows else take (Z.to_nat n) rows.

(** [s.scalar(select(func.count(Record.id)).where(p))] *)
Definition count (p : record -> bool) : session Z :=
  fun db => (Ok (Z.of_nat (length (List.filter p db))), db).

Definition last_n (user : Z) (n : Z) : table -> result (list record) * table :=
  get_session
    (let! rows := scalars (fun r => (user_id r =? user)%Z) in
     ret (rev (limit n (order_by false rows)))).

Section Repository.

Variable fromisoformat : string -> option Z.

(** [exists]; [c or 0] is [c] for the integer that COUNT returns. *)
Definition exists_ (user : Z) (date : date_arg)
  : table -> result bool * table :=
  fun db =>
    match _normalize_date fromisoformat date with
    | Err e => (Err e, db)
    | Ok day =>
        get_session
          (let! c := count (on_day user day) in
           ret (0 <? (if (c =? 0)%Z then 0 else c))%Z) db
    end.

End Repository.

End RecordsRepoReads.

(** ** [app/persistence/repositories/users_repo.py] *)

Module UsersRepo.

(** A row of [users]. *)
Record user : Type := mk_user {
  id : Z;
  email : string;
  is_premium : bool;
  created_at : Z
}.

Definition users : Type := list user.

Inductive user_exn : Type :=
| IntegrityError_email
    (* the database refuses a second row with the email: unique=True *)
| ValueError_unknown (email : string).
    (* set_premium: f"Utilisateur introuvable: {email}" *)

Inductive outcome (A : Type) : Type :=
| Returned (a : A)
| Raised (e : user_exn).
Arguments Returned {A} a.
Arguments Raised {A} e.

(** The rowid of a row inserted without one, as for [records]. *)
Definition next_user_id (db : users) : Z :=
  match map id db with
  | [] => 1
  | i :: ids => foldl Z.max i ids + 1
  end%Z.

(** [with get_session() as s: body] on the table [users]. *)
Definition in_session {A} (body : users -> outcome A * users)
  : users -> outcome A * users :=
  fun db =>
    match body db with
    | (Returned a, db') => (Returned a, db')
    | (Raised e, _) => (Raised e, db)
    end.

(** [s.scalar(select(User).where(User.email == e))] *)
Definition by_email (e : string) (db : users) : option user :=
  List.find (fun u => String.eqb (email u) e) db.

Section Repository.

(** [email.strip().lower()] *)
Variable normalize : string -> string.

Definition create (email_ : string) (is_premium_ : bool) (now : Z)
  : users -> outcome user * users :=
  in_session
    (fun db =>
       let e := normalize email_ in
       if existsb (fun u => String.eqb (email u) e) db
       then (Raised IntegrityError_email, db)
       else
         let u := {| id := next_user_id db; email := e;
                     is_premium := is_premium_; created_at := now |} in
         (Returned u, db ++ [u])).

Definition get_by_email (email_ : string)
  : users -> outcome (option user) * users :=
  in_session (fun db => (Returned (by_email (normalize email_) db), db)).

Definition get_or_create (email_ : string) (is_premium_ : bool) (now : Z)
  : users -> outcome user * users :=
  fun db =>
    match get_by_email email_ db with
    | (Raised e, db') => (Raised e, db')
    | (Returned (Some u), db') => (Returned u, db')
    | (Returned None, db') => create email_ is_premium_ now db'
    end.

Definition set_premium (email_ : string) (value : bool)
  : users -> outcome unit * users :=
  in_session
    (fun db =>
       match by_email (normalize email_) db with
       | None => (Raised (ValueError_unknown email_), db)
       | Some u =>
           let u' := {| id := id u; email := email u;
                        is_premium := value; created_at := created_at u |} in
           (Returned tt,
            map (fun r => if (id r =? id u)%Z then u' else r) db)
       end).

Inductive user_call : Type :=
| CallCreate (email_ : string) (is_premium_ : bool) (now : Z)
| CallGetOrCreate (email_ : string) (is_premium_ : bool) (now : Z)
| CallSetPremium (email_ : string) (value : bool).

(** The table after a call, whether it returned or raised. *)
Definition run_user_call (c : user_call) (db : users) : users :=
  match c with
  | CallCreate e p now => snd (create e p now db)
  | CallGetOrCreate e p now => snd (get_or_create e p now db)
  | CallSetPremium e v => snd (set_premium e v db)
  end.

Definition run_user_calls (cs : list user_call) (db : users) : users :=
  foldl (fun db c => run_user_call c db) db cs.

End Repository.

(** An instance of [normalize] for the examples: [strip] and [lower] on
    ASCII text. *)
Definition is_space (c : ascii) : bool :=
  let n := nat_of_ascii c in
  (n =? 32)%nat || ((9 <=? n)%nat && (n <=? 13)%nat).

Fixpoint lstrip (cs : list ascii) : list ascii :=
  match cs with
  | c :: cs' => if is_space c then lstrip cs' else cs
  | [] => []
  end.

Definition lower_ascii (c : ascii) : ascii :=
  let n := nat_of_ascii c in
  if (65 <=? n)%nat && (n <=? 90)%nat then ascii_of_nat (n + 32) else c.

Definition strip_lower (s : string) : string :=
  string_of_list_ascii
    (map lower_ascii
       (rev (lstrip (rev (lstrip (list_ascii_of_string s)))))).

End UsersRepo.

(** ** Vocabulary for the rest of the code *)

Module MoreTerms.
Import Models Db RecordsRepo.

Local Open Scope Z_scope.

(** The rows of a user. *)
Definition rows_of (user : Z) (db : table) : list record :=
  filter (fun r => user_id r = user) db.

(** The user a call is made for. *)
Definition call_user (c : call) : Z :=
  match c with
  | CallAdd u _ _ _ => u
  | CallUpsert u _ _ _ => u
  | CallDelete u _ => u
  end.

(** The table [users] as the repository finds it: [id] is the primary
    key and [email] is unique. *)
Definition users_ok (db : UsersRepo.users) : Prop :=
  NoDup (map UsersRepo.id db) /\ NoDup (map UsersRepo.email db).

#[export] Instance users_ok_dec db : Decision (users_ok db).
Proof. unfold users_ok. apply _. Defined.

(** A table of two users, for the examples. *)
Definition two_users : UsersRepo.users :=
  [ {| UsersRepo.id := 1; UsersRepo.email := "ada@example.org";
       UsersRepo.is_premium := false; UsersRepo.created_at := 10 |};
    {| UsersRepo.id := 2; UsersRepo.email := "bob@example.org";
       UsersRepo.is_premium := true; UsersRepo.created_at := 20 |} ].

End MoreTerms.

(** ** [app/main.py]: the form of the day *)

Module MainPage.
Import Models Db RecordsRepo.

(** The keyword arguments of the [upsert] of a computed day, in
    [app/main.py] and in the seed script: the four inputs, [scj] and
    [interpretation], which is passed also when it is [None]. *)
Definition day_fields (d : ScoreEngine.DailyInput) (scj : Q)
    (interpretation : option string) : fields :=
  {| f_humeur := Some (ScoreEngine.humeur d);
     f_sommeil := Some (ScoreEngine.sommeil d);
     f_stress := Some (ScoreEngine.stress d);
     f_concentration := Some (ScoreEngine.concentration d);
     f_scj := Some scj;
     f_interpretation := Some interpretation |}.

Section Page.

Variable fromisoformat : string -> option Z.

(** [generate] of the provider that [AIService()] has chosen: the text,
    or [None] when the call raises. *)
Variable provider : Q -> option AiService.DailyInputsLite -> option string.

(** The block [if submitted:], for the values of the widgets; the row
    [upsert] returns and the table. *)
Definition on_submit (user_id date : Z)
    (humeur stress sommeil concentration : Q) (use_ai : bool) (now : Z)
  : table -> result record * table :=
  fun db =>
    let day := ScoreEngine.mk_DailyInput humeur sommeil stress concentration in
    match ScoreEngine.compute_scj_default day with
    | Err e => (Err e, db)
    | Ok res =>
        let interpretation :=
          if use_ai then
            match AiService.generate_interpretation provider
                    (ScoreEngine.scj res) (Some (AiService.lite day)) with
            | Some text => text
            | None =>
                String.append "(IA indisponible) "
                  (Interpretation.interpret_scj (ScoreEngine.scj res))
            end
          else Interpretation.interpret_scj (ScoreEngine.scj res) in
        upsert fromisoformat user_id (Date date)
          (day_fields day (ScoreEngine.scj res) (Some interpretation)) now db
    end.

End Page.

End MainPage.

(** ** [scripts/seed_local_data.py]: the loop over the days *)

Module SeedLoop.
Import Models Db RecordsRepo.

(** What stops the loop: an exception of [compute_scj] or of the
    repository, or one of the provider. *)
Inductive seed_exn : Type :=
| CallError (e : exn)
| ProviderError.

(** The random draws of one iteration: whether [random.random()] is
    below [gap_rate], and the four values of [random.gauss] in the order
    [sample_day_inputs] asks for them. *)
Record draw : Type := mk_draw {
  skip : bool;
  g_humeur : Q;
  g_stress : Q;
  g_concentration : Q;
  g_sommeil : Q
}.

Definition inputs_of (dr : draw) : ScoreEngine.DailyInput :=
  Seed.sample_day_inputs (g_humeur dr) (g_stress dr) (g_concentration dr)
    (g_sommeil dr).

Section Loop.

Variable fromisoformat : string -> option Z.

(** [ai = AIService() if with_ai else None], as the [generate] of its
    provider: the text, or [None] when the call raises. *)
Variable ai : option (Q -> option AiService.DailyInputsLite -> option string).

(** The draws of the iteration of each day, and the time of its write. *)
Variable draws : Z -> draw.
Variable clock : Z -> Z.

(** [interpretation] in the body of the loop; [None] outside when the
    provider raises. *)
Definition interpretation_of (scj : Q) (inputs : ScoreEngine.DailyInput)
  : option (option string) :=
  match ai with
  | None => Some None
  | Some generate =>
      match AiService.generate_interpretation generate scj
              (Some (AiService.lite inputs)) with
      | Some text => Some (Some text)
      | None => None
      end
  end.

(** The body of [for day in daterange(...)] for the user [u]. *)
Definition seed_day (u day : Z) (db : table) : option seed_exn * table :=
  if skip (draws day) then (None, db)
  else
    let inputs := inputs_of (draws day) in
    match ScoreEngine.compute_scj_default inputs with
    | Err e => (Some (CallError e), db)
    | Ok res =>
        match interpretation_of (ScoreEngine.scj res) inputs with
        | None => (Some ProviderError, db)
        | Some interpretation =>
            match upsert fromisoformat u (Date day)
                    (MainPage.day_fields inputs (ScoreEngine.scj res)
                       interpretation) (clock day) db with
            | (Err e, db') => (Some (CallError e), db')
            | (Ok _, db') => (None, db')
            end
        end
    end.

(** The loop over the days: it stops at the first exception. *)
Fixpoint seed_days (u : Z) (days : list Z) (db : table)
  : option seed_exn * table :=
  match days with
  | [] => (None, db)
  | day :: rest =>
      match seed_day u day db with
      | (Some e, db') => (Some e, db')
      | (None, db') => seed_days u rest db'
      end
  end.

End Loop.

End SeedLoop.

Module WorkflowTerms.
Import Models Db RecordsRepo SeedLoop.

(** The provider of the service returns a text, whatever it is asked. *)
Definition provider_returns
    (ai : option (Q -> option AiService.DailyInputsLite -> option string))
  : Prop :=
  forall generate, ai = Some generate ->
  forall scj inputs, is_Some (generate scj inputs).

(** The row [r] is the one the iteration of [day] writes for the user
    [u]: the inputs sampled from the draws of the day, which are in
    their domains, their score under the default call, within the scale,
    and the interpretation of the service, [None] without a service. *)
Definition written
    (ai : option (Q -> option AiService.DailyInputsLite -> option string))
    (draws : Z -> draw) (u day : Z) (r : record) : Prop :=
  let inputs := inputs_of (draws day) in
  user_id r = u /\ date r = day /\
  humeur r = ScoreEngine.humeur inputs /\
  sommeil r = ScoreEngine.sommeil inputs /\
  stress r = ScoreEngine.stress inputs /\
  concentration r = ScoreEngine.concentration inputs /\
  ScoreEngineTerms.in_domain inputs /\
  (exists res,
     ScoreEngine.compute_scj_default inputs = Ok res /\
     scj r = ScoreEngine.scj res /\
     interpretation_of ai (ScoreEngine.scj res) inputs
     = Some (interpretation r)) /\
  0 <= scj r <= 10.

(** The draws of the examples: the day before 2025-03-03 is skipped. *)
Definition example_draws (day : Z) : draw :=
  {| skip := (day =? RecordsRepoTerms.day_2025_03_03 - 1)%Z;
     g_humeur := 6.52; g_stress := 11; g_concentration := 5.97;
     g_sommeil := 3 |}.

(** The stub as the provider of the service. *)
Definition stub_provider (scj : Q) (inputs : option AiService.DailyInputsLite)
  : option string :=
  Some (AiService.StubProvider_generate scj inputs).

End WorkflowTerms.

(** * Properties of the score engine *)

Module ScoreEngineSpec.
Import ScoreEngine ScoreEngineTerms.

(** ** Arithmetic of the builtins *)

Lemma py_min_spec a b : py_min a b == Qmin a b.
Proof.
  unfold py_min. destruct (Qlt_le_dec b a) as [H | H].
  - symmetry. apply Q.min_r. lra.
  - symmetry. apply Q.min_l. lra.
Qed.

Lemma py_max_spec a b : py_max a b == Qmax a b.
Proof.
  unfold py_max. destruct (Qlt_le_dec a b) as [H | H].
  - symmetry. apply Q.max_r. lra.
  - symmetry. apply Q.max_l. lra.
Qed.

(** [_clamp] by cases, for [low <= high]. *)
Lemma _clamp_cases v lo hi :
  lo <= hi ->
  (v < lo /\ _clamp v lo hi == lo) \/
  (lo <= v <= hi /\ _clamp v lo hi == v) \/
  (hi < v /\ _clamp v lo hi == hi).
Proof.
  intros Hlh. unfold _clamp, py_max, py_min.
  destruct (Qlt_le_dec v hi) as [H1 | H1];
    destruct (Qlt_le_dec lo _) as [H2 | H2].
  - right; left. split; [lra | reflexivity].
  - destruct (Qeq_dec v lo) as [E | E].
    + right; left. split; [lra | lra].
    + left. split; [lra | reflexivity].
  - destruct (Qeq_dec v hi) as [E | E].
    + right; left. split; [lra | lra].
    + right; right. split; [lra | reflexivity].
  - destruct (Qeq_dec v hi) as [E | E].
    + right; left. split; [lra | lra].
    + right; right. split; [lra | lra].
Qed.

Lemma _clamp_bounds v lo hi : lo <= hi -> lo <= _clamp v lo hi <= hi.
Proof. intros H. destruct (_clamp_cases v lo hi H) as [[? E] | [[? E] | [? E]]]; lra. Qed.

Lemma _clamp_mono v1 v2 lo hi :
  lo <= hi -> v1 <= v2 -> _clamp v1 lo hi <= _clamp v2 lo hi.
Proof.
  intros H Hv.
  destruct (_clamp_cases v1 lo hi H) as [[? E1] | [[? E1] | [? E1]]];
    destruct (_clamp_cases v2 lo hi H) as [[? E2] | [[? E2] | [? E2]]]; lra.
Qed.

#[export] Instance _clamp_comp : Proper (Qeq ==> Qeq ==> Qeq ==> Qeq) _clamp.
Proof.
  intros v1 v2 Hv l1 l2 Hl h1 h2 Hh.
  unfold _clamp. rewrite !py_max_spec, !py_min_spec.
  rewrite Hv, Hl, Hh. reflexivity.
Qed.

Lemma round_half_even_cases x :
  let f := Qfloor x in
  inject_Z f <= x /\ x < inject_Z f + 1 /\
  ((x - inject_Z f < 1 # 2 /\ round_half_even x = f) \/
   (x - inject_Z f == 1 # 2 /\
    round_half_even x = if Z.even f then f else (f + 1)%Z) \/
   (1 # 2 < x - inject_Z f /\ round_half_even x = (f + 1)%Z)).
Proof.
  intros f. split; [apply Qfloor_le |]. split.
  - pose proof (Qlt_floor x) as H. rewrite inject_Z_plus in H. exact H.
  - unfold round_half_even. fold f.
    destruct (Qcompare_spec (x - inject_Z f) (1 # 2)) as [E | E | E]; auto.
Qed.

Lemma round_half_even_mono x y :
  x <= y -> (round_half_even x <= round_half_even y)%Z.
Proof.
  intros Hxy.
  pose proof (Qfloor_resp_le x y Hxy) as Hf.
  destruct (round_half_even_cases x) as (Hx1 & Hx2 & Hx).
  destruct (round_half_even_cases y) as (Hy1 & Hy2 & Hy).
  cbv zeta in *.
  destruct (Z.eq_dec (Qfloor x) (Qfloor y)) as [E | E].
  - rewrite <- E in *.
    destruct Hx as [[Hx Rx] | [[Hx Rx] | [Hx Rx]]];
      destruct Hy as [[Hy Ry] | [[Hy Ry] | [Hy Ry]]];
      rewrite Rx, Ry; try lia; try lra;
      destruct (Z.even (Qfloor x)); lia.
  - assert (Hlt : (Qfloor x + 1 <= Qfloor y)%Z) by lia.
    assert (Hrx : (round_half_even x <= Qfloor x + 1)%Z).
    { destruct Hx as [[_ Rx] | [[_ Rx] | [_ Rx]]]; rewrite Rx;
        try destruct (Z.even (Qfloor x)); lia. }
    assert (Hry : (Qfloor y <= round_half_even y)%Z).
    { destruct Hy as [[_ Ry] | [[_ Ry] | [_ Ry]]]; rewrite Ry;
        try destruct (Z.even (Qfloor y)); lia. }
    lia.
Qed.

Lemma Qpower_10_pos n : 0 < Qpower 10 n.
Proof. apply Qpower_0_lt. reflexivity. Qed.

Lemma py_round_mono x y n : x <= y -> py_round x n <= py_round y n.
Proof.
  intros Hxy. unfold py_round.
  pose proof (Qpower_10_pos n) as Hs.
  set (s := Qpower 10 n) in *.
  assert (H : x * s <= y * s) by (apply Qmult_le_compat_r; lra).
  apply round_half_even_mono in H.
  rewrite Zle_Qle in H.
  unfold Qdiv. apply Qmult_le_compat_r; [exact H |].
  apply Qlt_le_weak, Qinv_lt_0_compat, Hs.
Qed.

(** The rounded value is within half a unit of the last digit kept. *)
Lemma py_round_near x n :
  Qabs (py_round x n - x) <= (1 # 2) / Qpower 10 n.
Proof.
  unfold py_round.
  pose proof (Qpower_10_pos n) as Hs.
  set (s := Qpower 10 n) in *.
  destruct (round_half_even_cases (x * s)) as (H1 & H2 & H).
  cbv zeta in *.
  set (f := Qfloor (x * s)) in *.
  assert (Hr : Qabs (inject_Z (round_half_even (x * s)) - x * s) <= 1 # 2).
  { apply Qabs_Qle_condition.
    destruct H as [[H R] | [[H R] | [H R]]]; rewrite R.
    - lra.
    - destruct (Z.even f);
        [| rewrite inject_Z_plus; change (inject_Z 1) with 1]; lra.
    - rewrite inject_Z_plus. change (inject_Z 1) with 1. lra. }
  assert (E : inject_Z (round_half_even (x * s)) / s - x
              == (inject_Z (round_half_even (x * s)) - x * s) / s)
    by (field; lra).
  rewrite E. unfold Qdiv. rewrite Qabs_Qmult.
  rewrite (Qabs_pos (/ s)) by (apply Qlt_le_weak, Qinv_lt_0_compat, Hs).
  apply Qmult_le_compat_r; [exact Hr |].
  apply Qlt_le_weak, Qinv_lt_0_compat, Hs.
Qed.

(** ** The sum of the absolute weights *)

Lemma foldl_abs_acc a xs :
  foldl (fun acc x => acc + Qabs x) a xs == a + sum_abs xs.
Proof.
  unfold sum_abs. revert a.
  induction xs as [| x xs IH]; intros a; simpl.
  - lra.
  - rewrite (IH (a + Qabs x)), (IH (0 + Qabs x)). lra.
Qed.

Lemma sum_abs_cons x xs : sum_abs (x :: xs) == Qabs x + sum_abs xs.
Proof.
  unfold sum_abs at 1. simpl. rewrite foldl_abs_acc. lra.
Qed.

Lemma sum_abs_nonneg xs : 0 <= sum_abs xs.
Proof.
  induction xs as [| x xs IH].
  - unfold sum_abs. simpl. lra.
  - rewrite sum_abs_cons. pose proof (Qabs_nonneg x). lra.
Qed.

Lemma sum_abs_perm xs ys : xs ≡ₚ ys -> sum_abs xs == sum_abs ys.
Proof.
  induction 1 as [| x xs ys _ IH | x y xs | xs ys zs _ IH1 _ IH2].
  - reflexivity.
  - rewrite !sum_abs_cons, IH. reflexivity.
  - rewrite !sum_abs_cons. lra.
  - rewrite IH1. exact IH2.
Qed.

Lemma sum_abs_zero xs :
  sum_abs xs == 0 <-> Forall (fun x => x == 0) xs.
Proof.
  induction xs as [| x xs IH].
  - split; [constructor | reflexivity].
  - rewrite sum_abs_cons, Forall_cons.
    pose proof (Qabs_nonneg x) as Hx.
    pose proof (sum_abs_nonneg xs) as Hs.
    split.
    + intros H. split.
      * assert (E : Qabs x == 0) by lra.
        revert E. apply Qabs_case; intros; lra.
      * apply IH. lra.
    + intros [Hx0 Hxs]. apply IH in Hxs.
      rewrite Hx0, Hxs. reflexivity.
Qed.

Lemma values_insert (w : gmap string Q) k v :
  w !! k = None -> values (<[k := v]> w) ≡ₚ v :: values w.
Proof.
  intros Hk. unfold values.
  rewrite (map_to_list_insert w k v Hk). reflexivity.
Qed.

Lemma sum_abs_insert (w : gmap string Q) k v :
  w !! k = None ->
  sum_abs (values (<[k := v]> w)) == sum_abs (values w) + Qabs v.
Proof.
  intros Hk. rewrite (sum_abs_perm _ _ (values_insert w k v Hk)).
  rewrite sum_abs_cons. lra.
Qed.

Lemma sum_abs_delete (w : gmap string Q) k :
  sum_abs (values w) == Qabs (get w k) + sum_abs (values (delete k w)).
Proof.
  unfold get. destruct (w !! k) as [v |] eqn:Hk; cbn [default from_option id].
  - rewrite <- (insert_delete_id w k v Hk) at 1.
    rewrite sum_abs_insert by apply lookup_delete_eq. lra.
  - rewrite (delete_id w k Hk). change (Qabs 0) with 0. lra.
Qed.

Lemma get_delete_ne (w : gmap string Q) k k' :
  k <> k' -> get (delete k w) k' = get w k'.
Proof. intros H. unfold get. rewrite lookup_delete_ne by exact H. reflexivity. Qed.

Lemma get_insert_ne (w : gmap string Q) k k' v :
  k <> k' -> get (<[k := v]> w) k' = get w k'.
Proof. intros H. unfold get. rewrite lookup_insert_ne by exact H. reflexivity. Qed.

Lemma every_weight_zero_values w :
  every_weight_zero w <-> Forall (fun x => x == 0) (values w).
Proof.
  unfold every_weight_zero, values. rewrite Forall_forall. split.
  - intros H x Hx. apply list_elem_of_fmap in Hx.
    destruct Hx as ([k v] & -> & Hkv).
    apply elem_of_map_to_list in Hkv. exact (H k v Hkv).
  - intros H k v Hkv. apply H, list_elem_of_fmap.
    exists (k, v). split; [reflexivity |].
    apply elem_of_map_to_list. exact Hkv.
Qed.

Lemma every_weight_zero_get w k : every_weight_zero w -> get w k == 0.
Proof.
  intros H. unfold get. destruct (w !! k) as [v |] eqn:E; simpl.
  - exact (H k v E).
  - reflexivity.
Qed.

(** [or 1.0] replaces the sum exactly when every weight is zero. *)
Lemma denom_cases w :
  (every_weight_zero w /\ denom w = 1) \/
  (~ every_weight_zero w /\ denom w = sum_abs (values w) /\ 0 < denom w).
Proof.
  unfold denom.
  destruct (Qeq_bool (sum_abs (values w)) 0) eqn:E.
  - left. split; [| reflexivity].
    apply every_weight_zero_values, sum_abs_zero, Qeq_bool_iff, E.
  - right. apply Qeq_bool_neq in E.
    split; [| split; [reflexivity |]].
    + intros H. apply E, sum_abs_zero, every_weight_zero_values, H.
    + pose proof (sum_abs_nonneg (values w)). lra.
Qed.

Lemma denom_pos w : 0 < denom w.
Proof. destruct (denom_cases w) as [[_ E] | (_ & _ & H)]; [rewrite E |]; lra. Qed.

Lemma sum_abs_metrics w :
  keys_are_metrics w ->
  sum_abs (values w) ==
    Qabs (get w "concentration") + Qabs (get w "humeur")
    + Qabs (get w "sommeil") + Qabs (get w "stress").
Proof.
  intros Hk.
  rewrite (sum_abs_delete w "concentration").
  rewrite (sum_abs_delete _ "humeur"), get_delete_ne by discriminate.
  rewrite (sum_abs_delete _ "sommeil"), !get_delete_ne by discriminate.
  rewrite (sum_abs_delete _ "stress"), !get_delete_ne by discriminate.
  set (w' := delete "stress" _).
  assert (E : w' = ∅).
  { apply map_empty. intros k. subst w'.
    destruct (decide (k ∈ metric_names)) as [Hin | Hout].
    - unfold metric_names in Hin. rewrite !elem_of_cons in Hin.
      destruct Hin as [-> | [-> | [-> | [-> | Hin]]]];
        [| | | | by apply elem_of_nil in Hin];
        repeat first [apply lookup_delete_eq
                     | rewrite lookup_delete_ne by discriminate].
    - destruct (delete _ _ !! k) eqn:E; [| reflexivity].
      exfalso. apply Hout, Hk.
      repeat (apply lookup_delete_Some in E; destruct E as [_ E]).
      eauto. }
  rewrite E. unfold values. rewrite map_to_list_empty.
  unfold sum_abs. simpl. lra.
Qed.

(** ** Validation *)

Lemma _check_filter name v lo hi errors :
  _check name v lo hi errors
  = errors ++ filter out_of_bounds [mk_violation name v lo hi].
Proof.
  unfold _check.
  rewrite filter_cons, filter_nil.
  destruct (decide (out_of_bounds (mk_violation name v lo hi))) as [H | H];
    unfold out_of_bounds in H; simpl in H.
  - destruct (Qle_bool lo v && Qle_bool v hi) eqn:E; [| reflexivity].
    exfalso. apply H. apply andb_true_iff in E.
    rewrite !Qle_bool_iff in E. exact E.
  - destruct (Qle_bool lo v && Qle_bool v hi) eqn:E; simpl.
    + symmetry. apply app_nil_r.
    + exfalso. apply H. intros [H1 H2].
      apply Qle_bool_iff in H1, H2. rewrite H1, H2 in E. discriminate.
Qed.

Lemma validate_input_violations d :
  validate_input d =
    match violations d with
    | [] => Ok tt
    | _ :: _ => Err (InputValidationError (violations d))
    end.
Proof.
  unfold validate_input, violations, checks, MIN_SCALE, MAX_SCALE,
    MAX_SLEEP_HOURS.
  cbv zeta. rewrite !_check_filter, app_nil_l.
  set (a := mk_violation "humeur" _ _ _).
  set (b := mk_violation "stress" _ _ _).
  set (c := mk_violation "concentration" _ _ _).
  set (e := mk_violation "sommeil (heures)" _ _ _).
  assert (E : ((filter out_of_bounds [a] ++ filter out_of_bounds [b])
               ++ filter out_of_bounds [c]) ++ filter out_of_bounds [e]
              = filter out_of_bounds [a; b; c; e]).
  { change [a; b; c; e] with ([a] ++ [b] ++ [c] ++ [e]).
    rewrite !filter_app, !app_assoc. reflexivity. }
  rewrite E. reflexivity.
Qed.

Lemma in_bounds_dec c : out_of_bounds c \/ v_lo c <= v_value c <= v_hi c.
Proof.
  destruct (decide (out_of_bounds c)) as [H | H]; [left; exact H | right].
  unfold out_of_bounds in H.
  destruct (Qlt_le_dec (v_value c) (v_lo c)) as [H1 | H1];
    [exfalso; apply H; intros [? ?]; lra |].
  destruct (Qlt_le_dec (v_hi c) (v_value c)) as [H2 | H2];
    [exfalso; apply H; intros [? ?]; lra |].
  split; assumption.
Qed.

Lemma in_domain_violations d : in_domain d <-> violations d = [].
Proof.
  unfold violations. split.
  - intros (H1 & H2 & H3 & H4). unfold checks.
    rewrite !filter_cons_False; [apply filter_nil | ..];
      unfold out_of_bounds; simpl; tauto.
  - intros H.
    assert (Hc : forall c, c ∈ checks d -> v_lo c <= v_value c <= v_hi c).
    { intros c Hin. destruct (in_bounds_dec c) as [Ho | Hb]; [| exact Hb].
      exfalso. exact (filter_nil_not_elem_of _ _ _ H Ho Hin). }
    unfold in_domain, checks in *.
    repeat split;
      first [ apply (Hc (mk_violation "humeur" (humeur d) 0 10))
            | apply (Hc (mk_violation "stress" (stress d) 0 10))
            | apply (Hc (mk_violation "concentration" (concentration d) 0 10))
            | apply (Hc (mk_violation "sommeil (heures)" (sommeil d) 0 14)) ];
      repeat first [apply list_elem_of_here | apply list_elem_of_further].
Qed.

Lemma validate_input_ok d : validate_input d = Ok tt <-> in_domain d.
Proof.
  rewrite validate_input_violations, in_domain_violations.
  destruct (violations d); split; intros H; congruence.
Qed.

(** ** The score *)

Lemma get_term w name x : get w name * x == term w name x.
Proof. unfold get, term. destruct (w !! name); simpl; lra. Qed.

Lemma numerator_terms w d :
  numerator w d ==
    term w "concentration" (concentration d) + term w "humeur" (humeur d)
    + term w "sommeil" (sommeil d) + term w "stress" (stress d).
Proof. unfold numerator. rewrite !get_term. reflexivity. Qed.

Lemma numerator_every_weight_zero w d :
  every_weight_zero w -> numerator w d == 0.
Proof.
  intros H. unfold numerator.
  rewrite !(every_weight_zero_get w _ H). lra.
Qed.

Lemma compute_scj_ok d weights rounding clamp_output :
  validate_input d = Ok tt ->
  let w := default DEFAULT_WEIGHTS weights in
  let raw_score := numerator w d / denom w in
  compute_scj d weights rounding clamp_output =
    Ok {| scj := py_round (if clamp_output then _clamp raw_score 0 10
                          else raw_score) rounding;
          raw := raw_score;
          weights := w |}.
Proof.
  intros Hv. unfold compute_scj. rewrite Hv.
  destruct weights; reflexivity.
Qed.

Lemma default_weights_get :
  get DEFAULT_WEIGHTS "concentration" = 2 /\
  get DEFAULT_WEIGHTS "humeur" = 1 /\
  get DEFAULT_WEIGHTS "sommeil" = 1 /\
  get DEFAULT_WEIGHTS "stress" = - (1).
Proof. repeat split; reflexivity. Qed.

Lemma default_weights_denom : denom DEFAULT_WEIGHTS == 5.
Proof. vm_compute. reflexivity. Qed.

Lemma default_raw d :
  numerator DEFAULT_WEIGHTS d / denom DEFAULT_WEIGHTS ==
    (2 * concentration d + humeur d + sommeil d - stress d) / 5.
Proof.
  rewrite default_weights_denom. unfold numerator.
  destruct default_weights_get as (-> & -> & -> & ->).
  field.
Qed.

#[export] Instance round_half_even_comp : Proper (Qeq ==> eq) round_half_even.
Proof.
  intros x y E. unfold round_half_even.
  rewrite (Qfloor_comp x y E).
  assert (E' : x - inject_Z (Qfloor y) == y - inject_Z (Qfloor y))
    by (rewrite E; reflexivity).
  rewrite (Qcompare_comp _ _ E' (1 # 2) (1 # 2) (Qeq_refl _)).
  reflexivity.
Qed.

#[export] Instance py_round_comp : Proper (Qeq ==> eq ==> Qeq) py_round.
Proof.
  intros x y E n ? <-. unfold py_round.
  assert (E' : x * Qpower 10 n == y * Qpower 10 n) by (rewrite E; reflexivity).
  rewrite (round_half_even_comp _ _ E'). reflexivity.
Qed.

Lemma _clamp_minmax v lo hi : _clamp v lo hi == Qmax lo (Qmin hi v).
Proof.
  unfold _clamp. rewrite py_max_spec.
  apply Q.max_compat; [reflexivity | apply py_min_spec].
Qed.

(** ** The claims on the score engine *)

(** C1, amended.  For every day that passes validation and every weight
    mapping (the default one when none is given), [compute_scj] returns
    the mapping it used and
    - [raw] is the sum over the four fields of weight times metric,
      divided by the sum of the absolute values of the weights; when
      every weight is zero the divisor is 1 and [raw] is 0; when every
      key of the mapping is one of the four metric names, the divisor
      is the sum of the four absolute weights;
    - [scj] is [raw], clamped to [0, 10] when [clamp_output] is set,
      then rounded to [rounding] digits, while [raw] is neither clamped
      nor rounded.
    The day (humeur 7, sommeil 6.5, stress 3, concentration 7.5) with the
    default weights has [raw = 5.1] and [scj = 5.1]. *)
Theorem compute_scj_formula :
  (forall d weights rounding clamp_output,
     validate_input d = Ok tt ->
     let w := default DEFAULT_WEIGHTS weights in
     let weighted :=
       get w "concentration" * concentration d + get w "humeur" * humeur d
       + get w "sommeil" * sommeil d + get w "stress" * stress d in
     exists r,
       compute_scj d weights rounding clamp_output = Ok r /\
       ScoreEngine.weights r = w /\
       (every_weight_zero w -> denom w = 1 /\ raw r == 0) /\
       (~ every_weight_zero w ->
        0 < sum_abs (values w) /\ raw r == weighted / sum_abs (values w)) /\
       (keys_are_metrics w ->
        sum_abs (values w) ==
          Qabs (get w "concentration") + Qabs (get w "humeur")
          + Qabs (get w "sommeil") + Qabs (get w "stress")) /\
       scj r ==
         py_round (if clamp_output then Qmax 0 (Qmin 10 (raw r)) else raw r)
           rounding) /\
  (exists r,
     compute_scj_default scenario = Ok r /\ raw r == 5.1 /\ scj r == 5.1).
Proof.
  split.
  - intros d weights rounding clamp_output Hv w weighted.
    eexists. split; [apply (compute_scj_ok _ _ _ _ Hv) |].
    cbn [raw scj ScoreEngine.weights]. fold w.
    split; [reflexivity |].
    split; [| split; [| split]].
    + intros Hz. destruct (denom_cases w) as [[_ E] | [Hn _]];
        [| contradiction].
      split; [exact E |]. rewrite E, (numerator_every_weight_zero w d Hz).
      reflexivity.
    + intros Hnz. destruct (denom_cases w) as [[Hz _] | (_ & E & Hp)];
        [contradiction |].
      rewrite E in *. split; [exact Hp |]. reflexivity.
    + apply sum_abs_metrics.
    + destruct clamp_output; [| reflexivity].
      apply py_round_comp; [apply _clamp_minmax | reflexivity].
  - eexists. split; [apply compute_scj_ok; reflexivity |].
    split; vm_compute; reflexivity.
Qed.

Lemma compute_scj_formula_witness :
  validate_input scenario = Ok tt /\
  exists r,
    compute_scj scenario (Some DEFAULT_WEIGHTS) 2 true = Ok r /\
    raw r == 5.1.
Proof.
  split; [reflexivity |].
  destruct (proj1 compute_scj_formula scenario (Some DEFAULT_WEIGHTS) 2%Z true
              eq_refl) as (r & Hr & _ & _ & Hnz & _).
  exists r. split; [exact Hr |].
  assert (Hn : ~ every_weight_zero DEFAULT_WEIGHTS).
  { intros H. discriminate (H "humeur" 1 eq_refl). }
  destruct (Hnz Hn) as [_ E]. rewrite E. vm_compute. reflexivity.
Defined.

(** The day of the scenario in binary64: [raw_score] is the float nearest
    to 5.1, above 5. *)
Lemma scenario_binary64 :
  raw_score_binary64 7 6.5 3 7.5 = 0x1.4666666666666p+2%float /\
  PrimFloat.ltb 5 (raw_score_binary64 7 6.5 3 7.5) = true.
Proof. split; reflexivity. Qed.

(** C1 as stated fails on its own example: what [compute_scj] returns
    for the day of the scenario has neither [raw = 5.0] nor
    [scj = 5.0]. *)
Lemma scenario_is_not_5 :
  exists r,
    compute_scj_default scenario = Ok r /\ ~ raw r == 5 /\ ~ scj r == 5.
Proof.
  eexists. split; [apply compute_scj_ok; reflexivity |].
  cbn [raw scj]. split; intros H; vm_compute in H; discriminate H.
Qed.

Lemma default_scj_le rounding clamp_output d1 d2 :
  validate_input d1 = Ok tt ->
  validate_input d2 = Ok tt ->
  2 * concentration d1 + humeur d1 + sommeil d1 - stress d1
    <= 2 * concentration d2 + humeur d2 + sommeil d2 - stress d2 ->
  scj_le rounding clamp_output d1 d2.
Proof.
  intros H1 H2 Hle. unfold scj_le.
  rewrite (compute_scj_ok d1 None rounding clamp_output H1).
  rewrite (compute_scj_ok d2 None rounding clamp_output H2).
  do 2 eexists. split; [reflexivity |]. split; [reflexivity |].
  cbn [scj default from_option id].
  assert (Hraw : numerator DEFAULT_WEIGHTS d1 / denom DEFAULT_WEIGHTS
                 <= numerator DEFAULT_WEIGHTS d2 / denom DEFAULT_WEIGHTS).
  { rewrite !default_raw. unfold Qdiv.
    apply Qmult_le_compat_r; [exact Hle | discriminate]. }
  apply py_round_mono.
  destruct clamp_output; [| exact Hraw].
  apply _clamp_mono; [lra | exact Hraw].
Qed.

(** C5.  With the default weights and the other fields fixed at valid
    values, [scj] does not decrease when [concentration] grows and does
    not increase when [stress] grows, whatever [rounding] and
    [clamp_output]. *)
Theorem default_scj_monotone (h so : Q) (rounding : Z) (clamp_output : bool) :
  (forall st a b,
     validate_input (mk_DailyInput h so st a) = Ok tt ->
     validate_input (mk_DailyInput h so st b) = Ok tt ->
     a <= b ->
     scj_le rounding clamp_output
       (mk_DailyInput h so st a) (mk_DailyInput h so st b)) /\
  (forall c a b,
     validate_input (mk_DailyInput h so a c) = Ok tt ->
     validate_input (mk_DailyInput h so b c) = Ok tt ->
     a <= b ->
     scj_le rounding clamp_output
       (mk_DailyInput h so b c) (mk_DailyInput h so a c)).
Proof.
  split.
  - intros st a b Ha Hb Hab.
    apply default_scj_le; [exact Ha | exact Hb |]. simpl. lra.
  - intros c a b Ha Hb Hab.
    apply default_scj_le; [exact Hb | exact Ha |]. simpl. lra.
Qed.

Lemma default_scj_monotone_witness :
  scj_le 2 true (mk_DailyInput 6 7 4 5) (mk_DailyInput 6 7 4 7) /\
  scj_le 2 true (mk_DailyInput 6 7 5 6) (mk_DailyInput 6 7 2 6).
Proof.
  split.
  - apply (proj1 (default_scj_monotone 6 7 2 true) 4 5 7);
      [reflexivity | reflexivity | discriminate].
  - apply (proj2 (default_scj_monotone 6 7 2 true) 6 2 5);
      [reflexivity | reflexivity | discriminate].
Defined.

(** C6.  A day with a field out of its domain does not validate: the
    error holds exactly the out-of-domain fields, each with its name,
    its value and its two bounds, and [compute_scj] fails with that
    error whatever its other arguments. *)
Theorem validation_reports_every_field (d : DailyInput) :
  ~ in_domain d ->
  exists errors,
    validate_input d = Err (InputValidationError errors) /\
    errors = violations d /\
    errors <> [] /\
    (forall c, c ∈ errors <-> c ∈ checks d /\ out_of_bounds c) /\
    (forall weights rounding clamp_output,
       compute_scj d weights rounding clamp_output
       = Err (InputValidationError errors)).
Proof.
  intros Hd. exists (violations d).
  assert (Hne : violations d <> [])
    by (intros E; apply Hd, in_domain_violations, E).
  assert (Hv : validate_input d = Err (InputValidationError (violations d))).
  { rewrite validate_input_violations.
    destruct (violations d); [contradiction | reflexivity]. }
  split; [exact Hv |]. split; [reflexivity |]. split; [exact Hne |]. split.
  - intros c. unfold violations. rewrite list_elem_of_filter. tauto.
  - intros weights rounding clamp_output.
    unfold compute_scj. rewrite Hv. reflexivity.
Qed.

Lemma validation_reports_every_field_witness :
  exists errors,
    validate_input (mk_DailyInput 11 15 3 (-1))
    = Err (InputValidationError errors) /\
    errors =
      [ mk_violation "humeur" 11 0 10;
        mk_violation "concentration" (-1) 0 10;
        mk_violation "sommeil (heures)" 15 0 14 ].
Proof.
  destruct (validation_reports_every_field (mk_DailyInput 11 15 3 (-1)))
    as (errors & Hv & He & _).
  - intros ([_ H] & _). vm_compute in H. apply H. reflexivity.
  - exists errors. split; [exact Hv |]. rewrite He. reflexivity.
Defined.

(** C10.  For every weight mapping, a metric name with no entry in the
    mapping contributes 0 to the numerator, and the divisor is the sum of
    the absolute values of all the values of the mapping (1 when that
    sum is 0), whatever their keys.  So an entry under a key that is not
    a metric name leaves the numerator as it is and adds its absolute
    value to the sum; the divisor grows by as much unless every other
    weight is zero. *)
Theorem weights_lookup_and_divisor (d : DailyInput) (w : gmap string Q)
    (rounding : Z) (clamp_output : bool) :
  validate_input d = Ok tt ->
  (exists r,
     compute_scj d (Some w) rounding clamp_output = Ok r /\
     raw r ==
       (term w "concentration" (concentration d) + term w "humeur" (humeur d)
        + term w "sommeil" (sommeil d) + term w "stress" (stress d))
       / (if Qeq_bool (sum_abs (values w)) 0 then 1 else sum_abs (values w)))
  /\
  (forall k v,
     k ∉ metric_names -> w !! k = None -> ~ v == 0 ->
     numerator (<[k := v]> w) d = numerator w d /\
     sum_abs (values (<[k := v]> w)) == sum_abs (values w) + Qabs v /\
     sum_abs (values w) < sum_abs (values (<[k := v]> w)) /\
     (~ every_weight_zero w ->
      denom (<[k := v]> w) == denom w + Qabs v)).
Proof.
  intros Hv. split.
  - eexists. split; [apply (compute_scj_ok _ _ _ _ Hv) |].
    cbn [raw default from_option id].
    rewrite numerator_terms. reflexivity.
  - intros k v Hk Hnone Hvnz.
    assert (Hne : forall n, n ∈ metric_names -> k <> n)
      by (intros n Hn ->; contradiction).
    assert (Habs : 0 < Qabs v).
    { pose proof (Qabs_nonneg v) as H0.
      destruct (Qeq_dec (Qabs v) 0) as [E | E]; [| lra].
      exfalso. apply Hvnz. revert E. apply Qabs_case; intros; lra. }
    pose proof (sum_abs_insert w k v Hnone) as Hs.
    split; [| split; [exact Hs | split; [lra |]]].
    + unfold numerator, metric_names in *.
      rewrite !get_insert_ne; [reflexivity | ..];
        apply Hne; repeat first [apply list_elem_of_here
                                | apply list_elem_of_further].
    + intros Hnz.
      destruct (denom_cases w) as [[Hz _] | (_ & E & Hp)]; [contradiction |].
      pose proof (sum_abs_nonneg (values w)) as H0.
      unfold denom at 1.
      destruct (Qeq_bool _ 0) eqn:Eb.
      * apply Qeq_bool_iff in Eb. lra.
      * rewrite E. exact Hs.
Qed.

Lemma weights_lookup_and_divisor_witness :
  let w : gmap string Q := <["concentration" := 1]> ∅ in
  numerator (<["concentratoin" := 3]> w) scenario = numerator w scenario /\
  denom (<["concentratoin" := 3]> w) == denom w + 3.
Proof.
  intros w.
  destruct (weights_lookup_and_divisor scenario w 2%Z true eq_refl)
    as [_ H].
  destruct (H "concentratoin" 3) as (Hn & _ & _ & Hd).
  - unfold metric_names. rewrite !elem_of_cons.
    intros [E | [E | [E | [E | E]]]];
      [discriminate E .. | by apply elem_of_nil in E].
  - reflexivity.
  - discriminate.
  - split; [exact Hn |]. apply Hd.
    intros Hz. discriminate (Hz "concentration" 1 eq_refl).
Defined.

End ScoreEngineSpec.

(** * Properties of the record store *)

Module RecordsRepoSpec.
Import Models Db RecordsRepo RecordsRepoTerms.

Local Open Scope Z_scope.

(** ** What the schema guarantees *)

Lemma on_day_true user day r :
  on_day user day r = true <-> user_id r = user /\ date r = day.
Proof. unfold on_day. rewrite andb_true_iff, !Z.eqb_eq. reflexivity. Qed.

Lemma on_day_key user day r :
  on_day user day r = true <-> uq_user_day r = (user, day).
Proof.
  rewrite on_day_true. unfold uq_user_day. split.
  - intros [-> ->]. reflexivity.
  - intros E. injection E as -> ->. split; reflexivity.
Qed.

Lemma table_ok_nil : table_ok [].
Proof. repeat split; constructor. Qed.

(** *** Lookups *)

Lemma NoDup_map_eq {A B} (g : A -> B) (l : list A) x y :
  NoDup (map g l) -> x ∈ l -> y ∈ l -> g x = g y -> x = y.
Proof.
  intros Hnd Hx Hy E.
  apply list_elem_of_lookup in Hx, Hy.
  destruct Hx as [i Hi], Hy as [j Hj].
  assert (i = j).
  { apply (NoDup_lookup (map g l) i j (g x)); [exact Hnd | |].
    - rewrite list_lookup_fmap, Hi. reflexivity.
    - rewrite list_lookup_fmap, Hj, E. reflexivity. }
  subst j. congruence.
Qed.

Lemma find_none_existsb (p : record -> bool) db :
  List.find p db = None <-> existsb p db = false.
Proof.
  induction db as [| r db IH]; simpl; [tauto |].
  destruct (p r); simpl; [split; discriminate | exact IH].
Qed.

Lemma find_some_in (p : record -> bool) db r :
  List.find p db = Some r -> r ∈ db /\ p r = true.
Proof.
  intros H. apply find_some in H. destruct H as [Hin Hp].
  split; [apply list_elem_of_In, Hin | exact Hp].
Qed.

Lemma existsb_false_key user day db :
  existsb (on_day user day) db = false ->
  (user, day) ∉ map uq_user_day db.
Proof.
  intros H Hin. apply list_elem_of_fmap in Hin.
  destruct Hin as (r & Hk & Hr).
  assert (Hex : existsb (on_day user day) db = true).
  { apply existsb_exists. exists r. split; [apply list_elem_of_In, Hr |].
    apply on_day_key. symmetry. exact Hk. }
  congruence.
Qed.

(** Under [uq_user_day] the rows of one user on one day are at most one,
    and the one that [scalar] finds. *)
Lemma rows_on_find user day db :
  unique_user_day db ->
  rows_on user day db =
    match List.find (on_day user day) db with
    | Some r => [r]
    | None => []
    end.
Proof.
  unfold unique_user_day, rows_on.
  induction db as [| r db IH]; intros Hu; simpl; [reflexivity |].
  apply NoDup_cons in Hu. destruct Hu as [Hr Hu].
  destruct (on_day user day r) eqn:E.
  - f_equal.
    rewrite (IH Hu).
    destruct (List.find (on_day user day) db) as [r' |] eqn:F; [| reflexivity].
    exfalso. apply Hr. apply find_some_in in F. destruct F as [Hin Hp].
    apply on_day_key in E, Hp. rewrite E, <- Hp.
    apply list_elem_of_fmap. exists r'. split; [reflexivity | exact Hin].
  - exact (IH Hu).
Qed.

Lemma rows_on_at_most_one user day db :
  unique_user_day db -> (length (rows_on user day db) <= 1)%nat.
Proof.
  intros Hu. rewrite (rows_on_find _ _ _ Hu).
  destruct (List.find _ db); simpl; lia.
Qed.

(** *** Rowids *)

Lemma foldl_max_ge i ids : i <= foldl Z.max i ids.
Proof.
  revert i. induction ids as [| j ids IH]; intros i; simpl; [lia |].
  specialize (IH (Z.max i j)). lia.
Qed.

Lemma foldl_max_elem i ids j : j ∈ ids -> j <= foldl Z.max i ids.
Proof.
  revert i. induction ids as [| k ids IH]; intros i Hj; simpl.
  - by apply elem_of_nil in Hj.
  - apply elem_of_cons in Hj. destruct Hj as [-> | Hj].
    + pose proof (foldl_max_ge (Z.max i k) ids). lia.
    + apply IH, Hj.
Qed.

Lemma next_rowid_above db r : r ∈ db -> id r < next_rowid db.
Proof.
  intros Hr. unfold next_rowid.
  assert (Hin : id r ∈ map id db)
    by (apply list_elem_of_fmap; exists r; split; [reflexivity | exact Hr]).
  destruct (map id db) as [| i ids]; [by apply elem_of_nil in Hin |].
  apply elem_of_cons in Hin. destruct Hin as [-> | Hin].
  - pose proof (foldl_max_ge i ids). lia.
  - pose proof (foldl_max_elem i ids _ Hin). lia.
Qed.

Lemma next_rowid_fresh db : next_rowid db ∉ map id db.
Proof.
  intros Hin. apply list_elem_of_fmap in Hin. destruct Hin as (r & E & Hr).
  pose proof (next_rowid_above db r Hr). lia.
Qed.

Lemma next_rowid_pos db : Forall (fun r => 0 < id r) db -> 0 < next_rowid db.
Proof.
  intros H. destruct db as [| r db]; [reflexivity |].
  apply Forall_cons in H. destruct H as [Hr _].
  pose proof (next_rowid_above (r :: db) r ltac:(left)). lia.
Qed.

(** *** The three writes *)

Lemma holds_setattrs f rec : holds f (setattrs rec f).
Proof. unfold holds, setattrs; simpl. repeat split; intros v ->; reflexivity. Qed.

Lemma setattrs_idem f rec : setattrs (setattrs rec f) f = setattrs rec f.
Proof.
  unfold setattrs; simpl.
  destruct (f_humeur f), (f_sommeil f), (f_stress f), (f_concentration f),
    (f_scj f), (f_interpretation f); reflexivity.
Qed.

Lemma flush_insert_ok user day f now db :
  supplies_required f ->
  existsb (on_day user day) db = false ->
  exists r,
    flush_insert user day f now db = (Ok r, db ++ [r]) /\
    id r = next_rowid db /\ user_id r = user /\ date r = day /\
    created_at r = now /\
    interpretation r = default None (f_interpretation f) /\
    holds f r.
Proof.
  intros ([h Hh] & [so Hso] & [st Hst] & [c Hc] & [sc Hsc]) Hex.
  unfold flush_insert. rewrite Hh, Hso, Hst, Hc, Hsc, Hex.
  eexists. split; [reflexivity |]. simpl.
  repeat split; try reflexivity; unfold holds; simpl;
    try (intros v E; congruence).
  repeat split; intros v E; try congruence.
  rewrite E. reflexivity.
Qed.

Lemma flush_insert_cases user day f now db :
  (exists r, flush_insert user day f now db = (Ok r, db ++ [r]) /\
             id r = next_rowid db /\ user_id r = user /\ date r = day /\
             existsb (on_day user day) db = false /\
             supplies_required f) \/
  flush_insert user day f now db = (Err IntegrityError, db).
Proof.
  unfold flush_insert, supplies_required.
  destruct (f_humeur f), (f_sommeil f), (f_stress f), (f_concentration f),
    (f_scj f); try (right; reflexivity).
  destruct (existsb (on_day user day) db) eqn:E; [right; reflexivity |].
  left. eexists. split; [reflexivity |]. simpl. eauto 10.
Qed.

Lemma table_ok_insert db r :
  table_ok db -> id r = next_rowid db ->
  existsb (on_day (user_id r) (date r)) db = false ->
  table_ok (db ++ [r]).
Proof.
  intros (Hpk & Huq & Hpos) Hid Hex.
  unfold table_ok, primary_key, unique_user_day in *.
  rewrite !map_app. simpl. repeat split.
  - apply NoDup_app. split; [exact Hpk |]. split; [| apply NoDup_singleton].
    intros i Hi Hi'. apply list_elem_of_singleton in Hi'. subst i.
    rewrite Hid in Hi. exact (next_rowid_fresh db Hi).
  - apply NoDup_app. split; [exact Huq |]. split; [| apply NoDup_singleton].
    intros k Hk Hk'. apply list_elem_of_singleton in Hk'. subst k.
    exact (existsb_false_key _ _ _ Hex Hk).
  - apply Forall_app. split; [exact Hpos |].
    apply Forall_singleton. rewrite Hid. apply next_rowid_pos, Hpos.
Qed.

(** Under the primary key, the UPDATE of a row of the table changes that
    row and no other. *)
Lemma replace_row_spec rec' rec db :
  primary_key db -> rec ∈ db -> id rec' = id rec ->
  forall r, r ∈ replace_row rec' db <->
            (r = rec' \/ (r ∈ db /\ r <> rec)).
Proof.
  intros Hpk Hin Hid r. unfold replace_row, primary_key in *.
  rewrite list_elem_of_fmap. split.
  - intros (x & -> & Hx). rewrite Hid.
    destruct (id x =? id rec) eqn:E; [left; reflexivity |].
    right. split; [exact Hx |]. intros ->. rewrite Z.eqb_refl in E.
    discriminate.
  - intros [-> | [Hr Hne]].
    + exists rec. rewrite Hid, Z.eqb_refl. split; [reflexivity | exact Hin].
    + exists r. split; [| exact Hr]. rewrite Hid.
      destruct (id r =? id rec) eqn:E; [| reflexivity].
      exfalso. apply Hne. apply Z.eqb_eq in E.
      exact (NoDup_map_eq id db r rec Hpk Hr Hin E).
Qed.

(** Under the primary key, an UPDATE that keeps the key columns keeps
    the identifiers and the [uq_user_day] columns of every row. *)
Lemma replace_row_keys rec' rec db :
  primary_key db -> rec ∈ db ->
  id rec' = id rec -> uq_user_day rec' = uq_user_day rec ->
  map id (replace_row rec' db) = map id db /\
  map uq_user_day (replace_row rec' db) = map uq_user_day db.
Proof.
  intros Hpk Hin Hid Hkey. unfold replace_row.
  rewrite !map_map. split; apply map_ext_in; intros r Hr; rewrite Hid;
    destruct (id r =? id rec) eqn:E; try reflexivity;
    apply Z.eqb_eq in E.
  - congruence.
  - assert (r = rec); [| subst r; exact Hkey].
    apply list_elem_of_In in Hr.
    exact (NoDup_map_eq id db r rec Hpk Hr Hin E).
Qed.

Lemma table_ok_replace rec' rec db :
  table_ok db -> rec ∈ db ->
  id rec' = id rec -> uq_user_day rec' = uq_user_day rec ->
  table_ok (replace_row rec' db).
Proof.
  intros (Hpk & Huq & Hpos) Hin Hid Hkey.
  destruct (replace_row_keys rec' rec db Hpk Hin Hid Hkey) as [E1 E2].
  unfold table_ok, primary_key, unique_user_day. rewrite E1, E2.
  repeat split; try assumption.
  apply Forall_forall. intros r Hr.
  assert (Hi : id r ∈ map id (replace_row rec' db))
    by (apply list_elem_of_fmap; exists r; split; [reflexivity | exact Hr]).
  rewrite E1 in Hi. apply list_elem_of_fmap in Hi.
  destruct Hi as (r0 & -> & Hr0).
  rewrite Forall_forall in Hpos. apply Hpos, Hr0.
Qed.

Lemma table_ok_filter (p : record -> bool) db :
  table_ok db -> table_ok (List.filter p db).
Proof.
  intros (Hpk & Huq & Hpos).
  assert (Hsub : List.filter p db `sublist_of` db).
  { clear. induction db as [| r db IH]; simpl; [constructor |].
    destruct (p r); [apply sublist_skip | apply sublist_cons]; exact IH. }
  unfold table_ok, primary_key, unique_user_day in *. repeat split.
  - eapply sublist_NoDup; [exact Hpk | apply (fmap_sublist id), Hsub].
  - eapply sublist_NoDup; [exact Huq | apply (fmap_sublist uq_user_day), Hsub].
  - rewrite Forall_forall in *. intros r Hr.
    apply Hpos. eapply elem_of_sublist; [exact Hr | exact Hsub].
Qed.

(** *** Reads *)

Lemma foldl_Qplus_acc a xs : (foldl Qplus a xs == a + foldr Qplus 0 xs)%Q.
Proof.
  revert a. induction xs as [| x xs IH]; intros a; simpl.
  - lra.
  - rewrite (IH (a + x)%Q). lra.
Qed.

Lemma sql_avg_mean xs q : sql_avg xs = Some q -> (q == mean xs)%Q.
Proof.
  destruct xs as [| x xs]; [discriminate |].
  unfold sql_avg, mean. intros E. injection E as <-.
  rewrite (foldl_Qplus_acc 0 (x :: xs)).
  apply Qmult_comp; [lra | reflexivity].
Qed.

Lemma sql_avg_none xs : sql_avg xs = None <-> xs = [].
Proof. destruct xs; simpl; split; intros; congruence. Qed.

Lemma in_range_selected user a b r :
  in_range user a b r = true <-> selected user a b r.
Proof.
  unfold in_range, selected, in_bounds.
  rewrite !andb_true_iff, Z.eqb_eq.
  destruct a, b; rewrite ?Z.leb_le; tauto.
Qed.

Lemma in_range_window user end_ r :
  in_range user (Some (end_ - 6)) (Some end_) r = true
  <-> in_window user end_ r.
Proof.
  rewrite in_range_selected. unfold selected, in_bounds, in_window. tauto.
Qed.

(** The two [filter]s agree. *)
Lemma filter_bool_prop {A} (p : A -> bool) (P : A -> Prop)
    `{forall x, Decision (P x)} (l : list A) :
  (forall x, p x = true <-> P x) -> List.filter p l = filter P l.
Proof.
  intros Hp. induction l as [| x l IH]; [reflexivity |].
  simpl. rewrite filter_cons, IH.
  destruct (decide (P x)) as [HP | HP].
  - apply Hp in HP. rewrite HP. reflexivity.
  - destruct (p x) eqn:E; [apply Hp in E; contradiction | reflexivity].
Qed.

#[export] Instance date_order_total asc : Total (date_order asc).
Proof. intros r1 r2. unfold date_order. destruct asc; lia. Qed.

#[export] Instance date_order_trans asc : Transitive (date_order asc).
Proof. intros r1 r2 r3. unfold date_order. destruct asc; lia. Qed.

(** A list without repetition that is sorted for [R] is sorted for any
    [S] that holds of the [R]-related, distinct elements. *)
Lemma StronglySorted_strengthen {A} (R S : A -> A -> Prop) (l : list A) :
  StronglySorted R l -> NoDup l ->
  (forall x y, x ∈ l -> y ∈ l -> x <> y -> R x y -> S x y) ->
  StronglySorted S l.
Proof.
  induction 1 as [| x l Hs IH Hx]; intros Hnd HS; constructor.
  - apply IH; [apply NoDup_cons in Hnd; tauto |].
    intros a b Ha Hb. apply HS; right; assumption.
  - apply NoDup_cons in Hnd. destruct Hnd as [Hnx _].
    rewrite Forall_forall in *. intros y Hy.
    apply HS; [left | right; exact Hy | | apply Hx, Hy].
    intros ->. contradiction.
Qed.

Section Repository.

Variable fromisoformat : string -> option Z.

Abbreviation _normalize_date := (RecordsRepo._normalize_date fromisoformat).
Abbreviation normalize_bound := (RecordsRepo.normalize_bound fromisoformat).
Abbreviation add := (RecordsRepo.add fromisoformat).
Abbreviation upsert := (RecordsRepo.upsert fromisoformat).
Abbreviation delete := (RecordsRepo.delete fromisoformat).
Abbreviation get_range := (RecordsRepo.get_range fromisoformat).
Abbreviation weekly_avg := (RecordsRepo.weekly_avg fromisoformat).
Abbreviation run_call := (RecordsRepo.run_call fromisoformat).
Abbreviation run_calls := (RecordsRepo.run_calls fromisoformat).
Abbreviation window_end := (RecordsRepoTerms.window_end fromisoformat).

(** [add] and [upsert] by cases on what [scalar] finds. *)

Lemma add_found user date f now db day rec :
  _normalize_date date = Ok day ->
  List.find (on_day user day) db = Some rec ->
  id rec <> 0 ->
  add user date f now db = (Err (ValueError_duplicate day), db).
Proof.
  intros Hn Hf Hid. unfold RecordsRepo.add, get_session, bind, scalar, raise.
  rewrite Hn, Hf. simpl.
  destruct (id rec =? 0) eqn:E; [apply Z.eqb_eq in E; contradiction |].
  reflexivity.
Qed.

Lemma add_not_found user date f now db day :
  _normalize_date date = Ok day ->
  List.find (on_day user day) db = None ->
  add user date f now db = get_session (flush_insert user day f now) db.
Proof.
  intros Hn Hf. unfold RecordsRepo.add, get_session, bind, scalar.
  rewrite Hn, Hf. reflexivity.
Qed.

Lemma upsert_found user date f now db day rec :
  _normalize_date date = Ok day ->
  List.find (on_day user day) db = Some rec ->
  upsert user date f now db
  = (Ok (setattrs rec f), replace_row (setattrs rec f) db).
Proof.
  intros Hn Hf.
  unfold RecordsRepo.upsert, get_session, bind, scalar, flush_update.
  rewrite Hn, Hf. reflexivity.
Qed.

Lemma upsert_not_found user date f now db day :
  _normalize_date date = Ok day ->
  List.find (on_day user day) db = None ->
  upsert user date f now db = get_session (flush_insert user day f now) db.
Proof.
  intros Hn Hf. unfold RecordsRepo.upsert, get_session, bind, scalar.
  rewrite Hn, Hf. reflexivity.
Qed.

Lemma delete_cases user date db day :
  _normalize_date date = Ok day ->
  delete user date db =
    match List.find (on_day user day) db with
    | None => (Ok false, db)
    | Some rec =>
        (Ok true, List.filter (fun r => negb (id r =? id rec)) db)
    end.
Proof.
  intros Hn.
  unfold RecordsRepo.delete, get_session, bind, scalar, flush_delete, ret.
  rewrite Hn. destruct (List.find _ db); reflexivity.
Qed.

(** The INSERT in a session: a new last row, or [IntegrityError] and the
    table as it was. *)
Lemma session_insert_cases user day f now db :
  (exists r,
     get_session (flush_insert user day f now) db = (Ok r, db ++ [r]) /\
     id r = next_rowid db /\ user_id r = user /\ date r = day /\
     existsb (on_day user day) db = false /\ supplies_required f) \/
  get_session (flush_insert user day f now) db = (Err IntegrityError, db).
Proof.
  unfold get_session.
  destruct (flush_insert_cases user day f now db) as [(r & E & H) | E];
    rewrite E; [left; exists r; split; [reflexivity | exact H] | right].
  reflexivity.
Qed.

Lemma session_insert_table_ok user day f now db :
  table_ok db ->
  table_ok (snd (get_session (flush_insert user day f now) db)).
Proof.
  intros Hok.
  destruct (session_insert_cases user day f now db)
    as [(r & E & Hid & Hu & Hd & Hex & _) | E]; rewrite E; simpl;
    [| exact Hok].
  apply table_ok_insert; [exact Hok | exact Hid |].
  rewrite Hu, Hd. exact Hex.
Qed.

(** *** The constraints survive every call *)

Lemma add_table_ok user date f now db :
  table_ok db -> table_ok (snd (add user date f now db)).
Proof.
  intros Hok.
  destruct (_normalize_date date) as [day | e] eqn:Hn;
    [| unfold RecordsRepo.add; rewrite Hn; exact Hok].
  destruct (List.find (on_day user day) db) as [rec |] eqn:Hf.
  - unfold RecordsRepo.add, get_session, bind, scalar, raise.
    rewrite Hn, Hf. simpl.
    destruct (negb (id rec =? 0)); simpl; [exact Hok |].
    apply (session_insert_table_ok user day f now db Hok).
  - rewrite (add_not_found _ _ _ _ _ _ Hn Hf).
    apply session_insert_table_ok, Hok.
Qed.

Lemma upsert_table_ok user date f now db :
  table_ok db -> table_ok (snd (upsert user date f now db)).
Proof.
  intros Hok.
  destruct (_normalize_date date) as [day | e] eqn:Hn;
    [| unfold RecordsRepo.upsert; rewrite Hn; exact Hok].
  destruct (List.find (on_day user day) db) as [rec |] eqn:Hf.
  - rewrite (upsert_found _ _ _ _ _ _ _ Hn Hf). simpl.
    apply find_some_in in Hf. destruct Hf as [Hin _].
    apply (table_ok_replace _ rec); [exact Hok | exact Hin | |]; reflexivity.
  - rewrite (upsert_not_found _ _ _ _ _ _ Hn Hf).
    apply session_insert_table_ok, Hok.
Qed.

Lemma delete_table_ok user date db :
  table_ok db -> table_ok (snd (delete user date db)).
Proof.
  intros Hok.
  destruct (_normalize_date date) as [day | e] eqn:Hn;
    [| unfold RecordsRepo.delete; rewrite Hn; exact Hok].
  rewrite (delete_cases _ _ _ _ Hn).
  destruct (List.find _ db); simpl; [apply table_ok_filter |]; exact Hok.
Qed.

Lemma run_call_table_ok c db : table_ok db -> table_ok (run_call c db).
Proof.
  destruct c; simpl;
    [apply add_table_ok | apply upsert_table_ok | apply delete_table_ok].
Qed.

Lemma run_calls_table_ok cs db : table_ok db -> table_ok (run_calls cs db).
Proof.
  unfold RecordsRepo.run_calls. revert db.
  induction cs as [| c cs IH]; intros db Hok; simpl; [exact Hok |].
  apply IH, run_call_table_ok, Hok.
Qed.

(** C2.  After any finite sequence of [add], [upsert] and [delete] calls,
    on a table that satisfies its constraints (the empty one does), the
    table holds at most one row for every user and day. *)
Theorem one_record_per_user_day (cs : list call) (db : table) :
  table_ok db ->
  forall user day, (length (rows_on user day (run_calls cs db)) <= 1)%nat.
Proof.
  intros Hok user day.
  apply rows_on_at_most_one.
  destruct (run_calls_table_ok cs db Hok) as (_ & Huq & _). exact Huq.
Qed.

(** *** One call *)

Lemma find_on_day user day db rec :
  unique_user_day db -> rec ∈ db -> user_id rec = user -> date rec = day ->
  List.find (on_day user day) db = Some rec.
Proof.
  intros Huq Hin Hu Hd.
  assert (Hr : In rec (rows_on user day db)).
  { apply filter_In. split; [apply list_elem_of_In, Hin |].
    apply on_day_true. split; assumption. }
  rewrite (rows_on_find _ _ _ Huq) in Hr.
  destruct (List.find _ db) as [r |]; simpl in Hr; [| contradiction].
  destruct Hr as [-> | []]. reflexivity.
Qed.

Lemma find_on_day_none user day db :
  (forall rec, rec ∈ db -> ~ (user_id rec = user /\ date rec = day)) ->
  List.find (on_day user day) db = None.
Proof.
  intros H. destruct (List.find _ db) as [r |] eqn:E; [| reflexivity].
  apply find_some_in in E. destruct E as [Hin Hp].
  apply on_day_true in Hp. destruct (H r Hin Hp).
Qed.

Lemma keeps_unpassed_setattrs f rec : keeps_unpassed f rec (setattrs rec f).
Proof.
  unfold keeps_unpassed, setattrs; simpl.
  repeat split; intros ->; reflexivity.
Qed.

Lemma holds_setattrs_id f r : holds f r -> setattrs r f = r.
Proof.
  intros (H1 & H2 & H3 & H4 & H5 & H6). destruct r. unfold setattrs. simpl in *.
  f_equal;
    match goal with
    | |- default _ ?o = _ => destruct o eqn:E; simpl; [symmetry; eauto | reflexivity]
    end.
Qed.

Lemma replace_row_self rec db :
  primary_key db -> rec ∈ db -> replace_row rec db = db.
Proof.
  intros Hpk Hin. unfold replace_row.
  rewrite <- (map_id db) at 2. apply map_ext_in. intros r Hr.
  destruct (id r =? id rec) eqn:E; [| reflexivity].
  apply Z.eqb_eq in E. apply list_elem_of_In in Hr.
  symmetry. exact (NoDup_map_eq id db r rec Hpk Hr Hin E).
Qed.

Lemma rows_on_member user day db r :
  unique_user_day db -> r ∈ db -> user_id r = user -> date r = day ->
  rows_on user day db = [r].
Proof.
  intros Huq Hin Hu Hd.
  rewrite (rows_on_find _ _ _ Huq), (find_on_day _ _ _ _ Huq Hin Hu Hd).
  reflexivity.
Qed.

(** [upsert] on a day that has a row. *)
Lemma upsert_existing user d f now db day rec :
  table_ok db -> _normalize_date d = Ok day ->
  rec ∈ db -> user_id rec = user -> date rec = day ->
  let r := setattrs rec f in
  upsert user d f now db = (Ok r, replace_row r db) /\
  table_ok (replace_row r db) /\
  r ∈ replace_row r db /\
  rows_on user day (replace_row r db) = [r].
Proof.
  intros Hok Hn Hin Hu Hd r.
  pose proof Hok as (Hpk & Huq & _).
  pose proof (find_on_day _ _ _ _ Huq Hin Hu Hd) as Hf.
  assert (Hok' : table_ok (replace_row r db))
    by (apply (table_ok_replace r rec); [exact Hok | exact Hin | |]; reflexivity).
  assert (Hr : r ∈ replace_row r db)
    by (apply (replace_row_spec r rec db Hpk Hin eq_refl); left; reflexivity).
  split; [exact (upsert_found _ _ _ _ _ _ _ Hn Hf) |].
  split; [exact Hok' |]. split; [exact Hr |].
  destruct Hok' as (_ & Huq' & _).
  apply (rows_on_member _ _ _ _ Huq' Hr); [exact Hu | exact Hd].
Qed.

(** [add] and [upsert] on a day that has no row. *)
Lemma insert_fresh user day f now db :
  table_ok db ->
  List.find (on_day user day) db = None ->
  supplies_required f ->
  exists r,
    get_session (flush_insert user day f now) db = (Ok r, db ++ [r]) /\
    table_ok (db ++ [r]) /\
    user_id r = user /\ date r = day /\ (id r ∉ map id db) /\
    created_at r = now /\
    interpretation r = default None (f_interpretation f) /\
    holds f r /\
    rows_on user day (db ++ [r]) = [r].
Proof.
  intros Hok Hf Hreq.
  apply find_none_existsb in Hf.
  destruct (flush_insert_ok user day f now db Hreq Hf)
    as (r & E & Hid & Hu & Hd & Hc & Hi & Hh).
  exists r. unfold get_session. rewrite E.
  assert (Hok' : table_ok (db ++ [r])).
  { apply table_ok_insert; [exact Hok | exact Hid |].
    rewrite Hu, Hd. exact Hf. }
  split; [reflexivity |]. split; [exact Hok' |].
  split; [exact Hu |]. split; [exact Hd |].
  split; [rewrite Hid; apply next_rowid_fresh |].
  split; [exact Hc |]. split; [exact Hi |]. split; [exact Hh |].
  destruct Hok' as (_ & Huq' & _).
  apply (rows_on_member _ _ _ _ Huq'); [| exact Hu | exact Hd].
  apply elem_of_app. right. apply list_elem_of_singleton. reflexivity.
Qed.

(** C3, amended.  If the table holds a row for the user and the day,
    [upsert] overwrites in that row every data column the call passes
    (all of them when the call passes all six), keeps its [id], and
    leaves the columns the call does not pass, and [created_at], as they
    were stored; otherwise, when the call passes the five required
    values, it appends a new row.  So when [upsert] has returned, the
    same call again returns the same row and leaves the table as it is:
    one row for the user and the day, with the values passed and the
    same [id]. *)
Theorem upsert_overwrites_or_creates
    (user : Z) (d : date_arg) (f : fields) (now : Z) (db : table) (day : Z) :
  table_ok db ->
  _normalize_date d = Ok day ->
  (forall rec,
     rec ∈ db -> user_id rec = user -> date rec = day ->
     exists r,
       upsert user d f now db = (Ok r, replace_row r db) /\
       id r = id rec /\ holds f r /\
       keeps_unpassed f rec r /\ created_at r = created_at rec /\
       length (replace_row r db) = length db /\
       rows_on user day (replace_row r db) = [r]) /\
  ((forall rec, rec ∈ db -> ~ (user_id rec = user /\ date rec = day)) ->
   supplies_required f ->
   exists r,
     upsert user d f now db = (Ok r, db ++ [r]) /\
     user_id r = user /\ date r = day /\ (id r ∉ map id db) /\ holds f r) /\
  (forall r1 db1,
     upsert user d f now db = (Ok r1, db1) ->
     holds f r1 /\
     rows_on user day db1 = [r1] /\
     forall now', upsert user d f now' db1 = (Ok r1, db1)).
Proof.
  intros Hok Hn.
  assert (Hex : forall rec,
             rec ∈ db -> user_id rec = user -> date rec = day ->
             upsert user d f now db
             = (Ok (setattrs rec f), replace_row (setattrs rec f) db) /\
             table_ok (replace_row (setattrs rec f) db) /\
             setattrs rec f ∈ replace_row (setattrs rec f) db /\
             rows_on user day (replace_row (setattrs rec f) db)
             = [setattrs rec f])
    by (intros rec Hin Hu Hd; exact (upsert_existing _ _ _ _ _ _ _ Hok Hn Hin Hu Hd)).
  (* the second call, on a table that holds the row the first returned *)
  assert (Hagain : forall r1 db1,
             table_ok db1 -> r1 ∈ db1 ->
             user_id r1 = user -> date r1 = day -> holds f r1 ->
             forall now', upsert user d f now' db1 = (Ok r1, db1)).
  { intros r1 db1 Hok1 Hin1 Hu1 Hd1 Hh1 now'.
    pose proof Hok1 as (Hpk1 & Huq1 & _).
    rewrite (upsert_found _ _ _ _ _ _ _ Hn
               (find_on_day _ _ _ _ Huq1 Hin1 Hu1 Hd1)).
    rewrite (holds_setattrs_id _ _ Hh1), (replace_row_self _ _ Hpk1 Hin1).
    reflexivity. }
  split; [| split].
  - intros rec Hin Hu Hd.
    destruct (Hex rec Hin Hu Hd) as (E & _ & _ & Hrows).
    exists (setattrs rec f). split; [exact E |].
    split; [reflexivity |]. split; [apply holds_setattrs |].
    split; [apply keeps_unpassed_setattrs |]. split; [reflexivity |].
    split; [apply length_map | exact Hrows].
  - intros Hnone Hreq.
    rewrite (upsert_not_found _ _ _ _ _ _ Hn (find_on_day_none _ _ _ Hnone)).
    destruct (insert_fresh user day f now db Hok
                (find_on_day_none _ _ _ Hnone) Hreq)
      as (r & E & _ & Hu & Hd & Hid & _ & _ & Hh & _).
    exists r. auto.
  - intros r1 db1 E1.
    destruct (List.find (on_day user day) db) as [rec |] eqn:Hf.
    + apply find_some_in in Hf. destruct Hf as [Hin Hp].
      apply on_day_true in Hp. destruct Hp as [Hu Hd].
      destruct (Hex rec Hin Hu Hd) as (E & Hok1 & Hin1 & Hrows).
      rewrite E in E1. injection E1 as <- <-.
      split; [apply holds_setattrs |]. split; [exact Hrows |].
      apply Hagain; [exact Hok1 | exact Hin1 | exact Hu | exact Hd |].
      apply holds_setattrs.
    + rewrite (upsert_not_found _ _ _ _ _ _ Hn Hf) in E1.
      destruct (session_insert_cases user day f now db)
        as [(r & E & _ & _ & _ & _ & Hreq) | E];
        rewrite E in E1; [| discriminate E1].
      injection E1 as <- <-.
      destruct (insert_fresh user day f now db Hok Hf Hreq)
        as (r' & E' & Hok1 & Hu & Hd & _ & _ & _ & Hh & Hrows).
      rewrite E in E'. injection E' as <-.
      split; [exact Hh |]. split; [exact Hrows |].
      apply Hagain; [exact Hok1 | | exact Hu | exact Hd | exact Hh].
      apply elem_of_app. right. apply list_elem_of_singleton. reflexivity.
Qed.

(** C4.  For a user and a day that have a row, [add] raises its
    [ValueError] and the table is as it was; for a user and a day without
    one, [add] with the five required values appends a row for them. *)
Theorem add_refuses_duplicate
    (user : Z) (d : date_arg) (f : fields) (now : Z) (db : table) (day : Z) :
  table_ok db ->
  _normalize_date d = Ok day ->
  (forall rec,
     rec ∈ db -> user_id rec = user -> date rec = day ->
     add user d f now db = (Err (ValueError_duplicate day), db)) /\
  ((forall rec, rec ∈ db -> ~ (user_id rec = user /\ date rec = day)) ->
   supplies_required f ->
   exists r,
     add user d f now db = (Ok r, db ++ [r]) /\
     user_id r = user /\ date r = day /\ (id r ∉ map id db) /\
     holds f r /\ rows_on user day (db ++ [r]) = [r]).
Proof.
  intros Hok Hn. pose proof Hok as (_ & Huq & Hpos). split.
  - intros rec Hin Hu Hd.
    apply (add_found _ _ _ _ _ _ rec Hn (find_on_day _ _ _ _ Huq Hin Hu Hd)).
    rewrite Forall_forall in Hpos. specialize (Hpos rec Hin). lia.
  - intros Hnone Hreq.
    rewrite (add_not_found _ _ _ _ _ _ Hn (find_on_day_none _ _ _ Hnone)).
    destruct (insert_fresh user day f now db Hok
                (find_on_day_none _ _ _ Hnone) Hreq)
      as (r & E & _ & Hu & Hd & Hid & _ & _ & Hh & Hrows).
    exists r. auto 10.
Qed.

(** C9.  When [upsert] finds a row for the user and the day, the row it
    returns and stores has the [id], [user_id], [date] and [created_at]
    of the row found, the value passed for every column the call names,
    and the stored value for every column it does not name; the other
    rows of the table are as they were. *)
Theorem upsert_assigns_only_named_columns
    (user : Z) (d : date_arg) (f : fields) (now : Z) (db : table) (day : Z)
    (rec : record) :
  table_ok db ->
  _normalize_date d = Ok day ->
  rec ∈ db -> user_id rec = user -> date rec = day ->
  exists r db',
    upsert user d f now db = (Ok r, db') /\
    (forall r', r' ∈ db' <-> r' = r \/ (r' ∈ db /\ r' <> rec)) /\
    id r = id rec /\ user_id r = user_id rec /\ date r = date rec /\
    created_at r = created_at rec /\
    holds f r /\
    (f_humeur f = None -> humeur r = humeur rec) /\
    (f_sommeil f = None -> sommeil r = sommeil rec) /\
    (f_stress f = None -> stress r = stress rec) /\
    (f_concentration f = None -> concentration r = concentration rec) /\
    (f_scj f = None -> scj r = scj rec) /\
    (f_interpretation f = None -> interpretation r = interpretation rec).
Proof.
  intros Hok Hn Hin Hu Hd.
  destruct (upsert_existing user d f now db day rec Hok Hn Hin Hu Hd)
    as (E & _).
  exists (setattrs rec f), (replace_row (setattrs rec f) db).
  split; [exact E |].
  split; [apply (replace_row_spec _ rec); [apply Hok | exact Hin | reflexivity] |].
  split; [reflexivity |]. split; [reflexivity |]. split; [reflexivity |].
  split; [reflexivity |]. split; [apply holds_setattrs |].
  unfold setattrs; simpl.
  repeat split; intros ->; reflexivity.
Qed.

(** *** Reads *)

Lemma weekly_avg_unfold user end_date today db end_ :
  window_end end_date today end_ ->
  weekly_avg user end_date today db
  = (Ok (sql_avg (window_scores user end_ db)), db).
Proof.
  intros Hw. unfold RecordsRepo.weekly_avg, RecordsRepoTerms.window_end in *.
  assert (E : (if truthy_date end_date
               then match end_date with
                    | Some d => _normalize_date d
                    | None => Ok today
                    end
               else Ok today) = Ok end_).
  { destruct end_date as [d |]; [| subst; reflexivity].
    destruct (truthy_date (Some d)); [exact Hw | subst; reflexivity]. }
  rewrite E. unfold get_session, bind, scalars, ret, window_scores.
  rewrite (filter_bool_prop _ (in_window user end_) db
             (in_range_window user end_)).
  reflexivity.
Qed.

(** C7.  [weekly_avg] leaves the table as it is and returns the mean of
    [scj] over exactly the rows of the user dated in the seven days that
    end on the end date ([today] when no end date is given), and [None]
    when there is no such row.  Seven rows with the scores 1 to 7 give
    4, and three rows with the scores 5, 7 and 9 give 7. *)
Theorem weekly_avg_mean
    (user : Z) (end_date : option date_arg) (today : Z) (db : table)
    (end_ : Z) :
  window_end end_date today end_ ->
  let scores := window_scores user end_ db in
  exists res,
    weekly_avg user end_date today db = (Ok res, db) /\
    (res = None <-> forall r, r ∈ db -> ~ in_window user end_ r) /\
    (forall q, res = Some q -> (q == mean scores)%Q) /\
    (scores = [1; 2; 3; 4; 5; 6; 7]%Q -> exists q, res = Some q /\ (q == 4)%Q) /\
    (scores = [5; 7; 9]%Q -> exists q, res = Some q /\ (q == 7)%Q).
Proof.
  intros Hw scores.
  exists (sql_avg scores).
  split; [apply (weekly_avg_unfold _ _ _ _ _ Hw) |].
  split; [| split; [| split]].
  - rewrite sql_avg_none. subst scores. unfold window_scores.
    destruct (filter (in_window user end_) db) as [| r0 l] eqn:E; simpl.
    + split; [| reflexivity]. intros _ r Hr Hin.
      assert (H : r ∈ filter (in_window user end_) db)
        by (apply list_elem_of_filter; split; assumption).
      rewrite E in H. by apply elem_of_nil in H.
    + split; [discriminate |]. intros H. exfalso.
      assert (H0 : r0 ∈ filter (in_window user end_) db)
        by (rewrite E; left).
      apply list_elem_of_filter in H0. destruct H0 as [Hin Hr0].
      exact (H r0 Hr0 Hin).
  - intros q Hq. exact (sql_avg_mean _ _ Hq).
  - intros E. rewrite E in *. eexists. split; [reflexivity |].
    vm_compute. reflexivity.
  - intros E. rewrite E in *. eexists. split; [reflexivity |].
    vm_compute. reflexivity.
Qed.

Lemma get_range_unfold user start end_ asc db a b :
  normalize_bound start = Ok a ->
  normalize_bound end_ = Ok b ->
  get_range user start end_ asc db
  = (Ok (order_by asc (filter (selected user a b) db)), db).
Proof.
  intros Ha Hb. unfold RecordsRepo.get_range.
  rewrite Ha, Hb. unfold get_session, bind, scalars, ret.
  rewrite (filter_bool_prop _ (selected user a b) db
             (in_range_selected user a b)).
  reflexivity.
Qed.


End Repository.

(** ** The claims at the rows of the examples *)

Import Calendar.

(** A decidable fact about a table that is given in full. *)
Ltac decide_table :=
  match goal with
  | |- ?P => refine (bool_decide_unpack P _); vm_compute; exact I
  end.

Lemma one_record_per_user_day_witness :
  (length
     (rows_on 1 day_2025_03_03
        (run_calls date_fromisoformat
           [ CallAdd 1 (Str "2025-03-03") all_fields 5;
             CallUpsert 1 (Datetime day_2025_03_03 36000) no_interpretation 6;
             CallDelete 2 (Date day_2025_03_03);
             CallAdd 1 (Date day_2025_03_03) all_fields 7 ]
           example_db))
   <= 1)%nat.
Proof.
  apply (one_record_per_user_day date_fromisoformat).
  decide_table.
Defined.

Lemma upsert_overwrites_or_creates_witness :
  (exists r,
     upsert date_fromisoformat 1 (Str "2025-03-03") no_interpretation 5
       example_db
     = (Ok r, replace_row r example_db) /\
     id r = 1 /\ holds no_interpretation r /\
     keeps_unpassed no_interpretation example_row r /\
     created_at r = 100 /\
     length (replace_row r example_db) = length example_db /\
     rows_on 1 day_2025_03_03 (replace_row r example_db) = [r]) /\
  (exists r,
     upsert date_fromisoformat 3 (Str "2025-03-03") all_fields 5 example_db
     = (Ok r, example_db ++ [r]) /\
     user_id r = 3 /\ date r = day_2025_03_03 /\
     (id r ∉ map id example_db) /\ holds all_fields r).
Proof.
  split.
  - apply (proj1 (upsert_overwrites_or_creates date_fromisoformat
                    1 (Str "2025-03-03") no_interpretation 5 example_db
                    day_2025_03_03
                    ltac:(decide_table)
                    eq_refl) example_row);
      [left | reflexivity | reflexivity].
  - apply (proj1 (proj2 (upsert_overwrites_or_creates date_fromisoformat
                    3 (Str "2025-03-03") all_fields 5 example_db
                    day_2025_03_03
                    ltac:(decide_table)
                    eq_refl))).
    + intros rec Hin [Hu _]. unfold example_db in Hin.
      rewrite !elem_of_cons in Hin.
      destruct Hin as [-> | [-> | Hin]];
        [discriminate Hu | discriminate Hu | by apply elem_of_nil in Hin].
    + unfold supplies_required, all_fields; simpl. eauto 10.
Defined.

(** C3 as stated fails: on the row of user 1, annotated "OK", the call
    without [interpretation] returns a row that still says "OK". *)
Lemma upsert_keeps_omitted_interpretation :
  exists r db',
    upsert date_fromisoformat 1 (Date day_2025_03_03) no_interpretation 5
      example_db = (Ok r, db') /\
    interpretation r = Some "OK" /\
    ~ overwrites_all_mutable_fields no_interpretation r.
Proof.
  eexists _, _. split; [vm_compute; reflexivity |].
  split; [reflexivity |].
  intros [_ H]. discriminate H.
Qed.

Lemma add_refuses_duplicate_witness :
  add date_fromisoformat 1 (Str "2025-03-03") all_fields 5 example_db
  = (Err (ValueError_duplicate day_2025_03_03), example_db) /\
  exists r,
    add date_fromisoformat 3 (Str "2025-03-03") all_fields 5 example_db
    = (Ok r, example_db ++ [r]) /\
    user_id r = 3 /\ date r = day_2025_03_03 /\
    (id r ∉ map id example_db) /\ holds all_fields r /\
    rows_on 3 day_2025_03_03 (example_db ++ [r]) = [r].
Proof.
  split.
  - apply (proj1 (add_refuses_duplicate date_fromisoformat
                    1 (Str "2025-03-03") all_fields 5 example_db
                    day_2025_03_03
                    ltac:(decide_table)
                    eq_refl) example_row);
      [left | reflexivity | reflexivity].
  - apply (proj2 (add_refuses_duplicate date_fromisoformat
                    3 (Str "2025-03-03") all_fields 5 example_db
                    day_2025_03_03
                    ltac:(decide_table)
                    eq_refl)).
    + intros rec Hin [Hu _]. unfold example_db in Hin.
      rewrite !elem_of_cons in Hin.
      destruct Hin as [-> | [-> | Hin]];
        [discriminate Hu | discriminate Hu | by apply elem_of_nil in Hin].
    + unfold supplies_required, all_fields; simpl. eauto 10.
Defined.

Lemma upsert_assigns_only_named_columns_witness :
  exists r db',
    upsert date_fromisoformat 1 (Date day_2025_03_03) no_interpretation 5
      example_db = (Ok r, db') /\
    id r = 1 /\ created_at r = 100 /\
    interpretation r = Some "OK" /\ scj r = 6.4%Q.
Proof.
  destruct (upsert_assigns_only_named_columns date_fromisoformat
              1 (Date day_2025_03_03) no_interpretation 5 example_db
              day_2025_03_03 example_row
              ltac:(decide_table)
              eq_refl ltac:(left) eq_refl eq_refl)
    as (r & db' & E & _ & Hid & _ & _ & Hc & Hh & _ & _ & _ & _ & _ & Hi).
  exists r, db'. split; [exact E |].
  split; [exact Hid |]. split; [exact Hc |].
  split; [exact (Hi eq_refl) |].
  destruct Hh as (_ & _ & _ & _ & Hs & _). exact (Hs _ eq_refl).
Defined.

Lemma weekly_avg_mean_witness :
  exists res,
    weekly_avg date_fromisoformat 1 (Some (Str "2025-03-03")) 0 sparse_week
    = (Ok res, sparse_week) /\
    exists q, res = Some q /\ (q == 7)%Q.
Proof.
  destruct (weekly_avg_mean date_fromisoformat
              1 (Some (Str "2025-03-03")) 0 sparse_week day_2025_03_03
              eq_refl)
    as (res & E & _ & _ & _ & H).
  exists res. split; [exact E |]. apply H. reflexivity.
Defined.



End RecordsRepoSpec.

(** * More on the score engine *)

Module ScoreEngineMore.
Import ScoreEngine ScoreEngineTerms ScoreEngineSpec.

(** ** Rounding at the ends of a range *)

Lemma round_half_even_Z k : round_half_even (inject_Z k) = k.
Proof.
  unfold round_half_even. rewrite Qfloor_Z.
  destruct (Qcompare_spec (inject_Z k - inject_Z k) (1 # 2)) as [E | E | E];
    [lra | reflexivity | lra].
Qed.

(** A value that has no more than [n] decimals rounds to itself. *)
Lemma py_round_exact x n k :
  x * Qpower 10 n == inject_Z k -> py_round x n == x.
Proof.
  intros E. unfold py_round.
  pose proof (Qpower_10_pos n) as Hs.
  rewrite (round_half_even_comp _ _ E), round_half_even_Z, <- E.
  field. lra.
Qed.

Lemma py_round_0 n : py_round 0 n == 0.
Proof. apply (py_round_exact 0 n 0). change (inject_Z 0) with 0. lra. Qed.

Lemma py_round_nonneg x n : 0 <= x -> 0 <= py_round x n.
Proof. intros H. rewrite <- (py_round_0 n). apply py_round_mono, H. Qed.

Lemma py_round_10 n : py_round 10 n <= 10.
Proof.
  destruct (Z_lt_le_dec n (-1)) as [Hn | Hn].
  - (* 10 * 10^n <= 1/10: the result is 0 *)
    assert (Hp : Qpower 10 n <= 1 # 100).
    { change (1 # 100) with (Qpower 10 (-2)).
      apply Qpower_le_compat_l; [lia | discriminate]. }
    pose proof (Qpower_10_pos n) as Hs.
    unfold py_round.
    destruct (round_half_even_cases (10 * Qpower 10 n)) as (H1 & H2 & H).
    cbv zeta in *.
    assert (Hf : Qfloor (10 * Qpower 10 n) = 0%Z).
    { assert (Hhi : (Qfloor (10 * Qpower 10 n) < 1)%Z).
      { rewrite Zlt_Qlt. change (inject_Z 1) with 1. lra. }
      assert (Hlo : (-1 < Qfloor (10 * Qpower 10 n))%Z).
      { rewrite Zlt_Qlt. change (inject_Z (-1)) with (- (1)). lra. }
      lia. }
    rewrite Hf in *. change (inject_Z 0) with 0 in *.
    destruct H as [[_ R] | [[H _] | [H _]]]; [| lra | lra].
    rewrite R. change (inject_Z 0) with 0.
    unfold Qdiv. rewrite Qmult_0_l. discriminate.
  - assert (E : exists k, 10 * Qpower 10 n == inject_Z k).
    { destruct (Z.eq_dec n (-1)%Z) as [-> | Hne].
      - exists 1%Z. reflexivity.
      - exists (10 * 10 ^ n)%Z.
        rewrite inject_Z_mult, Zpower_Qpower by lia. reflexivity. }
    destruct E as [k E]. rewrite (py_round_exact 10 n k E). lra.
Qed.

Lemma _clamp_upper_idle v : v <= 10 -> _clamp v 0 10 == Qmax 0 v.
Proof.
  intros H. rewrite _clamp_minmax.
  apply Q.max_compat; [reflexivity |]. apply Q.min_r. exact H.
Qed.

(** ** The range of the score *)

(** X1.  With [clamp_output] set, [scj] is within [0, 10] for every valid
    day, every weight mapping and every number of digits. *)
Theorem clamped_scj_within_scale
    (d : DailyInput) (weights : option (gmap string Q)) (rounding : Z) :
  validate_input d = Ok tt ->
  exists r,
    compute_scj d weights rounding true = Ok r /\ 0 <= scj r <= 10.
Proof.
  intros Hv. eexists. split; [apply (compute_scj_ok _ _ _ _ Hv) |].
  cbn [scj].
  set (raw_score := numerator _ d / denom _).
  pose proof (_clamp_bounds raw_score 0 10 ltac:(lra)) as [Hlo Hhi].
  split.
  - apply py_round_nonneg, Hlo.
  - eapply Qle_trans; [apply py_round_mono, Hhi | apply py_round_10].
Qed.

Lemma clamped_scj_within_scale_witness :
  exists r,
    compute_scj scenario (Some (<["sommeil" := 1]> ∅)) 0 true = Ok r /\
    0 <= scj r <= 10.
Proof. apply clamped_scj_within_scale. reflexivity. Defined.

(** X2.  With the default weights a valid day has [raw] within
    [-2, 8.8]: the upper bound of the clamp is never reached, and the
    score of the default call is within [0, 8.8]. *)
Theorem default_score_range (d : DailyInput) :
  validate_input d = Ok tt ->
  exists r,
    compute_scj_default d = Ok r /\
    - (2) <= raw r <= 8.8 /\
    _clamp (raw r) 0 10 == Qmax 0 (raw r) /\
    0 <= scj r <= 8.8.
Proof.
  intros Hv. pose proof (proj1 (validate_input_ok d) Hv) as (Hh & Hst & Hc & Hso).
  eexists. split; [apply (compute_scj_ok _ _ _ _ Hv) |].
  cbn [raw scj default from_option id].
  set (raw_score := numerator DEFAULT_WEIGHTS d / denom DEFAULT_WEIGHTS).
  assert (E : raw_score ==
                (2 * concentration d + humeur d + sommeil d - stress d) / 5)
    by apply default_raw.
  assert (Hr : - (2) <= raw_score <= 8.8).
  { rewrite E. split.
    - apply Qle_shift_div_l; lra.
    - apply Qle_shift_div_r; lra. }
  split; [exact Hr |]. split; [apply _clamp_upper_idle; lra |].
  pose proof (_clamp_bounds raw_score 0 10 ltac:(lra)) as [Hlo _].
  split; [apply py_round_nonneg, Hlo |].
  assert (Hc88 : _clamp raw_score 0 10 <= 8.8).
  { rewrite _clamp_upper_idle by lra. apply Q.max_lub; lra. }
  eapply Qle_trans; [apply py_round_mono, Hc88 |].
  rewrite (py_round_exact 8.8 2 880); [lra | reflexivity].
Qed.

Lemma default_score_range_witness :
  exists r,
    compute_scj_default (mk_DailyInput 10 14 0 10) = Ok r /\
    raw r == 8.8 /\ 0 <= scj r <= 8.8.
Proof.
  destruct (default_score_range (mk_DailyInput 10 14 0 10) eq_refl)
    as (r & E & _ & _ & Hs).
  exists r. split; [exact E |]. split; [| exact Hs].
  unfold compute_scj_default in E. vm_compute in E.
  injection E as <-. reflexivity.
Defined.

End ScoreEngineMore.

(** * The interpretation of a score *)

Module InterpretationSpec.
Import ScoreEngine ScoreEngineTerms ScoreEngineSpec Interpretation.

Lemma Qle_bool_spec a b : BoolSpec (a <= b) (b < a) (Qle_bool a b).
Proof.
  destruct (Qle_bool a b) eqn:E; constructor.
  - apply Qle_bool_iff, E.
  - apply Qnot_le_lt. intros H. apply Qle_bool_iff in H. congruence.
Qed.

(** A threshold within the scale reads the same on a score and on the
    score clamped to the scale. *)
Lemma clamp_threshold t s :
  0 < t -> t <= 10 -> Qle_bool t (_clamp s 0 10) = Qle_bool t s.
Proof.
  intros H0 H10.
  destruct (_clamp_cases s 0 10 ltac:(lra)) as [[? E] | [[? E] | [? E]]];
    destruct (Qle_bool_spec t (_clamp s 0 10));
    destruct (Qle_bool_spec t s); try reflexivity; lra.
Qed.

Lemma tier_clamp s : tier (_clamp s 0 10) = tier s.
Proof.
  unfold tier. rewrite !clamp_threshold by lra. reflexivity.
Qed.

Lemma tier_mono s1 s2 : s1 <= s2 -> (tier s1 <= tier s2)%nat.
Proof.
  intros H. unfold tier.
  repeat match goal with
         | |- context [Qle_bool ?a ?b] => destruct (Qle_bool_spec a b)
         end; try lia; lra.
Qed.

Lemma interpret_scj_message s : messages !! tier s = Some (interpret_scj s).
Proof.
  unfold interpret_scj, MIN_SCALE, MAX_SCALE. cbv zeta.
  rewrite !clamp_threshold by lra. unfold tier.
  repeat match goal with
         | |- context [Qle_bool ?a ?b] => destruct (Qle_bool a b)
         end; reflexivity.
Qed.

(** X5.  [interpret_scj] gives the message of the tier that the four
    thresholds assign to the score as it is passed: clamping the score
    first changes nothing, so a score above 10 gets the top message and a
    negative one the bottom message.  The five messages differ, and a
    larger score never gets a lower tier. *)
Theorem interpret_scj_tiers :
  NoDup messages /\
  (forall s, messages !! tier s = Some (interpret_scj s)) /\
  (forall s, 10 <= s -> messages !! 4%nat = Some (interpret_scj s)) /\
  (forall s, s <= 0 -> messages !! 0%nat = Some (interpret_scj s)) /\
  (forall s1 s2, s1 <= s2 -> (tier s1 <= tier s2)%nat).
Proof.
  pose proof interpret_scj_message as Hm.
  split; [apply (bool_decide_unpack _); vm_compute; exact I |].
  split; [exact Hm |]. split; [| split; [| exact tier_mono]].
  - intros s Hs. rewrite <- Hm. f_equal. unfold tier.
    destruct (Qle_bool_spec 8.5 s); [reflexivity | lra].
  - intros s Hs. rewrite <- Hm. f_equal. unfold tier.
    repeat match goal with
           | |- context [Qle_bool ?a ?b] => destruct (Qle_bool_spec a b)
           end; try reflexivity; lra.
Qed.

Lemma interpret_scj_tiers_witness :
  messages !! 4%nat = Some (interpret_scj 25) /\
  messages !! 0%nat = Some (interpret_scj (-5)) /\
  (tier 4.5 <= tier 6)%nat.
Proof.
  destruct interpret_scj_tiers as (_ & _ & Htop & Hbot & Hmono).
  split; [apply Htop; discriminate |].
  split; [apply Hbot; discriminate | apply Hmono; discriminate].
Defined.

(** The first of [parts] is the sentence of the tier. *)
Lemma stub_parts_head scj inputs :
  exists rest,
    AiService.stub_parts scj inputs
    = AiService.stub_tier_sentence scj :: rest.
Proof.
  unfold AiService.stub_parts. destruct inputs as [i |]; [| by exists []].
  cbv zeta.
  repeat match goal with
         | |- context [if ?c then _ else _] => destruct c
         end; simpl; eauto.
Qed.

Lemma stub_tier_sentence_tier s :
  AiService.stub_messages !! tier s = Some (AiService.stub_tier_sentence s).
Proof.
  unfold AiService.stub_tier_sentence, tier.
  repeat match goal with
         | |- context [Qle_bool ?a ?b] => destruct (Qle_bool a b)
         end; reflexivity.
Qed.

(** X6.  The guard of [generate_interpretation] never changes the tier,
    and the stub and [interpret_scj] put every score in the same tier:
    the text of the stub starts with the stub's sentence of the tier
    [interpret_scj] chooses, and is never empty. *)
Theorem stub_agrees_with_interpret_scj
    (s : Q) (inputs : option AiService.DailyInputsLite) :
  exists m rest,
    AiService.generate_interpretation AiService.stub_parts s inputs
    = m :: rest /\
    AiService.stub_messages !! tier s = Some m /\
    messages !! tier s = Some (interpret_scj s) /\
    AiService.generate_interpretation AiService.StubProvider_generate s inputs
    <> "".
Proof.
  unfold AiService.generate_interpretation. cbv zeta.
  change (py_max 0 (py_min 10 s)) with (_clamp s 0 10).
  destruct (stub_parts_head (_clamp s 0 10) inputs) as [rest E].
  exists (AiService.stub_tier_sentence (_clamp s 0 10)), rest.
  split; [exact E |].
  split; [rewrite <- stub_tier_sentence_tier, tier_clamp; reflexivity |].
  split; [apply interpret_scj_message |].
  unfold AiService.StubProvider_generate. rewrite E.
  unfold AiService.stub_tier_sentence.
  repeat match goal with
         | |- context [Qle_bool ?a ?b] => destruct (Qle_bool a b)
         end;
    (destruct rest; simpl; discriminate).
Qed.

Lemma stub_tier_sentence_not_advice s :
  AiService.stub_tier_sentence s <> AiService.stress_advice /\
  AiService.stub_tier_sentence s <> AiService.sleep_advice /\
  AiService.stub_tier_sentence s <> AiService.focus_advice.
Proof.
  unfold AiService.stub_tier_sentence.
  repeat match goal with
         | |- context [Qle_bool ?a ?b] => destruct (Qle_bool a b)
         end; repeat split; discriminate.
Qed.

Lemma stub_parts_advice scj i :
  let parts := AiService.stub_parts scj (Some i) in
  (AiService.stress_advice ∈ parts <-> 7 <= AiService.stress i) /\
  (AiService.sleep_advice ∈ parts <-> AiService.sommeil i <= 5.5) /\
  (AiService.focus_advice ∈ parts <->
   8 <= AiService.concentration i /\ 7 <= scj) /\
  (1 <= length parts <= 4)%nat.
Proof.
  cbv zeta. unfold AiService.stub_parts. cbv zeta.
  destruct (stub_tier_sentence_not_advice scj) as (N1 & N2 & N3).
  set (t := AiService.stub_tier_sentence scj) in *.
  destruct (Qle_bool_spec 7 (AiService.stress i));
    destruct (Qle_bool_spec (AiService.sommeil i) 5.5);
    destruct (Qle_bool_spec 8 (AiService.concentration i));
    destruct (Qle_bool_spec 7 scj);
    cbn [andb app length];
    rewrite ?elem_of_cons, ?elem_of_nil;
    (split; [| split; [| split; [| lia]]]);
    (split;
     [ intros Hin;
       repeat match goal with
              | H : _ \/ _ |- _ => destruct H
              | H : False |- _ => destruct H
              end;
       first [ lra | split; lra | congruence | discriminate ]
     | intros Hc; first [ tauto | exfalso; lra | exfalso; destruct Hc; lra ] ]).
Qed.

(** X7.  With inputs, the stub adds the advice on stress exactly when
    stress is at least 7, the advice on sleep exactly when at most 5.5
    hours were slept, and the advice on focus exactly when concentration
    is at least 8 and the score at least 7, to at most four sentences;
    without inputs the text is the sentence of the tier alone. *)
Theorem stub_advice_conditions (scj : Q) (i : AiService.DailyInputsLite) :
  let parts := AiService.stub_parts scj (Some i) in
  (AiService.stress_advice ∈ parts <-> 7 <= AiService.stress i) /\
  (AiService.sleep_advice ∈ parts <-> AiService.sommeil i <= 5.5) /\
  (AiService.focus_advice ∈ parts <->
   8 <= AiService.concentration i /\ 7 <= scj) /\
  (1 <= length parts <= 4)%nat /\
  AiService.stub_parts scj None = [AiService.stub_tier_sentence scj].
Proof.
  cbv zeta.
  destruct (stub_parts_advice scj i) as (H1 & H2 & H3 & H4).
  split; [exact H1 |]. split; [exact H2 |]. split; [exact H3 |].
  split; [exact H4 | reflexivity].
Qed.

Lemma stub_advice_conditions_witness :
  AiService.stress_advice
    ∈ AiService.stub_parts 5 (Some (AiService.mk_DailyInputsLite 5 7 8 6)).
Proof.
  pose proof (stub_advice_conditions 5 (AiService.mk_DailyInputsLite 5 7 8 6))
    as H.
  cbv zeta in H. destruct H as [[_ H] _]. apply H. discriminate.
Defined.

Lemma generate_interpretation_stub s inputs :
  AiService.generate_interpretation AiService.stub_parts s inputs
  = AiService.stub_parts (_clamp s 0 10) inputs.
Proof. reflexivity. Qed.

(** X8.  For a valid day, scored by the default call as [app/main.py]
    does: with stress at least 7 and at most 5.5 hours of sleep the
    score is at most 5.7, so the day is never in one of the two upper
    tiers and the stub never adds the advice on focus. *)
Theorem stressed_short_night_not_upper_tier (d : DailyInput) :
  validate_input d = Ok tt ->
  7 <= stress d ->
  sommeil d <= 5.5 ->
  exists r,
    compute_scj_default d = Ok r /\
    scj r <= 5.7 /\
    (tier (scj r) <= 2)%nat /\
    AiService.focus_advice
      ∉ AiService.generate_interpretation AiService.stub_parts (scj r)
          (Some (AiService.lite d)).
Proof.
  intros Hv Hst Hso.
  pose proof (proj1 (validate_input_ok d) Hv) as (Hh & _ & Hc & _).
  eexists. split; [apply (compute_scj_ok _ _ _ _ Hv) |].
  cbn [scj default from_option id].
  set (raw_score := numerator DEFAULT_WEIGHTS d / denom DEFAULT_WEIGHTS).
  assert (Hr : raw_score <= 5.7).
  { unfold raw_score. rewrite default_raw. apply Qle_shift_div_r; lra. }
  set (score := py_round (_clamp raw_score 0 10) 2).
  assert (Hs : score <= 5.7).
  { unfold score.
    assert (Hc57 : _clamp raw_score 0 10 <= 5.7).
    { destruct (_clamp_cases raw_score 0 10 ltac:(lra))
        as [[? E] | [[? E] | [? E]]]; lra. }
    eapply Qle_trans; [apply py_round_mono, Hc57 |].
    rewrite (ScoreEngineMore.py_round_exact 5.7 2 570); [lra | reflexivity]. }
  clearbody score. clear Hr. clearbody raw_score.
  split; [exact Hs |]. split.
  - unfold tier.
    destruct (Qle_bool_spec 8.5 score); [lra |].
    destruct (Qle_bool_spec 7.0 score); [lra |].
    destruct (Qle_bool 5.5 score), (Qle_bool 4.0 score); lia.
  - rewrite generate_interpretation_stub. intros Hin.
    destruct (stub_parts_advice (_clamp score 0 10) (AiService.lite d))
      as (_ & _ & Hf & _).
    cbv zeta in Hf. apply Hf in Hin. destruct Hin as [_ Hin].
    destruct (_clamp_cases score 0 10 ltac:(lra))
      as [[? E] | [[? E] | [? E]]]; lra.
Qed.

Lemma stressed_short_night_not_upper_tier_witness :
  exists r,
    compute_scj_default (mk_DailyInput 10 5.5 7 10) = Ok r /\
    scj r <= 5.7 /\ (tier (scj r) <= 2)%nat.
Proof.
  destruct (stressed_short_night_not_upper_tier (mk_DailyInput 10 5.5 7 10))
    as (r & E & Hs & Ht & _);
    [reflexivity | discriminate | discriminate |].
  exists r. split; [exact E |]. split; [exact Hs | exact Ht].
Defined.

End InterpretationSpec.

(** * The seed script *)

Module SeedSpec.
Import ScoreEngine ScoreEngineTerms ScoreEngineSpec Seed.

(** Rounding to one decimal keeps a value between two bounds that have
    one decimal. *)
Lemma py_round_1_between x lo hi klo khi :
  lo * Qpower 10 1 == inject_Z klo ->
  hi * Qpower 10 1 == inject_Z khi ->
  lo <= x <= hi ->
  lo <= py_round x 1 <= hi.
Proof.
  intros Elo Ehi [Hlo Hhi].
  pose proof (ScoreEngineMore.py_round_exact lo 1 klo Elo) as E1.
  pose proof (ScoreEngineMore.py_round_exact hi 1 khi Ehi) as E2.
  pose proof (py_round_mono lo x 1 Hlo) as M1.
  pose proof (py_round_mono x hi 1 Hhi) as M2.
  split.
  - rewrite <- E1. exact M1.
  - rewrite <- E2. exact M2.
Qed.

(** X9.  Whatever the four draws, [sample_day_inputs] builds a day that
    passes validation, with between 4 and 9 hours of sleep: the seed
    script never stops on [InputValidationError]. *)
Theorem sample_day_inputs_valid (g_h g_st g_c g_so : Q) :
  let d := sample_day_inputs g_h g_st g_c g_so in
  validate_input d = Ok tt /\
  4 <= sommeil d <= 9 /\
  exists r, compute_scj_default d = Ok r.
Proof.
  cbv zeta.
  assert (Hd : in_domain (sample_day_inputs g_h g_st g_c g_so)
               /\ 4 <= sommeil (sample_day_inputs g_h g_st g_c g_so) <= 9).
  { unfold in_domain, sample_day_inputs. cbv zeta. cbn [humeur stress
      concentration sommeil].
    pose proof (py_round_1_between (clamp g_h 0 10) 0 10 0 100
                  eq_refl eq_refl (_clamp_bounds g_h 0 10 ltac:(lra))).
    pose proof (py_round_1_between (clamp g_st 0 10) 0 10 0 100
                  eq_refl eq_refl (_clamp_bounds g_st 0 10 ltac:(lra))).
    pose proof (py_round_1_between (clamp g_c 0 10) 0 10 0 100
                  eq_refl eq_refl (_clamp_bounds g_c 0 10 ltac:(lra))).
    pose proof (py_round_1_between (clamp g_so 4 9) 4 9 40 90
                  eq_refl eq_refl (_clamp_bounds g_so 4 9 ltac:(lra))).
    repeat split; lra. }
  destruct Hd as [Hd Hs].
  pose proof (proj2 (validate_input_ok _) Hd) as Hv.
  split; [exact Hv |]. split; [exact Hs |].
  eexists. apply (compute_scj_ok _ _ _ _ Hv).
Qed.

(** ** [daterange] *)

Lemma sorted_fmap_seq (f : nat -> Z) a n :
  (forall i j, (i < j)%nat -> (f i < f j)%Z) ->
  StronglySorted Z.lt (f <$> seq a n).
Proof.
  intros Hf. revert a. induction n as [| n IH]; intros a; simpl.
  - constructor.
  - constructor; [apply IH |].
    apply Forall_forall. intros y Hy.
    apply list_elem_of_fmap in Hy. destruct Hy as (j & -> & Hj).
    apply elem_of_seq in Hj. apply Hf. lia.
Qed.

(** X10.  [daterange(end, days)] yields, in increasing order and once
    each, exactly the days after [end - days] up to [end]: [days] of
    them, none when [days] is not positive.  With [days = 7] these are
    the days of the window of [weekly_avg]. *)
Theorem daterange_days (end_ days : Z) :
  (forall d, d ∈ daterange end_ days <-> (end_ - days < d <= end_)%Z) /\
  length (daterange end_ days) = Z.to_nat days /\
  StronglySorted Z.lt (daterange end_ days) /\
  (forall user r,
     RecordsRepoTerms.in_window user end_ r <->
     Models.user_id r = user /\ Models.date r ∈ daterange end_ 7).
Proof.
  assert (Hmem : forall n d,
             d ∈ daterange end_ n <-> (end_ - n < d <= end_)%Z).
  { intros n d. unfold daterange. rewrite list_elem_of_fmap. split.
    - intros (i & -> & Hi). apply elem_of_seqZ in Hi. lia.
    - intros H. exists (d - end_ + n - 1)%Z. split; [lia |].
      apply elem_of_seqZ. lia. }
  split; [apply Hmem |]. split; [| split].
  - unfold daterange. rewrite length_fmap. apply length_seqZ.
  - unfold daterange, seqZ. rewrite <- list_fmap_compose.
    apply sorted_fmap_seq. intros i j Hij. simpl. lia.
  - intros user r. rewrite Hmem. unfold RecordsRepoTerms.in_window.
    split; intros [Hu Hd]; (split; [exact Hu | lia]).
Qed.

End SeedSpec.

(** * More on the record store *)

Module RecordsRepoMore.
Import Models Db RecordsRepo RecordsRepoTerms RecordsRepoReads MoreTerms.
Import RecordsRepoSpec.

Local Open Scope Z_scope.

(** ** Sorting the rows of one user *)

Lemma StronglySorted_rev {A} (R : A -> A -> Prop) (l : list A) :
  StronglySorted R l -> StronglySorted (flip R) (rev l).
Proof.
  induction 1 as [| x l Hs IH Hx]; simpl; [constructor |].
  apply StronglySorted_app_2; [| exact IH | repeat constructor].
  intros y z Hy Hz. apply list_elem_of_singleton in Hz. subst z.
  unfold flip. rewrite Forall_forall in Hx. apply Hx.
  apply list_elem_of_In. apply in_rev. apply list_elem_of_In. exact Hy.
Qed.

(** Under the constraints, rows of one user sort strictly by date. *)
Lemma order_by_strict asc user (P : record -> Prop)
    `{!forall r, Decision (P r)} db :
  table_ok db ->
  (forall r, P r -> user_id r = user) ->
  order_by asc (filter P db) ≡ₚ filter P db /\
  NoDup (order_by asc (filter P db)) /\
  StronglySorted (before asc) (order_by asc (filter P db)).
Proof.
  intros (Hpk & Huq & _) HP.
  assert (Hperm : order_by asc (filter P db) ≡ₚ filter P db)
    by apply merge_sort_Permutation.
  assert (Hnd : NoDup (order_by asc (filter P db))).
  { rewrite Hperm. apply NoDup_filter, (NoDup_fmap_1 id), Hpk. }
  split; [exact Hperm |]. split; [exact Hnd |].
  apply (StronglySorted_strengthen (date_order asc));
    [apply StronglySorted_merge_sort; apply _ | exact Hnd |].
  intros x y Hx Hy Hne Hxy.
  rewrite Hperm in Hx, Hy. apply list_elem_of_filter in Hx, Hy.
  destruct Hx as [Px Hx], Hy as [Py Hy].
  assert (Hd : date x <> date y).
  { intros E. apply Hne.
    apply (NoDup_map_eq uq_user_day db); [exact Huq | exact Hx | exact Hy |].
    unfold uq_user_day. rewrite (HP x Px), (HP y Py), E. reflexivity. }
  unfold date_order, before in *. destruct asc; lia.
Qed.

Lemma last_n_unfold user n db :
  last_n user n db
  = (Ok (rev (limit n (order_by false (rows_of user db)))), db).
Proof.
  unfold last_n, get_session, bind, scalars, ret, rows_of.
  rewrite (filter_bool_prop _ (fun r => user_id r = user) db);
    [reflexivity |].
  intros r. apply Z.eqb_eq.
Qed.

Lemma limit_take {A} n (l : list A) :
  exists k, limit n l = take k l /\
            k = (if n <? 0 then length l else Z.to_nat n).
Proof.
  unfold limit. destruct (n <? 0).
  - exists (length l). split; [symmetry; apply firstn_all | reflexivity].
  - eexists. split; reflexivity.
Qed.

(** X11.  On a table that satisfies its constraints, [last_n] leaves the
    table as it is and returns rows of the user, strictly ascending by
    date: [n] of them, or all when the user has fewer (or [n] is
    negative), and every row of the user that it leaves out is older
    than every row it returns. *)
Theorem last_n_most_recent (user n : Z) (db : table) :
  table_ok db ->
  exists rows,
    last_n user n db = (Ok rows, db) /\
    length rows =
      (if n <? 0 then length (rows_of user db)
       else Nat.min (Z.to_nat n) (length (rows_of user db))) /\
    StronglySorted (before true) rows /\
    (forall r, r ∈ rows -> r ∈ rows_of user db) /\
    (forall r r',
       r ∈ rows -> r' ∈ rows_of user db -> r' ∉ rows -> date r' < date r).
Proof.
  intros Hok.
  destruct (order_by_strict false user (fun r => user_id r = user) db Hok
              ltac:(auto)) as (Hperm & Hnd & Hsort).
  fold (rows_of user db) in *.
  set (sorted := order_by false (rows_of user db)) in *.
  destruct (limit_take n sorted) as (k & Hk & Ek).
  exists (rev (take k sorted)).
  split; [rewrite last_n_unfold; fold sorted; rewrite Hk; reflexivity |].
  assert (Hlen : length sorted = length (rows_of user db))
    by (rewrite Hperm; reflexivity).
  rewrite <- (take_drop k sorted) in Hsort.
  apply StronglySorted_app in Hsort. destruct Hsort as (Hcross & Htake & _).
  assert (Hin : forall r, r ∈ rev (take k sorted) <-> r ∈ take k sorted).
  { intros r. rewrite !list_elem_of_In. symmetry. apply in_rev. }
  split; [| split; [| split]].
  - rewrite length_rev, length_take, Hlen, Ek.
    destruct (n <? 0); lia.
  - apply StronglySorted_rev in Htake.
    eapply StronglySorted_strengthen; [exact Htake | |].
    + apply NoDup_ListNoDup, NoDup_rev, NoDup_ListNoDup.
      rewrite <- (take_drop k sorted) in Hnd.
      apply NoDup_app in Hnd. tauto.
    + intros x y _ _ _ H. exact H.
  - intros r Hr. apply Hin in Hr. rewrite <- Hperm.
    rewrite <- (take_drop k sorted). apply elem_of_app. left. exact Hr.
  - intros r r' Hr Hr' Hout. apply Hin in Hr.
    assert (Hd : r' ∈ drop k sorted).
    { rewrite <- Hperm, <- (take_drop k sorted) in Hr'.
      apply elem_of_app in Hr'. destruct Hr' as [Ht | Hd]; [| exact Hd].
      exfalso. apply Hout, Hin, Ht. }
    exact (Hcross r r' Hr Hd).
Qed.

(** ** Means *)

Lemma foldr_Qplus_perm xs ys :
  xs ≡ₚ ys -> (foldr Qplus 0 xs == foldr Qplus 0 ys)%Q.
Proof.
  induction 1 as [| x xs ys _ IH | x y xs | xs ys zs _ IH1 _ IH2]; simpl.
  - reflexivity.
  - rewrite IH. reflexivity.
  - lra.
  - rewrite IH1. exact IH2.
Qed.

Lemma mean_perm xs ys : xs ≡ₚ ys -> (mean xs == mean ys)%Q.
Proof.
  intros H. unfold mean.
  rewrite (foldr_Qplus_perm xs ys H), (Permutation_length H). reflexivity.
Qed.



(** ** Calls of other users *)

Lemma filter_replace_row (P : record -> Prop) `{!forall r, Decision (P r)}
    rec' i (l : list record) :
  ~ P rec' ->
  (forall r, r ∈ l -> id r = i -> ~ P r) ->
  filter P (map (fun r => if id r =? i then rec' else r) l) = filter P l.
Proof.
  intros Hrec'. induction l as [| x l IH]; intros Hl; [reflexivity |].
  cbn [map]. rewrite !filter_cons, IH
    by (intros r Hr; apply Hl; right; exact Hr).
  destruct (id x =? i) eqn:E.
  - apply Z.eqb_eq in E.
    rewrite (decide_False (P:=P rec')) by exact Hrec'.
    rewrite (decide_False (P:=P x)) by (apply Hl; [left | exact E]).
    reflexivity.
  - reflexivity.
Qed.

Lemma filter_delete_row (P : record -> Prop) `{!forall r, Decision (P r)}
    (q : record -> bool) (l : list record) :
  (forall r, r ∈ l -> q r = false -> ~ P r) ->
  filter P (List.filter q l) = filter P l.
Proof.
  induction l as [| x l IH]; intros Hl; [reflexivity |].
  cbn [List.filter]. destruct (q x) eqn:E.
  - rewrite !filter_cons, IH by (intros r Hr; apply Hl; right; exact Hr).
    reflexivity.
  - rewrite IH by (intros r Hr; apply Hl; right; exact Hr).
    rewrite filter_cons, (decide_False (P:=P x)) by (apply Hl; [left | exact E]).
    reflexivity.
Qed.

Section Repository.

Variable fromisoformat : string -> option Z.

Abbreviation _normalize_date := (RecordsRepo._normalize_date fromisoformat).
Abbreviation add := (RecordsRepo.add fromisoformat).
Abbreviation upsert := (RecordsRepo.upsert fromisoformat).
Abbreviation delete := (RecordsRepo.delete fromisoformat).
Abbreviation get_range := (RecordsRepo.get_range fromisoformat).
Abbreviation weekly_avg := (RecordsRepo.weekly_avg fromisoformat).
Abbreviation exists_ := (RecordsRepoReads.exists_ fromisoformat).
Abbreviation run_call := (RecordsRepo.run_call fromisoformat).
Abbreviation run_calls := (RecordsRepo.run_calls fromisoformat).

(** X12.  On a table that satisfies its constraints, [last_n] with [n]
    at least the number of rows of the user returns what [get_range]
    returns without bounds in ascending order: all the rows of the user,
    oldest first. *)
Theorem last_n_all_is_get_range (user n : Z) (db : table) :
  table_ok db ->
  Z.of_nat (length (rows_of user db)) <= n ->
  last_n user n db = get_range user None None true db.
Proof.
  intros Hok Hn.
  destruct (order_by_strict false user (fun r => user_id r = user) db Hok
              ltac:(auto)) as (Hperm & _ & Hsort).
  destruct (order_by_strict true user (selected user None None) db Hok
              ltac:(intros r [Hu _]; exact Hu)) as (Hperm' & _ & Hsort').
  fold (rows_of user db) in *.
  rewrite last_n_unfold, (get_range_unfold fromisoformat user None None true db
                            None None eq_refl eq_refl).
  f_equal. f_equal.
  assert (Hl : limit n (order_by false (rows_of user db))
               = order_by false (rows_of user db)).
  { unfold limit. destruct (n <? 0) eqn:E; [reflexivity |].
    apply take_ge. rewrite Hperm. lia. }
  rewrite Hl.
  assert (Hsame : rows_of user db = filter (selected user None None) db).
  { unfold rows_of. apply list_filter_iff. intros r.
    unfold selected, in_bounds. tauto. }
  apply (StronglySorted_unique_strong (before true)).
  - intros x y _ _ H1 H2. unfold before in *. lia.
  - apply (StronglySorted_rev (before false)) in Hsort.
    eapply StronglySorted_strengthen; [exact Hsort | |].
    + apply NoDup_ListNoDup, NoDup_rev, NoDup_ListNoDup.
      rewrite Hperm. apply NoDup_filter, (NoDup_fmap_1 id), Hok.
    + intros x y _ _ _ H. exact H.
  - exact Hsort'.
  - etransitivity; [symmetry; apply Permutation_rev |].
    etransitivity; [exact Hperm |].
    rewrite Hsame. symmetry. exact Hperm'.
Qed.

Lemma exists_unfold user d db day :
  _normalize_date d = Ok day ->
  exists_ user d db
  = (Ok (match rows_on user day db with [] => false | _ :: _ => true end),
     db).
Proof.
  intros Hn. unfold RecordsRepoReads.exists_, get_session, bind, count, ret.
  rewrite Hn. fold (rows_on user day db).
  destruct (rows_on user day db) as [| r l]; [reflexivity |].
  reflexivity.
Qed.

Lemma rows_on_nil user day db :
  rows_on user day db = [] <->
  forall r, r ∈ db -> ~ (user_id r = user /\ date r = day).
Proof.
  unfold rows_on. split.
  - intros E r Hin Hr.
    assert (H : In r (List.filter (on_day user day) db)).
    { apply filter_In. split; [apply list_elem_of_In, Hin |].
      apply on_day_true, Hr. }
    rewrite E in H. destruct H.
  - intros H. destruct (List.filter _ db) as [| r l] eqn:E; [reflexivity |].
    exfalso. assert (Hr : In r (List.filter (on_day user day) db))
      by (rewrite E; left; reflexivity).
    apply filter_In in Hr. destruct Hr as [Hin Hp].
    apply (H r); [apply list_elem_of_In, Hin | apply on_day_true, Hp].
Qed.

(** X13.  [exists] leaves the table as it is and returns [True] exactly
    when the table has a row for the user and the normalised day.  On a
    table that satisfies its constraints this is when [add] refuses the
    day: after [True], [add] raises its [ValueError]; after [False],
    [add] with the five required values inserts. *)
Theorem exists_iff_row
    (user : Z) (d : date_arg) (db : table) (day : Z) :
  _normalize_date d = Ok day ->
  exists b,
    exists_ user d db = (Ok b, db) /\
    (b = true <-> exists r, r ∈ db /\ user_id r = user /\ date r = day) /\
    (table_ok db -> b = true ->
     forall f now,
       add user d f now db = (Err (ValueError_duplicate day), db)) /\
    (table_ok db -> b = false ->
     forall f now,
       supplies_required f ->
       exists r, add user d f now db = (Ok r, db ++ [r])).
Proof.
  intros Hn. eexists. split; [apply (exists_unfold _ _ _ _ Hn) |].
  pose proof (rows_on_nil user day db) as Hnil.
  split; [| split].
  - destruct (rows_on user day db) as [| r l] eqn:E.
    + split; [discriminate |]. intros (r & Hin & Hu & Hd).
      exfalso. exact (proj1 Hnil eq_refl r Hin (conj Hu Hd)).
    + split; [| reflexivity]. intros _.
      assert (Hr : In r (rows_on user day db)) by (rewrite E; left; reflexivity).
      apply filter_In in Hr. destruct Hr as [Hin Hp].
      apply on_day_true in Hp. exists r.
      split; [apply list_elem_of_In, Hin | exact Hp].
  - intros Hok Hb f now.
    destruct (rows_on user day db) as [| r l] eqn:E; [discriminate |].
    assert (Hr : In r (rows_on user day db)) by (rewrite E; left; reflexivity).
    apply filter_In in Hr. destruct Hr as [Hin Hp].
    apply on_day_true in Hp. destruct Hp as [Hu Hd].
    apply list_elem_of_In in Hin.
    pose proof Hok as (_ & Huq & Hpos).
    apply (add_found fromisoformat _ _ _ _ _ _ r Hn
             (find_on_day _ _ _ _ Huq Hin Hu Hd)).
    rewrite Forall_forall in Hpos. specialize (Hpos r Hin). lia.
  - intros Hok Hb f now Hreq.
    destruct (rows_on user day db) as [| r l] eqn:E; [| discriminate].
    pose proof (find_on_day_none _ _ _ (proj1 Hnil eq_refl)) as Hf.
    rewrite (add_not_found fromisoformat _ _ _ _ _ _ Hn Hf).
    destruct (insert_fresh user day f now db Hok Hf Hreq) as (r & Er & _).
    exists r. exact Er.
Qed.

(** Under the constraints, the DELETE by primary key of the row found
    for a user and a day removes the rows of that user and day, and no
    other. *)
Lemma delete_row_spec user day db rec :
  table_ok db ->
  List.find (on_day user day) db = Some rec ->
  forall r,
    r ∈ List.filter (fun r => negb (id r =? id rec)) db <->
    r ∈ db /\ ~ (user_id r = user /\ date r = day).
Proof.
  intros (Hpk & Huq & _) Hf r.
  apply find_some_in in Hf. destruct Hf as [Hin Hp].
  apply on_day_true in Hp. destruct Hp as [Hu Hd].
  rewrite list_elem_of_In, filter_In, negb_true_iff, Z.eqb_neq,
    <- list_elem_of_In.
  split; intros [Hr Hne]; (split; [exact Hr |]).
  - intros [Hu' Hd']. apply Hne. f_equal.
    apply (NoDup_map_eq uq_user_day db); [exact Huq | exact Hr | exact Hin |].
    unfold uq_user_day. congruence.
  - intros E. apply Hne.
    assert (r = rec)
      by (apply (NoDup_map_eq id db); assumption).
    subst r. split; assumption.
Qed.

(** X14.  On a table that satisfies its constraints, [delete] returns
    whether the user had a row on the day and leaves exactly the other
    rows, the constraints still holding; after it [exists] returns
    [False] and a second [delete] returns [False] and changes
    nothing. *)
Theorem delete_removes_the_row
    (user : Z) (d : date_arg) (db : table) (day : Z) :
  table_ok db ->
  _normalize_date d = Ok day ->
  exists b db',
    delete user d db = (Ok b, db') /\
    (b = true <-> exists r, r ∈ db /\ user_id r = user /\ date r = day) /\
    (forall r,
       r ∈ db' <-> r ∈ db /\ ~ (user_id r = user /\ date r = day)) /\
    table_ok db' /\
    exists_ user d db' = (Ok false, db') /\
    delete user d db' = (Ok false, db').
Proof.
  intros Hok Hn.
  assert (Hafter : forall db',
             (forall r, r ∈ db' ->
                        ~ (user_id r = user /\ date r = day)) ->
             exists_ user d db' = (Ok false, db') /\
             delete user d db' = (Ok false, db')).
  { intros db' Hnone. split.
    - rewrite (exists_unfold _ _ _ _ Hn), (proj2 (rows_on_nil _ _ _) Hnone).
      reflexivity.
    - rewrite (delete_cases fromisoformat _ _ _ _ Hn),
        (find_on_day_none _ _ _ Hnone). reflexivity. }
  rewrite (delete_cases fromisoformat _ _ _ _ Hn).
  destruct (List.find (on_day user day) db) as [rec |] eqn:Hf.
  - pose proof (delete_row_spec user day db rec Hok Hf) as Hspec.
    do 2 eexists. split; [reflexivity |]. split; [| split; [| split]].
    + split; [| reflexivity]. intros _.
      apply find_some_in in Hf. destruct Hf as [Hin Hp].
      apply on_day_true in Hp. exists rec. tauto.
    + exact Hspec.
    + apply table_ok_filter, Hok.
    + apply Hafter. intros r Hr. apply Hspec in Hr. tauto.
  - assert (Hnone : forall r, r ∈ db ->
                              ~ (user_id r = user /\ date r = day)).
    { intros r Hin Hr.
      assert (Hex : existsb (on_day user day) db = true).
      { apply existsb_exists. exists r.
        split; [apply list_elem_of_In, Hin | apply on_day_true, Hr]. }
      apply find_none_existsb in Hf. congruence. }
    do 2 eexists. split; [reflexivity |]. split; [| split; [| split]].
    + split; [discriminate |]. intros (r & Hin & Hr).
      destruct (Hnone r Hin Hr).
    + intros r. split; [intros Hr; split; [exact Hr | exact (Hnone r Hr)] | tauto].
    + exact Hok.
    + apply Hafter, Hnone.
Qed.

(** X15.  On a table that satisfies its constraints, [delete] undoes
    [add]: when [add] has inserted a row for a user and a day, [exists]
    returns [True] and [delete] for them returns [True] and gives back
    the table as it was before. *)
Theorem delete_undoes_add
    (user : Z) (d : date_arg) (f : fields) (now : Z) (db db1 : table)
    (r : record) :
  table_ok db ->
  add user d f now db = (Ok r, db1) ->
  exists_ user d db1 = (Ok true, db1) /\
  delete user d db1 = (Ok true, db).
Proof.
  intros Hok Hadd.
  destruct (_normalize_date d) as [day | e] eqn:Hn;
    [| unfold RecordsRepo.add in Hadd; rewrite Hn in Hadd; discriminate Hadd].
  pose proof Hok as (_ & Huq & Hpos).
  destruct (List.find (on_day user day) db) as [rec |] eqn:Hf.
  { exfalso. apply find_some_in in Hf as Hf'. destruct Hf' as [Hin _].
    rewrite (add_found fromisoformat _ _ _ _ _ _ rec Hn Hf) in Hadd;
      [discriminate Hadd |].
    rewrite Forall_forall in Hpos. specialize (Hpos rec Hin). lia. }
  rewrite (add_not_found fromisoformat _ _ _ _ _ _ Hn Hf) in Hadd.
  destruct (session_insert_cases user day f now db)
    as [(r' & E & Hid & Hu & Hd & _ & Hreq) | E];
    rewrite E in Hadd; [| discriminate Hadd].
  injection Hadd as <- <-.
  destruct (insert_fresh user day f now db Hok Hf Hreq)
    as (r'' & E' & Hok1 & _ & _ & _ & _ & _ & _ & Hrows).
  rewrite E in E'. injection E' as <-.
  split.
  - rewrite (exists_unfold _ _ _ _ Hn), Hrows. reflexivity.
  - rewrite (delete_cases fromisoformat _ _ _ _ Hn).
    assert (Hfind : List.find (on_day user day) (db ++ [r']) = Some r').
    { destruct Hok1 as (_ & Huq1 & _).
      apply (find_on_day _ _ _ _ Huq1); [| exact Hu | exact Hd].
      apply elem_of_app. right. apply list_elem_of_singleton. reflexivity. }
    rewrite Hfind. do 2 f_equal.
    rewrite List.filter_app. simpl. rewrite Z.eqb_refl. simpl.
    rewrite app_nil_r.
    apply forallb_filter_id, forallb_forall. intros x Hx.
    apply negb_true_iff, Z.eqb_neq.
    pose proof (next_rowid_above db x (proj2 (list_elem_of_In _ _) Hx)). lia.
Qed.

(** X16.  The repository sees a date argument only through
    [_normalize_date]: two arguments that normalise alike (a [datetime]
    and its [date], a string and the date it reads as) give the same
    result and the same table in [add], [upsert], [delete] and
    [exists], and an argument that does not normalise makes each of them
    raise the error of [_normalize_date] and leave the table as it
    is. *)
Theorem date_argument_by_normal_form (d1 d2 : date_arg) :
  _normalize_date d1 = _normalize_date d2 ->
  (forall user f now db,
     add user d1 f now db = add user d2 f now db /\
     upsert user d1 f now db = upsert user d2 f now db /\
     delete user d1 db = delete user d2 db /\
     exists_ user d1 db = exists_ user d2 db) /\
  (forall e user f now db,
     _normalize_date d1 = Err e ->
     add user d1 f now db = (Err e, db) /\
     upsert user d1 f now db = (Err e, db) /\
     delete user d1 db = (Err e, db) /\
     exists_ user d1 db = (Err e, db)).
Proof.
  intros E. split.
  - intros user f now db.
    unfold RecordsRepo.add, RecordsRepo.upsert, RecordsRepo.delete,
      RecordsRepoReads.exists_.
    rewrite E. repeat split; reflexivity.
  - intros e user f now db He.
    unfold RecordsRepo.add, RecordsRepo.upsert, RecordsRepo.delete,
      RecordsRepoReads.exists_.
    rewrite He. repeat split; reflexivity.
Qed.

(** X17.  [weekly_avg] tests its end date for truth, not for [None]: an
    empty string, like any falsy value, is read as "today" and never
    parsed.  The other calls parse it: when [fromisoformat] rejects the
    empty string, [get_range] and [add] raise its [ValueError]. *)
Theorem weekly_avg_falsy_end_date :
  (forall user today db,
     weekly_avg user (Some (Str "")) today db = weekly_avg user None today db /\
     weekly_avg user (Some (Other false)) today db
     = weekly_avg user None today db) /\
  (fromisoformat "" = None ->
   forall user end_ asc f now db,
     get_range user (Some (Str "")) end_ asc db = (Err ValueError_isoformat, db) /\
     add user (Str "") f now db = (Err ValueError_isoformat, db)).
Proof.
  split.
  - intros user today db. split; reflexivity.
  - intros H user end_ asc f now db.
    unfold RecordsRepo.get_range, RecordsRepo.add, RecordsRepo.normalize_bound,
      RecordsRepo._normalize_date.
    rewrite H. split; reflexivity.
Qed.

(** X18.  [weekly_avg] for an end day is the mean of [scj] over the rows
    that [get_range] returns for the seven days that end on it, in
    either order, and [None] exactly when [get_range] returns no
    row. *)
Theorem weekly_avg_of_get_range
    (user end_ today : Z) (asc : bool) (db : table) :
  exists rows res,
    get_range user (Some (Date (end_ - 6))) (Some (Date end_)) asc db
    = (Ok rows, db) /\
    weekly_avg user (Some (Date end_)) today db = (Ok res, db) /\
    (res = None <-> rows = []) /\
    (forall q, res = Some q -> (q == mean (map scj rows))%Q).
Proof.
  do 2 eexists.
  split; [apply (get_range_unfold fromisoformat user
                   (Some (Date (end_ - 6))) (Some (Date end_)) asc db
                   (Some (end_ - 6)) (Some end_) eq_refl eq_refl) |].
  split; [apply (weekly_avg_unfold fromisoformat user (Some (Date end_))
                   today db end_ eq_refl) |].
  assert (Hsame : filter (in_window user end_) db
                  = filter (selected user (Some (end_ - 6)) (Some end_)) db).
  { apply list_filter_iff. intros r.
    unfold in_window, selected, in_bounds. tauto. }
  assert (Hperm : order_by asc
                    (filter (selected user (Some (end_ - 6)) (Some end_)) db)
                  ≡ₚ filter (in_window user end_) db)
    by (rewrite Hsame; apply merge_sort_Permutation).
  unfold window_scores. split.
  - rewrite sql_avg_none. split.
    + intros E. apply fmap_nil_inv in E. rewrite E in Hperm.
      apply Permutation_nil_r. exact Hperm.
    + intros E. rewrite E in Hperm. apply Permutation_nil in Hperm.
      rewrite Hperm. reflexivity.
  - intros q Hq. rewrite (sql_avg_mean _ _ Hq).
    apply mean_perm. apply fmap_Permutation. symmetry. exact Hperm.
Qed.


Lemma run_call_other_user c db other :
  table_ok db -> call_user c <> other ->
  rows_of other (run_call c db) = rows_of other db.
Proof.
  intros Hok Hne. pose proof Hok as (Hpk & Huq & _).
  unfold rows_of.
  assert (Hins : forall user day f now,
             user <> other ->
             filter (fun r => user_id r = other)
               (snd (get_session (flush_insert user day f now) db))
             = filter (fun r => user_id r = other) db).
  { intros user day f now Hu.
    destruct (session_insert_cases user day f now db)
      as [(r & E & _ & Hur & _) | E]; rewrite E; cbn [snd]; [| reflexivity].
    rewrite (filter_app (fun r0 : record => user_id r0 = other) db [r]),
      filter_cons, filter_nil.
    rewrite decide_False by congruence.
    apply app_nil_r. }
  destruct c as [user d f now | user d f now | user d]; cbn [call_user] in Hne;
    cbn [RecordsRepo.run_call];
    (destruct (_normalize_date d) as [day | e] eqn:Hn;
     [| unfold RecordsRepo.add, RecordsRepo.upsert, RecordsRepo.delete;
        rewrite Hn; reflexivity]).
  - destruct (List.find (on_day user day) db) as [rec |] eqn:Hf.
    + unfold RecordsRepo.add, get_session, bind, scalar, raise.
      rewrite Hn, Hf. cbn [fmap option_fmap option_map truthy_id].
      destruct (negb (id rec =? 0)); cbn [snd]; [reflexivity |].
      apply (Hins user day f now Hne).
    + rewrite (add_not_found fromisoformat _ _ _ _ _ _ Hn Hf).
      apply Hins, Hne.
  - destruct (List.find (on_day user day) db) as [rec |] eqn:Hf.
    + rewrite (upsert_found fromisoformat _ _ _ _ _ _ _ Hn Hf). cbn [snd].
      apply find_some_in in Hf. destruct Hf as [Hin Hp].
      apply on_day_true in Hp. destruct Hp as [Hu _].
      unfold replace_row. apply filter_replace_row.
      * simpl. congruence.
      * intros r Hr E.
        assert (r = rec) by (apply (NoDup_map_eq id db); assumption).
        subst r. congruence.
    + rewrite (upsert_not_found fromisoformat _ _ _ _ _ _ Hn Hf).
      apply Hins, Hne.
  - rewrite (delete_cases fromisoformat _ _ _ _ Hn).
    destruct (List.find (on_day user day) db) as [rec |] eqn:Hf;
      cbn [snd]; [| reflexivity].
    apply find_some_in in Hf. destruct Hf as [Hin Hp].
    apply on_day_true in Hp. destruct Hp as [Hu _].
    apply filter_delete_row. intros r Hr E.
    apply negb_false_iff, Z.eqb_eq in E.
    assert (r = rec) by (apply (NoDup_map_eq id db); assumption).
    subst r. congruence.
Qed.

(** X20.  On a table that satisfies its constraints, calls of [add],
    [upsert] and [delete] made for other users, whether they return or
    raise, leave the rows of a user as they are. *)
Theorem calls_leave_other_users (cs : list call) (db : table) (other : Z) :
  table_ok db ->
  Forall (fun c => call_user c <> other) cs ->
  rows_of other (run_calls cs db) = rows_of other db.
Proof.
  unfold RecordsRepo.run_calls. revert db.
  induction cs as [| c cs IH]; intros db Hok Hcs; [reflexivity |].
  apply Forall_cons in Hcs. destruct Hcs as [Hc Hcs]. cbn [foldl].
  rewrite IH; [| apply run_call_table_ok, Hok | exact Hcs].
  apply run_call_other_user; assumption.
Qed.

End Repository.

(** ** At the rows of the examples *)

Import Calendar.

Lemma last_n_most_recent_witness :
  exists rows,
    last_n 1 2 sparse_week = (Ok rows, sparse_week) /\
    map date rows = [day_2025_03_03 - 3; day_2025_03_03].
Proof.
  destruct (last_n_most_recent 1 2 sparse_week ltac:(decide_table))
    as (rows & E & _).
  exists rows. split; [exact E |].
  vm_compute in E. injection E as <-. reflexivity.
Defined.

Lemma last_n_all_is_get_range_witness :
  last_n 1 10 sparse_week
  = get_range date_fromisoformat 1 None None true sparse_week.
Proof.
  apply last_n_all_is_get_range; [decide_table | vm_compute; discriminate].
Defined.

Lemma exists_iff_row_witness :
  exists b,
    exists_ date_fromisoformat 1 (Str "2025-03-03") example_db
    = (Ok b, example_db) /\
    (b = true <->
     exists r, r ∈ example_db /\ user_id r = 1 /\ date r = day_2025_03_03).
Proof.
  destruct (exists_iff_row date_fromisoformat 1 (Str "2025-03-03") example_db
              day_2025_03_03 eq_refl) as (b & E & H & _).
  exists b. split; [exact E | exact H].
Defined.

Lemma delete_removes_the_row_witness :
  exists b db',
    delete date_fromisoformat 1 (Str "2025-03-03") example_db = (Ok b, db') /\
    db' = [other_row] /\
    delete date_fromisoformat 1 (Str "2025-03-03") db' = (Ok false, db').
Proof.
  destruct (delete_removes_the_row date_fromisoformat 1 (Str "2025-03-03")
              example_db day_2025_03_03 ltac:(decide_table) eq_refl)
    as (b & db' & E & _ & _ & _ & _ & E2).
  exists b, db'. split; [exact E |]. split; [| exact E2].
  vm_compute in E. injection E as _ <-. reflexivity.
Defined.

Lemma delete_undoes_add_witness :
  exists r db1,
    add date_fromisoformat 3 (Str "2025-03-03") all_fields 5 example_db
    = (Ok r, db1) /\
    delete date_fromisoformat 3 (Str "2025-03-03") db1 = (Ok true, example_db).
Proof.
  eexists _, _. split; [vm_compute; reflexivity |].
  eapply (delete_undoes_add date_fromisoformat 3 (Str "2025-03-03")
            all_fields 5 example_db);
    [decide_table | vm_compute; reflexivity].
Defined.

Lemma date_argument_by_normal_form_witness :
  add date_fromisoformat 1 (Datetime day_2025_03_03 36000) all_fields 5
    example_db
  = add date_fromisoformat 1 (Str "2025-03-03") all_fields 5 example_db.
Proof.
  apply (proj1 (date_argument_by_normal_form date_fromisoformat
                  (Datetime day_2025_03_03 36000) (Str "2025-03-03")
                  eq_refl)).
Defined.

Lemma weekly_avg_falsy_end_date_witness :
  get_range date_fromisoformat 1 (Some (Str "")) None true example_db
  = (Err ValueError_isoformat, example_db).
Proof.
  apply (proj2 (weekly_avg_falsy_end_date date_fromisoformat) eq_refl
           1 None true all_fields 0 example_db).
Defined.


Lemma calls_leave_other_users_witness :
  rows_of 2
    (run_calls date_fromisoformat
       [ CallUpsert 1 (Date day_2025_03_03) no_interpretation 5;
         CallAdd 3 (Str "2025-03-03") all_fields 6;
         CallDelete 1 (Date day_2025_03_03) ]
       example_db)
  = rows_of 2 example_db.
Proof.
  apply calls_leave_other_users; [decide_table |].
  repeat constructor; discriminate.
Defined.

End RecordsRepoMore.

(** * The table of users *)

Module UsersRepoSpec.
Import UsersRepo MoreTerms.

Local Open Scope Z_scope.

Lemma by_email_some e db u :
  by_email e db = Some u -> u ∈ db /\ email u = e.
Proof.
  unfold by_email. intros H. apply find_some in H. destruct H as [Hin Hp].
  split; [apply list_elem_of_In, Hin | apply String.eqb_eq, Hp].
Qed.

Lemma by_email_none e db :
  by_email e db = None <-> existsb (fun u => String.eqb (email u) e) db = false.
Proof.
  unfold by_email. induction db as [| u db IH]; simpl; [tauto |].
  destruct (String.eqb (email u) e); simpl; [split; discriminate | exact IH].
Qed.

Lemma by_email_none_elem e db :
  by_email e db = None <-> forall u, u ∈ db -> email u <> e.
Proof.
  unfold by_email. split.
  - intros H u Hu E. apply list_elem_of_In in Hu.
    apply (find_none _ _ H) in Hu.
    apply String.eqb_neq in Hu. contradiction.
  - intros H. destruct (List.find _ db) as [u |] eqn:E; [| reflexivity].
    apply find_some in E. destruct E as [Hin Hp].
    apply String.eqb_eq in Hp. apply list_elem_of_In in Hin.
    destruct (H u Hin Hp).
Qed.

Lemma by_email_app_new e db u :
  by_email e db = None -> email u = e -> by_email e (db ++ [u]) = Some u.
Proof.
  unfold by_email. intros Hn He.
  induction db as [| x db IH]; simpl in *.
  - rewrite He, String.eqb_refl. reflexivity.
  - destruct (String.eqb (email x) e); [discriminate | exact (IH Hn)].
Qed.

Lemma by_email_unique e db u :
  NoDup (map email db) -> u ∈ db -> email u = e -> by_email e db = Some u.
Proof.
  intros Hnd Hin He.
  destruct (by_email e db) as [u' |] eqn:E.
  - apply by_email_some in E. destruct E as [Hin' He'].
    f_equal. apply (RecordsRepoSpec.NoDup_map_eq email db);
      [exact Hnd | exact Hin' | exact Hin | congruence].
  - exfalso. exact (proj1 (by_email_none_elem e db) E u Hin He).
Qed.

Lemma next_user_id_above db u : u ∈ db -> id u < next_user_id db.
Proof.
  intros Hu. unfold next_user_id.
  assert (Hin : id u ∈ map id db)
    by (apply list_elem_of_fmap; exists u; split; [reflexivity | exact Hu]).
  destruct (map id db) as [| i ids]; [by apply elem_of_nil in Hin |].
  apply elem_of_cons in Hin. destruct Hin as [-> | Hin].
  - pose proof (RecordsRepoSpec.foldl_max_ge i ids). lia.
  - pose proof (RecordsRepoSpec.foldl_max_elem i ids _ Hin). lia.
Qed.

Lemma next_user_id_fresh db : next_user_id db ∉ map id db.
Proof.
  intros Hin. apply list_elem_of_fmap in Hin. destruct Hin as (u & E & Hu).
  pose proof (next_user_id_above db u Hu). lia.
Qed.

Lemma users_ok_nil : users_ok [].
Proof. split; constructor. Qed.

Lemma users_ok_insert db u :
  users_ok db -> id u = next_user_id db -> by_email (email u) db = None ->
  users_ok (db ++ [u]).
Proof.
  intros [Hpk Huq] Hid Hnone. unfold users_ok. rewrite !map_app. simpl. split.
  - apply NoDup_app. split; [exact Hpk |]. split; [| apply NoDup_singleton].
    intros i Hi Hi'. apply list_elem_of_singleton in Hi'. subst i.
    rewrite Hid in Hi. exact (next_user_id_fresh db Hi).
  - apply NoDup_app. split; [exact Huq |]. split; [| apply NoDup_singleton].
    intros e He He'. apply list_elem_of_singleton in He'. subst e.
    apply list_elem_of_fmap in He. destruct He as (x & Ex & Hx).
    exact (proj1 (by_email_none_elem _ db) Hnone x Hx (eq_sym Ex)).
Qed.

(** The UPDATE of [set_premium]. *)
Lemma update_flag_spec db u0 value :
  users_ok db -> u0 ∈ db ->
  let u' := {| id := id u0; email := email u0;
               is_premium := value; created_at := created_at u0 |} in
  let db' := map (fun r => if id r =? id u0 then u' else r) db in
  map id db' = map id db /\
  map email db' = map email db /\
  u' ∈ db' /\
  (forall u, u ∈ db -> u <> u0 -> u ∈ db').
Proof.
  intros [Hpk Huq] Hin u' db'.
  assert (Hsame : forall r, r ∈ db -> id r = id u0 -> r = u0)
    by (intros r Hr E;
        exact (RecordsRepoSpec.NoDup_map_eq id db r u0 Hpk Hr Hin E)).
  subst db'. rewrite !map_map. repeat split.
  - apply map_ext_in. intros r Hr.
    destruct (id r =? id u0) eqn:E; [| reflexivity].
    apply Z.eqb_eq in E. simpl. congruence.
  - apply map_ext_in. intros r Hr.
    destruct (id r =? id u0) eqn:E; [| reflexivity].
    apply Z.eqb_eq in E. apply list_elem_of_In in Hr.
    rewrite (Hsame r Hr E). reflexivity.
  - apply list_elem_of_fmap. exists u0. rewrite Z.eqb_refl.
    split; [reflexivity | exact Hin].
  - intros u Hu Hne. apply list_elem_of_fmap. exists u.
    split; [| exact Hu].
    destruct (id u =? id u0) eqn:E; [| reflexivity].
    apply Z.eqb_eq in E. destruct (Hne (Hsame u Hu E)).
Qed.

Section Repository.

Variable normalize : string -> string.

Abbreviation create := (UsersRepo.create normalize).
Abbreviation get_by_email := (UsersRepo.get_by_email normalize).
Abbreviation get_or_create := (UsersRepo.get_or_create normalize).
Abbreviation set_premium := (UsersRepo.set_premium normalize).
Abbreviation run_user_call := (UsersRepo.run_user_call normalize).
Abbreviation run_user_calls := (UsersRepo.run_user_calls normalize).

Lemma create_cases email_ p now db :
  match by_email (normalize email_) db with
  | Some _ => create email_ p now db = (Raised IntegrityError_email, db)
  | None =>
      create email_ p now db
      = (Returned {| id := next_user_id db; email := normalize email_;
                     is_premium := p; created_at := now |},
         db ++ [{| id := next_user_id db; email := normalize email_;
                   is_premium := p; created_at := now |}])
  end.
Proof.
  unfold UsersRepo.create, in_session. cbv zeta.
  destruct (by_email (normalize email_) db) as [u |] eqn:E.
  - assert (Hex : existsb (fun u => String.eqb (email u) (normalize email_)) db
                  = true).
    { destruct (existsb _ db) eqn:X; [reflexivity |].
      apply by_email_none in X. congruence. }
    rewrite Hex. reflexivity.
  - apply by_email_none in E. rewrite E. reflexivity.
Qed.

Lemma get_by_email_unfold email_ db :
  get_by_email email_ db = (Returned (by_email (normalize email_) db), db).
Proof. reflexivity. Qed.

Lemma create_users_ok email_ p now db :
  users_ok db -> users_ok (snd (create email_ p now db)).
Proof.
  intros Hok. pose proof (create_cases email_ p now db) as H.
  destruct (by_email (normalize email_) db) eqn:E; rewrite H; simpl;
    [exact Hok |].
  apply users_ok_insert; [exact Hok | reflexivity | exact E].
Qed.

Lemma get_or_create_users_ok email_ p now db :
  users_ok db -> users_ok (snd (get_or_create email_ p now db)).
Proof.
  intros Hok. unfold UsersRepo.get_or_create.
  rewrite get_by_email_unfold.
  destruct (by_email (normalize email_) db); [exact Hok |].
  apply create_users_ok, Hok.
Qed.

Lemma set_premium_users_ok email_ v db :
  users_ok db -> users_ok (snd (set_premium email_ v db)).
Proof.
  intros Hok. unfold UsersRepo.set_premium, in_session.
  destruct (by_email (normalize email_) db) as [u0 |] eqn:E; simpl;
    [| exact Hok].
  apply by_email_some in E. destruct E as [Hin _].
  destruct (update_flag_spec db u0 v Hok Hin) as (E1 & E2 & _).
  cbv zeta in *. unfold users_ok. rewrite E1, E2. exact Hok.
Qed.

(** X21.  Whatever the calls of [create], [get_or_create] and
    [set_premium], on a table of users with distinct ids and distinct
    emails (the empty one is), ids and emails stay distinct: there is at
    most one user per email. *)
Theorem one_user_per_email (cs : list user_call) (db : users) :
  users_ok db ->
  users_ok (run_user_calls cs db) /\
  forall u1 u2,
    u1 ∈ run_user_calls cs db -> u2 ∈ run_user_calls cs db ->
    email u1 = email u2 -> u1 = u2.
Proof.
  intros Hok.
  assert (H : users_ok (run_user_calls cs db)).
  { unfold UsersRepo.run_user_calls. revert db Hok.
    induction cs as [| c cs IH]; intros db Hok; simpl; [exact Hok |].
    apply IH. destruct c; simpl;
      [apply create_users_ok | apply get_or_create_users_ok
      | apply set_premium_users_ok]; exact Hok. }
  split; [exact H |]. intros u1 u2 H1 H2 E.
  exact (RecordsRepoSpec.NoDup_map_eq email _ u1 u2 (proj2 H) H1 H2 E).
Qed.

(** X22.  [create] stores the email stripped and lower-cased.  When a
    user with that normalised email is already stored the database
    refuses the insertion (IntegrityError) and the table is as before;
    otherwise one user is appended, with a fresh id, the normalised email
    and the flag of the call, and [get_by_email] with the email as typed
    finds that user. *)
Theorem create_normalises_and_refuses_known_email
    (email_ : string) (p : bool) (now : Z) (db : users) :
  (forall u0, by_email (normalize email_) db = Some u0 ->
     create email_ p now db = (Raised IntegrityError_email, db)) /\
  (by_email (normalize email_) db = None ->
     exists u,
       create email_ p now db = (Returned u, db ++ [u]) /\
       email u = normalize email_ /\ is_premium u = p /\
       created_at u = now /\
       (forall x, x ∈ db -> id x < id u) /\
       get_by_email email_ (db ++ [u]) = (Returned (Some u), db ++ [u])).
Proof.
  pose proof (create_cases email_ p now db) as H. split.
  - intros u0 E. rewrite E in H. exact H.
  - intros E. rewrite E in H. eexists. split; [exact H |].
    repeat split.
    + intros x Hx. simpl. apply next_user_id_above, Hx.
    + rewrite get_by_email_unfold. f_equal. f_equal.
      apply by_email_app_new; [exact E | reflexivity].
Qed.

Lemma get_or_create_cases email_ p now db :
  match by_email (normalize email_) db with
  | Some u => get_or_create email_ p now db = (Returned u, db)
  | None =>
      get_or_create email_ p now db
      = (Returned {| id := next_user_id db; email := normalize email_;
                     is_premium := p; created_at := now |},
         db ++ [{| id := next_user_id db; email := normalize email_;
                   is_premium := p; created_at := now |}])
  end.
Proof.
  unfold UsersRepo.get_or_create. rewrite get_by_email_unfold.
  pose proof (create_cases email_ p now db) as H.
  destruct (by_email (normalize email_) db); [reflexivity | exact H].
Qed.

(** X23.  [get_or_create] never raises, on any table.  It returns a
    stored user whose email is the normalised one.  When that email was
    already stored it returns the stored user as it is, flag included,
    and writes nothing.  Asking again, with any spelling that normalises
    alike and any flag, returns the same user and writes nothing. *)
Theorem get_or_create_idempotent
    (email_ : string) (p : bool) (now : Z) (db : users) :
  exists u db',
    get_or_create email_ p now db = (Returned u, db') /\
    u ∈ db' /\ email u = normalize email_ /\
    (forall u0, by_email (normalize email_) db = Some u0 ->
       u = u0 /\ db' = db) /\
    (by_email (normalize email_) db = None ->
       db' = db ++ [u] /\ is_premium u = p) /\
    (forall email' p' now', normalize email' = normalize email_ ->
       get_or_create email' p' now' db' = (Returned u, db')).
Proof.
  pose proof (get_or_create_cases email_ p now db) as H.
  destruct (by_email (normalize email_) db) as [u0 |] eqn:E.
  - exists u0, db. destruct (by_email_some _ _ _ E) as [Hin He].
    split; [exact H |]. split; [exact Hin |]. split; [exact He |].
    split; [intros u1 E1; split; congruence |].
    split; [discriminate |].
    intros email' p' now' En.
    pose proof (get_or_create_cases email' p' now' db) as H'.
    rewrite En, E in H'. exact H'.
  - eexists. eexists. split; [exact H |].
    repeat split; try discriminate.
    + apply elem_of_app. right. apply list_elem_of_singleton. reflexivity.
    + intros email' p' now' En.
      match goal with |- context [db ++ [?u]] => set (unew := u) end.
      pose proof (get_or_create_cases email' p' now' (db ++ [unew])) as H'.
      rewrite En in H'.
      rewrite (by_email_app_new (normalize email_) db unew E eq_refl) in H'.
      exact H'.
Qed.

Lemma set_premium_known (email_ : string) (value : bool) (db : users) u0 :
  users_ok db -> by_email (normalize email_) db = Some u0 ->
  exists u' db',
    set_premium email_ value db = (Returned tt, db') /\
    users_ok db' /\ length db' = length db /\
    id u' = id u0 /\ email u' = email u0 /\
    created_at u' = created_at u0 /\ is_premium u' = value /\
    (forall u, u ∈ db -> u <> u0 -> u ∈ db') /\
    get_by_email email_ db' = (Returned (Some u'), db').
Proof.
  intros Hok E. destruct (by_email_some _ _ _ E) as [Hin He].
  destruct (update_flag_spec db u0 value Hok Hin) as (E1 & E2 & Hu' & Hrest).
  cbv zeta in *.
  exists {| id := id u0; email := email u0; is_premium := value;
            created_at := created_at u0 |}.
  eexists. split.
  { unfold UsersRepo.set_premium, in_session. rewrite E. reflexivity. }
  assert (Hok' : users_ok
            (map (fun r => if id r =? id u0
                           then {| id := id u0; email := email u0;
                                   is_premium := value;
                                   created_at := created_at u0 |}
                           else r) db))
    by (unfold users_ok; rewrite E1, E2; exact Hok).
  split; [exact Hok' |].
  split; [apply length_map |].
  do 4 (split; [reflexivity |]).
  split; [exact Hrest |].
  rewrite get_by_email_unfold. f_equal. f_equal.
  apply by_email_unique; [exact (proj2 Hok') | exact Hu' | exact He].
Qed.

(** X24.  [set_premium] on an email that no stored user has raises
    ValueError naming the email as typed and writes nothing.  On a table
    with distinct ids and emails and a stored email, it sets the flag of
    that user and nothing else: same id, email and creation time, every
    other user as before, the table as long as before; [get_by_email]
    then returns the user with the new flag. *)
Theorem set_premium_sets_only_the_flag
    (email_ : string) (value : bool) (db : users) :
  users_ok db ->
  (by_email (normalize email_) db = None ->
     set_premium email_ value db = (Raised (ValueError_unknown email_), db))
  /\
  (forall u0, by_email (normalize email_) db = Some u0 ->
     exists u' db',
       set_premium email_ value db = (Returned tt, db') /\
       users_ok db' /\ length db' = length db /\
       id u' = id u0 /\ email u' = email u0 /\
       created_at u' = created_at u0 /\ is_premium u' = value /\
       (forall u, u ∈ db -> u <> u0 -> u ∈ db') /\
       get_by_email email_ db' = (Returned (Some u'), db')).
Proof.
  intros Hok. split.
  - intros E. unfold UsersRepo.set_premium, in_session. rewrite E.
    reflexivity.
  - intros u0 E. exact (set_premium_known email_ value db u0 Hok E).
Qed.

(** X25.  The subscription of the pages: the user that [get_or_create]
    returns for an email can be made premium under the email the
    repository stored.  [set_premium] with that email does not raise,
    and [get_by_email] then returns the same user, premium.  The stored
    email is normalised already: normalising it again changes nothing,
    as [strip] and [lower] do. *)
Theorem subscribe_after_get_or_create
    (email_ : string) (p : bool) (now : Z) (db : users) :
  users_ok db ->
  normalize (normalize email_) = normalize email_ ->
  exists u db1 db2 u',
    get_or_create email_ p now db = (Returned u, db1) /\
    set_premium (email u) true db1 = (Returned tt, db2) /\
    get_by_email (email u) db2 = (Returned (Some u'), db2) /\
    id u' = id u /\ email u' = email u /\ is_premium u' = true /\
    users_ok db2 /\ length db2 = length db1.
Proof.
  intros Hok Hidem.
  assert (H : exists u db1,
             get_or_create email_ p now db = (Returned u, db1) /\
             users_ok db1 /\ by_email (normalize email_) db1 = Some u /\
             email u = normalize email_).
  { pose proof (get_or_create_cases email_ p now db) as H.
    destruct (by_email (normalize email_) db) as [u0 |] eqn:E.
    - exists u0, db. split; [exact H |]. split; [exact Hok |].
      split; [exact E |]. exact (proj2 (by_email_some _ _ _ E)).
    - eexists. eexists. split; [exact H |].
      split; [apply users_ok_insert; [exact Hok | reflexivity | exact E] |].
      split; [apply by_email_app_new; [exact E | reflexivity] |].
      reflexivity. }
  destruct H as (u & db1 & E1 & Hok1 & Hb & He).
  assert (Hb' : by_email (normalize (email u)) db1 = Some u)
    by (rewrite He, Hidem; exact Hb).
  destruct (set_premium_known (email u) true db1 u Hok1 Hb')
    as (u' & db2 & E2 & Hok2 & Hlen & Hid & Hem & _ & Hp & _ & Eg).
  exists u, db1, db2, u'. auto 10.
Qed.

End Repository.

Lemma one_user_per_email_witness :
  users_ok
    (run_user_calls strip_lower
       [CallCreate " Ada@Example.org " true 30;
        CallGetOrCreate "carl@example.org" false 40;
        CallSetPremium "CARL@example.org" true] two_users).
Proof.
  refine (proj1 (one_user_per_email strip_lower _ two_users _)).
  refine (bool_decide_unpack _ _). vm_compute. exact I.
Defined.

Lemma create_normalises_and_refuses_known_email_witness :
  create strip_lower " Ada@Example.org " true 30 two_users
  = (Raised IntegrityError_email, two_users).
Proof.
  refine (proj1 (create_normalises_and_refuses_known_email
                   strip_lower " Ada@Example.org " true 30 two_users) _ _).
  vm_compute. reflexivity.
Defined.

Lemma get_or_create_idempotent_witness :
  get_or_create strip_lower " BOB@example.org" false 50 two_users
  = (Returned {| id := 2; email := "bob@example.org"; is_premium := true;
                 created_at := 20 |}, two_users).
Proof.
  destruct (get_or_create_idempotent strip_lower " BOB@example.org" false 50
              two_users) as (u & db' & E & _ & _ & Hknown & _).
  destruct (Hknown {| id := 2; email := "bob@example.org";
                      is_premium := true; created_at := 20 |})
    as [Hu Hdb]; [vm_compute; reflexivity |].
  rewrite Hu, Hdb in E. exact E.
Defined.

Lemma subscribe_after_get_or_create_witness :
  exists u db1 db2 u',
    get_or_create strip_lower "Carl@Example.org " false 50 two_users
    = (Returned u, db1) /\
    set_premium strip_lower (email u) true db1 = (Returned tt, db2) /\
    get_by_email strip_lower (email u) db2 = (Returned (Some u'), db2) /\
    is_premium u' = true.
Proof.
  destruct (subscribe_after_get_or_create strip_lower "Carl@Example.org "
              false 50 two_users)
    as (u & db1 & db2 & u' & E1 & E2 & E3 & _ & _ & Hp & _).
  - refine (bool_decide_unpack _ _). vm_compute. exact I.
  - vm_compute. reflexivity.
  - exists u, db1, db2, u'. auto.
Defined.

Lemma set_premium_sets_only_the_flag_witness :
  set_premium strip_lower "nobody@example.org" true two_users
  = (Raised (ValueError_unknown "nobody@example.org"), two_users).
Proof.
  refine (proj1 (set_premium_sets_only_the_flag
                   strip_lower "nobody@example.org" true two_users _) _).
  - refine (bool_decide_unpack _ _). vm_compute. exact I.
  - vm_compute. reflexivity.
Defined.

End UsersRepoSpec.

(** * The form of the day and the seed loop *)

Module WorkflowSpec.
Import Models Db RecordsRepo RecordsRepoTerms MoreTerms MainPage SeedLoop.
Import RecordsRepoSpec.

(** The score of the default call on a valid day. *)
Lemma default_scj_bounds (d : ScoreEngine.DailyInput) :
  ScoreEngineTerms.in_domain d ->
  exists res,
    ScoreEngine.compute_scj_default d = Ok res /\
    0 <= ScoreEngine.scj res <= 10.
Proof.
  intros Hd. apply ScoreEngineSpec.validate_input_ok in Hd.
  eexists. split; [apply (ScoreEngineSpec.compute_scj_ok _ _ _ _ Hd) |].
  cbn [ScoreEngine.scj].
  set (raw_score := (ScoreEngine.numerator _ d / ScoreEngine.denom _)%Q).
  pose proof (ScoreEngineSpec._clamp_bounds raw_score 0 10 ltac:(lra))
    as [Hlo Hhi].
  split.
  - apply ScoreEngineMore.py_round_nonneg, Hlo.
  - eapply Qle_trans; [apply ScoreEngineSpec.py_round_mono, Hhi
                      | apply ScoreEngineMore.py_round_10].
Qed.

Lemma day_fields_required d s i : supplies_required (day_fields d s i).
Proof. unfold supplies_required, day_fields; simpl. repeat split; eauto. Qed.

Section Repository.

Variable fromisoformat : string -> option Z.

Abbreviation upsert := (RecordsRepo.upsert fromisoformat).

(** [upsert] with a [dt.date] and the required values: it returns, the
    day has the one row it returns, and the rows of the other days and
    users are the ones there were. *)
Lemma upsert_day user day f now db :
  table_ok db -> supplies_required f ->
  exists r db',
    upsert user (Date day) f now db = (Ok r, db') /\
    table_ok db' /\
    rows_on user day db' = [r] /\
    holds f r /\ user_id r = user /\ date r = day /\
    (forall x, ~ (user_id x = user /\ date x = day) -> x ∈ db' <-> x ∈ db) /\
    (forall rec, rec ∈ db -> user_id rec = user -> date rec = day ->
       id r = id rec /\ created_at r = created_at rec /\
       length db' = length db).
Proof.
  intros Hok Hreq. pose proof Hok as (Hpk & Huq & _).
  assert (Hn : _normalize_date fromisoformat (Date day) = Ok day)
    by reflexivity.
  destruct (List.find (on_day user day) db) as [rec |] eqn:Hf.
  - pose proof (find_some_in _ _ _ Hf) as [Hin Hp].
    apply on_day_true in Hp. destruct Hp as [Hu Hd].
    destruct (upsert_existing fromisoformat user (Date day) f now db day rec
                Hok Hn Hin Hu Hd) as (E & Hok' & Hr & Hrows).
    exists (setattrs rec f), (replace_row (setattrs rec f) db).
    split; [exact E |]. split; [exact Hok' |]. split; [exact Hrows |].
    split; [apply holds_setattrs |]. split; [exact Hu |]. split; [exact Hd |].
    split.
    + intros x Hx.
      rewrite (replace_row_spec (setattrs rec f) rec db Hpk Hin eq_refl x).
      split.
      * intros [-> | [Hxin _]]; [| exact Hxin].
        destruct Hx. split; [exact Hu | exact Hd].
      * intros Hxin. right. split; [exact Hxin |].
        intros ->. apply Hx. split; [exact Hu | exact Hd].
    + intros rec' Hin' Hu' Hd'.
      pose proof (find_on_day _ _ _ _ Huq Hin' Hu' Hd') as Hf'.
      rewrite Hf in Hf'. injection Hf' as <-.
      split; [reflexivity |]. split; [reflexivity |]. apply length_map.
  - rewrite (upsert_not_found fromisoformat _ _ _ _ _ _ Hn Hf).
    destruct (insert_fresh user day f now db Hok Hf Hreq)
      as (r & E & Hok' & Hu & Hd & _ & _ & _ & Hh & Hrows).
    exists r, (db ++ [r]).
    split; [exact E |]. split; [exact Hok' |]. split; [exact Hrows |].
    split; [exact Hh |]. split; [exact Hu |]. split; [exact Hd |].
    split.
    + intros x Hx. rewrite elem_of_app, list_elem_of_singleton. split.
      * intros [Hxin | ->]; [exact Hxin |].
        destruct Hx. split; [exact Hu | exact Hd].
      * intros Hxin. left. exact Hxin.
    + intros rec Hin Hu' Hd'. exfalso.
      apply list_elem_of_In in Hin.
      pose proof (find_none _ _ Hf rec Hin) as Hp.
      assert (Ht : on_day user day rec = true)
        by (apply on_day_true; split; assumption).
      congruence.
Qed.

(** [upsert] of the values that the row of the day already holds. *)
Lemma upsert_again user day f now db r :
  table_ok db -> r ∈ db -> user_id r = user -> date r = day -> holds f r ->
  upsert user (Date day) f now db = (Ok r, db).
Proof.
  intros Hok Hin Hu Hd Hh. pose proof Hok as (Hpk & Huq & _).
  rewrite (upsert_found fromisoformat user (Date day) f now db day r eq_refl
             (find_on_day _ _ _ _ Huq Hin Hu Hd)).
  rewrite (holds_setattrs_id _ _ Hh), (replace_row_self _ _ Hpk Hin).
  reflexivity.
Qed.

Lemma rows_on_singleton_elem user day db r :
  rows_on user day db = [r] -> r ∈ db /\ user_id r = user /\ date r = day.
Proof.
  intros E.
  assert (H : In r (rows_on user day db)) by (rewrite E; left; reflexivity).
  apply filter_In in H. destruct H as [Hin Hp].
  apply on_day_true in Hp. split; [apply list_elem_of_In, Hin | exact Hp].
Qed.

End Repository.

(** ** [app/main.py] *)

Section Page.

Variable fromisoformat : string -> option Z.
Variable provider : Q -> option AiService.DailyInputsLite -> option string.

Abbreviation on_submit := (MainPage.on_submit fromisoformat provider).

(** X26.  Submitting the form with values in the ranges of its sliders
    never raises: the day has then exactly one row for the user, which
    holds the four values, the score of the default call, within
    [0, 10], and a text as interpretation (the one of [interpret_scj]
    when the box is not ticked, the one of the provider when it returns
    one, the marked fallback when it raises); the rows of other days
    and users are as before, and submitting the same form again changes
    nothing. *)
Theorem submit_saves_the_day
    (user day : Z) (h st so c : Q) (use_ai : bool) (now : Z) (db : table) :
  table_ok db ->
  0 <= h <= 10 -> 0 <= st <= 10 -> 0 <= so <= 14 -> 0 <= c <= 10 ->
  exists r db' res,
    on_submit user day h st so c use_ai now db = (Ok r, db') /\
    ScoreEngine.compute_scj_default (ScoreEngine.mk_DailyInput h so st c)
    = Ok res /\
    table_ok db' /\
    rows_on user day db' = [r] /\
    humeur r = h /\ stress r = st /\ sommeil r = so /\ concentration r = c /\
    scj r = ScoreEngine.scj res /\ 0 <= scj r <= 10 /\
    (use_ai = false ->
       interpretation r = Some (Interpretation.interpret_scj (scj r))) /\
    (use_ai = true ->
       match AiService.generate_interpretation provider (scj r)
               (Some (AiService.mk_DailyInputsLite h so st c)) with
       | Some text => interpretation r = Some text
       | None =>
           interpretation r
           = Some (String.append "(IA indisponible) "
                     (Interpretation.interpret_scj (scj r)))
       end) /\
    (forall x, ~ (user_id x = user /\ date x = day) -> x ∈ db' <-> x ∈ db) /\
    (forall now', on_submit user day h st so c use_ai now' db' = (Ok r, db')).
Proof.
  intros Hok Hh Hst Hso Hc.
  set (d := ScoreEngine.mk_DailyInput h so st c).
  assert (Hd : ScoreEngineTerms.in_domain d) by (repeat split; simpl; tauto).
  destruct (default_scj_bounds d Hd) as (res & E & Hb).
  assert (Hsub : forall now0 db0,
             MainPage.on_submit fromisoformat provider user day h st so c
               use_ai now0 db0
             = RecordsRepo.upsert fromisoformat user (Date day)
                 (day_fields d (ScoreEngine.scj res)
                    (Some (if use_ai then
                             match AiService.generate_interpretation provider
                                     (ScoreEngine.scj res)
                                     (Some (AiService.lite d)) with
                             | Some t => t
                             | None =>
                                 String.append "(IA indisponible) "
                                   (Interpretation.interpret_scj
                                      (ScoreEngine.scj res))
                             end
                           else Interpretation.interpret_scj
                                  (ScoreEngine.scj res)))) now0 db0).
  { intros now0 db0. unfold MainPage.on_submit. cbv zeta. fold d.
    rewrite E. reflexivity. }
  match type of Hsub with
  | forall now0 db0, _ = RecordsRepo.upsert _ _ _ ?f0 _ _ => set (f := f0) in *
  end.
  destruct (upsert_day fromisoformat user day f now db Hok
              (day_fields_required _ _ _))
    as (r & db' & Eu & Hok' & Hrows & Hholds & Hu & Hdate & Hframe & _).
  destruct Hholds as (H1 & H2 & H3 & H4 & H5 & H6).
  specialize (H1 _ eq_refl). specialize (H2 _ eq_refl).
  specialize (H3 _ eq_refl). specialize (H4 _ eq_refl).
  specialize (H5 _ eq_refl). specialize (H6 _ eq_refl).
  cbn [ScoreEngine.humeur ScoreEngine.sommeil ScoreEngine.stress
       ScoreEngine.concentration d] in H1, H2, H3, H4.
  exists r, db', res.
  split; [rewrite Hsub; exact Eu |]. split; [exact E |].
  split; [exact Hok' |]. split; [exact Hrows |].
  split; [exact H1 |]. split; [exact H3 |]. split; [exact H2 |].
  split; [exact H4 |]. split; [exact H5 |].
  split; [rewrite H5; exact Hb |].
  split; [intros ->; rewrite H6, H5; reflexivity |].
  split.
  { intros ->. rewrite H6, H5.
    change (AiService.lite d) with (AiService.mk_DailyInputsLite h so st c).
    destruct (AiService.generate_interpretation provider _ _); reflexivity. }
  split; [exact Hframe |].
  intros now'. rewrite Hsub.
  destruct (rows_on_singleton_elem _ _ _ _ Hrows) as (Hin & _ & _).
  apply upsert_again; try assumption.
  unfold holds, f, day_fields; cbn.
  repeat split; intros v Hv; injection Hv as <-; assumption.
Qed.

End Page.

(** ** [scripts/seed_local_data.py] *)

Lemma inputs_in_domain (dr : draw) : ScoreEngineTerms.in_domain (inputs_of dr).
Proof.
  unfold ScoreEngineTerms.in_domain, inputs_of, Seed.sample_day_inputs.
  cbv zeta.
  cbn [ScoreEngine.humeur ScoreEngine.stress ScoreEngine.concentration
       ScoreEngine.sommeil].
  pose proof (SeedSpec.py_round_1_between (Seed.clamp (g_humeur dr) 0 10)
                0 10 0 100 eq_refl eq_refl
                (ScoreEngineSpec._clamp_bounds _ 0 10 ltac:(lra))).
  pose proof (SeedSpec.py_round_1_between (Seed.clamp (g_stress dr) 0 10)
                0 10 0 100 eq_refl eq_refl
                (ScoreEngineSpec._clamp_bounds _ 0 10 ltac:(lra))).
  pose proof (SeedSpec.py_round_1_between
                (Seed.clamp (g_concentration dr) 0 10)
                0 10 0 100 eq_refl eq_refl
                (ScoreEngineSpec._clamp_bounds _ 0 10 ltac:(lra))).
  pose proof (SeedSpec.py_round_1_between (Seed.clamp (g_sommeil dr) 4 9)
                4 9 40 90 eq_refl eq_refl
                (ScoreEngineSpec._clamp_bounds _ 4 9 ltac:(lra))).
  repeat split; lra.
Qed.

Section Loop.
Import WorkflowTerms.

Variable fromisoformat : string -> option Z.
Variable ai : option (Q -> option AiService.DailyInputsLite -> option string).
Variable draws : Z -> draw.

Abbreviation seed_day := (SeedLoop.seed_day fromisoformat ai draws).
Abbreviation seed_days := (SeedLoop.seed_days fromisoformat ai draws).

Lemma interpretation_of_returns scj inputs :
  provider_returns ai -> is_Some (interpretation_of ai scj inputs).
Proof.
  intros Hp. unfold interpretation_of.
  destruct ai as [generate |] eqn:Ea; [| eexists; reflexivity].
  unfold AiService.generate_interpretation. cbv zeta.
  destruct (Hp generate eq_refl
              (ScoreEngine.py_max 0 (ScoreEngine.py_min 10 scj))
              (Some (AiService.lite inputs))) as [text Et].
  rewrite Et. eexists; reflexivity.
Qed.

Lemma written_holds u day r :
  written ai draws u day r ->
  exists res i,
    ScoreEngine.compute_scj_default (inputs_of (draws day)) = Ok res /\
    interpretation_of ai (ScoreEngine.scj res) (inputs_of (draws day))
    = Some i /\
    holds (day_fields (inputs_of (draws day)) (ScoreEngine.scj res) i) r.
Proof.
  unfold written. cbv zeta.
  intros (_ & _ & H1 & H2 & H3 & H4 & _ & (res & E & H5 & H6) & _).
  exists res, (interpretation r).
  split; [exact E |]. split; [exact H6 |].
  unfold holds, day_fields.
  cbn [f_humeur f_sommeil f_stress f_concentration f_scj f_interpretation].
  repeat split; intros v Hv; injection Hv as <-;
    first [assumption | reflexivity].
Qed.

(** One iteration. *)
Lemma seed_day_spec clock u day db :
  table_ok db -> provider_returns ai ->
  exists db',
    seed_day clock u day db = (None, db') /\
    table_ok db' /\
    (skip (draws day) = false ->
       exists r, rows_on u day db' = [r] /\ written ai draws u day r) /\
    (forall x,
       ~ (user_id x = u /\ date x = day /\ skip (draws day) = false) ->
       x ∈ db' <-> x ∈ db).
Proof.
  intros Hok Hp. unfold SeedLoop.seed_day.
  destruct (skip (draws day)) eqn:Hs.
  { exists db. split; [reflexivity |]. split; [exact Hok |].
    split; [discriminate | reflexivity]. }
  cbv zeta.
  pose proof (inputs_in_domain (draws day)) as Hd.
  destruct (default_scj_bounds _ Hd) as (res & E & Hb).
  rewrite E.
  destruct (interpretation_of_returns (ScoreEngine.scj res)
              (inputs_of (draws day)) Hp) as [i Ei].
  rewrite Ei.
  destruct (upsert_day fromisoformat u day
              (day_fields (inputs_of (draws day)) (ScoreEngine.scj res) i)
              (clock day) db Hok (day_fields_required _ _ _))
    as (r & db' & Eu & Hok' & Hrows & Hholds & Hu & Hdate & Hframe & _).
  rewrite Eu. exists db'.
  split; [reflexivity |]. split; [exact Hok' |]. split.
  - intros _. exists r. split; [exact Hrows |].
    destruct Hholds as (H1 & H2 & H3 & H4 & H5 & H6).
    specialize (H1 _ eq_refl). specialize (H2 _ eq_refl).
    specialize (H3 _ eq_refl). specialize (H4 _ eq_refl).
    specialize (H5 _ eq_refl). specialize (H6 _ eq_refl).
    unfold written. cbv zeta.
    split; [exact Hu |]. split; [exact Hdate |].
    split; [exact H1 |]. split; [exact H2 |]. split; [exact H3 |].
    split; [exact H4 |]. split; [exact Hd |].
    split; [| rewrite H5; exact Hb].
    exists res. split; [exact E |]. split; [exact H5 |].
    rewrite H6. exact Ei.
  - intros x Hx. apply Hframe. intros [Hxu Hxd]. apply Hx. auto.
Qed.

(** The loop over days that are all different. *)
Lemma seed_days_spec clock u days db :
  NoDup days -> table_ok db -> provider_returns ai ->
  exists db',
    seed_days clock u days db = (None, db') /\
    table_ok db' /\
    (forall day, day ∈ days -> skip (draws day) = false ->
       exists r, rows_on u day db' = [r] /\ written ai draws u day r) /\
    (forall x,
       ~ (user_id x = u /\ date x ∈ days /\ skip (draws (date x)) = false) ->
       x ∈ db' <-> x ∈ db).
Proof.
  intros Hnd Hok Hp. revert db Hok.
  induction days as [| day rest IH]; intros db Hok.
  { exists db. split; [reflexivity |]. split; [exact Hok |]. split.
    - intros day Hin. apply elem_of_nil in Hin. destruct Hin.
    - reflexivity. }
  apply NoDup_cons in Hnd. destruct Hnd as [Hfresh Hnd].
  destruct (seed_day_spec clock u day db Hok Hp)
    as (db1 & E1 & Hok1 & Hw1 & Hf1).
  destruct (IH Hnd db1 Hok1) as (db' & E' & Hok' & Hw' & Hf').
  exists db'. cbn [SeedLoop.seed_days]. rewrite E1.
  split; [exact E' |]. split; [exact Hok' |]. split.
  - intros day' Hin Hs. apply elem_of_cons in Hin.
    destruct Hin as [-> | Hin]; [| exact (Hw' day' Hin Hs)].
    destruct (Hw1 Hs) as (r & Hrows & Hw).
    exists r. split; [| exact Hw].
    destruct (rows_on_singleton_elem _ _ _ _ Hrows) as (Hin1 & Hu & Hd).
    destruct Hok' as (_ & Huq' & _).
    apply (rows_on_member _ _ _ _ Huq'); [| exact Hu | exact Hd].
    apply Hf'; [| exact Hin1].
    intros (_ & Hd' & _). rewrite Hd in Hd'. exact (Hfresh Hd').
  - intros x Hx. rewrite Hf', Hf1; [reflexivity | |].
    + intros (Hu & Hd & Hs). apply Hx. split; [exact Hu |].
      split; [apply elem_of_cons; left; exact Hd |]. rewrite Hd. exact Hs.
    + intros (Hu & Hd & Hs). apply Hx. split; [exact Hu |].
      split; [apply elem_of_cons; right; exact Hd | exact Hs].
Qed.

(** The loop on a table that holds what it writes. *)
Lemma seed_days_again clock u days db :
  table_ok db ->
  (forall day, day ∈ days -> skip (draws day) = false ->
     exists r, r ∈ db /\ written ai draws u day r) ->
  seed_days clock u days db = (None, db).
Proof.
  intros Hok. induction days as [| day rest IH]; intros Hall;
    [reflexivity |].
  cbn [SeedLoop.seed_days].
  assert (E : seed_day clock u day db = (None, db)).
  { unfold SeedLoop.seed_day.
    destruct (skip (draws day)) eqn:Hs; [reflexivity |]. cbv zeta.
    destruct (Hall day ltac:(apply elem_of_cons; left; reflexivity) Hs)
      as (r & Hin & Hw).
    pose proof Hw as (Hu & Hd & _).
    destruct (written_holds u day r Hw) as (res & i & Ec & Ei & Hh).
    rewrite Ec, Ei.
    rewrite (upsert_again fromisoformat u day _ (clock day) db r
               Hok Hin Hu Hd Hh).
    reflexivity. }
  rewrite E. apply IH. intros day' Hin. apply Hall.
  apply elem_of_cons. right. exact Hin.
Qed.

Lemma NoDup_daterange end_ days : NoDup (Seed.daterange end_ days).
Proof.
  unfold Seed.daterange. apply NoDup_fmap_2; [| apply NoDup_seqZ].
  intros i j H. lia.
Qed.

(** X27.  The loop of the seed script over [daterange(end, days)] for
    one user, with a provider that returns (or without one), never
    raises.  Afterwards every day of the range that was not skipped has
    exactly one row for the user, holding the sampled inputs, their
    score and the interpretation; every other row of the table is as
    before; and the script can be run again: the same draws over the
    resulting table change nothing, whatever the time. *)
Theorem seed_loop_rerunnable
    (clock : Z -> Z) (u end_ days : Z) (db : table) :
  table_ok db -> provider_returns ai ->
  exists db',
    seed_days clock u (Seed.daterange end_ days) db = (None, db') /\
    table_ok db' /\
    (forall day, day ∈ Seed.daterange end_ days ->
       skip (draws day) = false ->
       exists r, rows_on u day db' = [r] /\ written ai draws u day r) /\
    (forall x,
       ~ (user_id x = u /\ date x ∈ Seed.daterange end_ days /\
          skip (draws (date x)) = false) ->
       x ∈ db' <-> x ∈ db) /\
    (forall clock',
       seed_days clock' u (Seed.daterange end_ days) db' = (None, db')).
Proof.
  intros Hok Hp.
  destruct (seed_days_spec clock u _ db (NoDup_daterange end_ days) Hok Hp)
    as (db' & E & Hok' & Hw & Hf).
  exists db'. split; [exact E |]. split; [exact Hok' |].
  split; [exact Hw |]. split; [exact Hf |].
  intros clock'. apply seed_days_again; [exact Hok' |].
  intros day Hin Hs. destruct (Hw day Hin Hs) as (r & Hrows & Hwr).
  exists r. split; [| exact Hwr].
  exact (proj1 (rows_on_singleton_elem _ _ _ _ Hrows)).
Qed.

End Loop.

Lemma seed_loop_rerunnable_witness :
  exists db',
    SeedLoop.seed_days Calendar.date_fromisoformat
      (Some WorkflowTerms.stub_provider) WorkflowTerms.example_draws
      (fun day => day) 1 (Seed.daterange day_2025_03_03 3) sparse_week
    = (None, db') /\
    length db' = 6%nat.
Proof.
  destruct (seed_loop_rerunnable Calendar.date_fromisoformat
              (Some WorkflowTerms.stub_provider) WorkflowTerms.example_draws
              (fun day => day) 1 day_2025_03_03 3 sparse_week)
    as (db' & E & _); [decide_table | |].
  - intros generate Eg scj inputs. injection Eg as <-.
    eexists; reflexivity.
  - exists db'. split; [exact E |].
    vm_compute in E. injection E as <-. reflexivity.
Defined.

Lemma submit_saves_the_day_witness :
  exists r db',
    MainPage.on_submit Calendar.date_fromisoformat (fun _ _ => None)
      1 day_2025_03_03 7 3 6.5 7.5 true 200 example_db = (Ok r, db') /\
    id r = 1%Z /\ length db' = 2%nat /\ rows_on 1 day_2025_03_03 db' = [r].
Proof.
  destruct (submit_saves_the_day Calendar.date_fromisoformat (fun _ _ => None)
              1 day_2025_03_03 7 3 6.5 7.5 true 200 example_db)
    as (r & db' & res & E & _ & _ & Hrows & _);
    [decide_table | lra | lra | lra | lra |].
  exists r, db'. split; [exact E |].
  vm_compute in E. injection E as <- <-.
  split; [reflexivity |]. split; [reflexivity |]. exact Hrows.
Defined.

End WorkflowSpec.
